(** * Animes_Search-Bot: a shallow embedding of [bot.py]

    The development follows the layout of the program:
    - [Str]      Python strings as sequences of code points, with the string
                 operations the program uses ([split], [startswith], [int],
                 [re.sub], [strip]);
    - [Py]       the dynamically typed values the program passes around
                 (JSON records of the catalog, tuples, dicts) and the Python
                 operations applied to them, with the exceptions they raise;
    - [Env]      what the program takes from outside: the catalog, the clock,
                 library functions;
    - [Tg]       what a handler sends to the chat;
    - [Db]       class [AnimeDatabase]: the SQLite tables and its accessors;
    - [App]      the state of the running program and its computations;
    - [Jikan]    the catalog client;
    - [Engine]   achievements and recommendations;
    - [Router]   keyboards and [button_handler];
    - [Text]     [create_slug];
    - [Examples] concrete worlds and states, [Spec] the predicates used in
                 the statements;
    - [Lists]    the custom lists of [AnimeDatabase];
    - [Markup]   [escape_html] and [truncate];
    - [Keyboards] the keyboards of an anime card, of the lists and of the
                 top list;
    - [Stats]    [format_user_stats];
    - [Laws]     invariants and predicates of the later statements,
                 [Samples] more concrete states.
    Theorems come after all definitions. *)

From Stdlib Require Import ZArith NArith List String Ascii Bool Lia.
From Stdlib Require Import QArith Qcanon.
From Stdlib Require DecimalString DecimalPos.
From Stdlib Require Import Sorting.Sorted.
From stdpp Require Import base option list numbers gmap.

Local Open Scope Z_scope.
Set Warnings "-register-all".

(* ===================================================================== *)
(** * Python strings *)
(* ===================================================================== *)

Module Str.

(** A Python [str] is a sequence of Unicode code points. *)
Definition char : Type := N.
Definition str : Type := list char.

(** Literals are written as UTF-8 text and decoded to code points. *)
Definition byte_of (a : ascii) : N := N_of_ascii a.

Fixpoint bytes_of (s : string) : list N :=
  match s with
  | EmptyString => []
  | String a r => byte_of a :: bytes_of r
  end.

Fixpoint utf8_decode (bs : list N) : str :=
  match bs with
  | [] => []
  | b :: r =>
    if (b <? 128)%N then b :: utf8_decode r
    else if (b <? 224)%N then
      match r with
      | b1 :: r1 => ((b - 192) * 64 + (b1 - 128))%N :: utf8_decode r1
      | _ => []
      end
    else if (b <? 240)%N then
      match r with
      | b1 :: b2 :: r2 =>
        ((b - 224) * 4096 + (b1 - 128) * 64 + (b2 - 128))%N :: utf8_decode r2
      | _ => []
      end
    else
      match r with
      | b1 :: b2 :: b3 :: r3 =>
        ((b - 240) * 262144 + (b1 - 128) * 4096 + (b2 - 128) * 64 + (b3 - 128))%N
          :: utf8_decode r3
      | _ => []
      end
  end.

Definition u (s : string) : str := utf8_decode (bytes_of s).

Fixpoint str_eqb (a b : str) : bool :=
  match a, b with
  | [], [] => true
  | x :: a', y :: b' => (x =? y)%N && str_eqb a' b'
  | _, _ => false
  end.

(** ** The characters the program names *)
Definition c_underscore : char := 95%N.
Definition c_hyphen : char := 45%N.
Definition c_plus : char := 43%N.

Definition is_digit (c : char) : bool := ((48 <=? c) && (c <=? 57))%N.
Definition is_lower_az (c : char) : bool := ((97 <=? c) && (c <=? 122))%N.

(** [str.isspace] for one code point, which is also what [\s] matches in a
    [str] pattern: the characters whose bidirectional class is WS, B or S,
    or whose category is Zs. *)
Definition is_space (c : char) : bool :=
  (((9 <=? c) && (c <=? 13)) || ((28 <=? c) && (c <=? 32))
   || (c =? 133) || (c =? 160) || (c =? 5760)
   || ((8192 <=? c) && (c <=? 8202))
   || (c =? 8232) || (c =? 8233) || (c =? 8239) || (c =? 8287)
   || (c =? 12288))%N.

(** ** [s.startswith(p)] *)
Fixpoint startswith (s p : str) : bool :=
  match p, s with
  | [], _ => true
  | _ :: _, [] => false
  | a :: p', b :: s' => (a =? b)%N && startswith s' p'
  end.

(** ** [s.split(sep)] for a one-character separator: never empty. *)
Fixpoint split (sep : char) (s : str) : list str :=
  match s with
  | [] => [[]]
  | c :: r =>
    if (c =? sep)%N then [] :: split sep r
    else match split sep r with
         | [] => [[c]]
         | w :: ws => (c :: w) :: ws
         end
  end.

(** ** [sep.join(parts)] *)
Fixpoint join (sep : str) (parts : list str) : str :=
  match parts with
  | [] => []
  | [p] => p
  | p :: ps => p ++ sep ++ join sep ps
  end.

(** ** Decimal rendering of an integer, as [f"{n}"] and [str(n)] give it. *)
Definition of_Z (z : Z) : str :=
  map byte_of (list_ascii_of_string (DecimalString.NilZero.string_of_int (Z.to_int z))).

(** ** [int(s)] for a [str]

    Surrounding whitespace is dropped, then an optional sign and at least one
    decimal digit must remain.  The result is [None] where Python raises
    [ValueError].  Only the ASCII digits are read as digits (CPython also
    takes the other characters of category Nd, which no identifier built by
    the program contains); the digit-group underscore cannot occur here since
    every caller splits on it first. *)
Fixpoint lstrip_by (p : char -> bool) (s : str) : str :=
  match s with
  | c :: r => if p c then lstrip_by p r else s
  | [] => []
  end.

Definition rstrip_by (p : char -> bool) (s : str) : str :=
  rev (lstrip_by p (rev s)).

Definition strip_by (p : char -> bool) (s : str) : str :=
  rstrip_by p (lstrip_by p s).

Fixpoint digits_value (acc : Z) (s : str) : option Z :=
  match s with
  | [] => Some acc
  | c :: r =>
    if is_digit c then digits_value (10 * acc + (Z.of_N c - 48)) r else None
  end.

Definition unsigned_value (s : str) : option Z :=
  match s with
  | [] => None
  | _ => digits_value 0 s
  end.

Definition to_int (s : str) : option Z :=
  match strip_by is_space s with
  | c :: r =>
    if (c =? c_hyphen)%N then Z.opp <$> unsigned_value r
    else if (c =? c_plus)%N then unsigned_value r
    else unsigned_value (c :: r)
  | [] => None
  end.

(** ** [re.sub(r'C+', rep, s)] for a character class [C]: every maximal run
    of characters of the class is replaced by [rep].  The scan goes left to
    right; [in_run] tells that the previous character was of the class, so
    that the run it belongs to has been replaced already. *)
Fixpoint sub_runs_from (cls : char -> bool) (rep : str) (in_run : bool) (s : str) : str :=
  match s with
  | [] => []
  | c :: r =>
    if cls c then
      if in_run then sub_runs_from cls rep true r
      else rep ++ sub_runs_from cls rep true r
    else c :: sub_runs_from cls rep false r
  end.

Definition sub_runs (cls : char -> bool) (rep : str) (s : str) : str :=
  sub_runs_from cls rep false s.

End Str.


(* ===================================================================== *)
(** * Python values *)
(* ===================================================================== *)

Module Py.
Import Str.

(** The values the program handles: what [r.json()] parses from a response
    body, the dicts rebuilt from cache rows, and the tuple returned by
    [get_top_anime].  A dict keeps its insertion order; its keys are strings
    (as in JSON) and occur once.  A float is the rational it denotes (nan and
    the infinities are not represented). *)
Inductive pyval : Type :=
| PNone
| PBool (b : bool)
| PInt (z : Z)
| PFloat (q : Qc)
| PStr (s : str)
| PList (l : list pyval)
| PTuple (l : list pyval)
| PDict (d : list (str * pyval)).

(** The exception classes that occur. *)
Inductive exn : Type :=
| RequestException      (* requests.exceptions.RequestException: connection, timeout *)
| JSONDecodeError       (* raised by [r.json()] on a body that is not JSON *)
| AttributeError
| TypeError
| KeyError
| ValueError
| IndexError
| OverflowError
| SqliteError.          (* sqlite3.Error: constraint, binding, datatype *)

Inductive res (A : Type) : Type :=
| Ok (a : A)
| Raise (e : exn).
Arguments Ok {A} a.
Arguments Raise {A} e.

Definition res_bind {A B} (r : res A) (k : A -> res B) : res B :=
  match r with
  | Ok a => k a
  | Raise e => Raise e
  end.

#[export] Instance res_mbind : MBind res := fun A B k r => res_bind r k.
#[export] Instance res_mret : MRet res := @Ok.

Fixpoint dict_lookup (k : str) (d : list (str * pyval)) : option pyval :=
  match d with
  | [] => None
  | (k', v) :: r => if str_eqb k k' then Some v else dict_lookup k r
  end.

(** ** Truth value, [bool(v)] *)
Definition is_zero_Qc (q : Qc) : bool := bool_decide (q = Q2Qc 0).

Definition truthy (v : pyval) : bool :=
  match v with
  | PNone => false
  | PBool b => b
  | PInt z => negb (z =? 0)
  | PFloat q => negb (is_zero_Qc q)
  | PStr s => negb (Nat.eqb (length s) 0)
  | PList l => negb (Nat.eqb (length l) 0)
  | PTuple l => negb (Nat.eqb (length l) 0)
  | PDict d => negb (Nat.eqb (length d) 0)
  end.

(** [a or b] *)
Definition py_or (a b : pyval) : pyval := if truthy a then a else b.

(** ** Equality, [a == b]: numbers compare by value across [bool], [int]
    and [float]; dicts compare regardless of the order of their keys. *)
Definition num_of (v : pyval) : option Qc :=
  match v with
  | PBool b => Some (Q2Qc (inject_Z (if b then 1 else 0)))
  | PInt z => Some (Q2Qc (inject_Z z))
  | PFloat q => Some q
  | _ => None
  end.

Fixpoint py_eq (a b : pyval) {struct a} : bool :=
  match a with
  | PNone => match b with PNone => true | _ => false end
  | PBool _ | PInt _ | PFloat _ =>
    match num_of a, num_of b with
    | Some x, Some y => bool_decide (x = y)
    | _, _ => false
    end
  | PStr s => match b with PStr t => str_eqb s t | _ => false end
  | PList l =>
    match b with
    | PList m =>
      (fix go (l m : list pyval) {struct l} : bool :=
         match l, m with
         | [], [] => true
         | x :: l', y :: m' => py_eq x y && go l' m'
         | _, _ => false
         end) l m
    | _ => false
    end
  | PTuple l =>
    match b with
    | PTuple m =>
      (fix go (l m : list pyval) {struct l} : bool :=
         match l, m with
         | [], [] => true
         | x :: l', y :: m' => py_eq x y && go l' m'
         | _, _ => false
         end) l m
    | _ => false
    end
  | PDict d =>
    match b with
    | PDict e =>
      Nat.eqb (length d) (length e) &&
      (fix go (d : list (str * pyval)) {struct d} : bool :=
         match d with
         | [] => true
         | (k, v) :: d' =>
           match dict_lookup k e with
           | Some v' => py_eq v v' && go d'
           | None => false
           end
         end) d
    | _ => false
    end
  end.

(** ** Hashability: what may be a set element or a dict key. *)
Fixpoint hashable (v : pyval) : bool :=
  match v with
  | PList _ | PDict _ => false
  | PTuple l => (fix go (l : list pyval) : bool :=
                   match l with [] => true | x :: r => hashable x && go r end) l
  | _ => true
  end.

(** ** [v.get(k, default)]: only a dict has the method. *)
Definition get (v : pyval) (k : str) (dflt : pyval) : res pyval :=
  match v with
  | PDict d => Ok (default dflt (dict_lookup k d))
  | _ => Raise AttributeError
  end.

(** ** [v[k]] for a string key *)
Definition getitem (v : pyval) (k : str) : res pyval :=
  match v with
  | PDict d => match dict_lookup k d with
               | Some x => Ok x
               | None => Raise KeyError
               end
  | _ => Raise TypeError
  end.

(** ** [k in v] for a string [k] *)
Fixpoint is_infix (k s : str) : bool :=
  startswith s k || match s with [] => false | _ :: r => is_infix k r end.

Definition contains (k : str) (v : pyval) : res bool :=
  match v with
  | PDict d => Ok (bool_decide (is_Some (dict_lookup k d)))
  | PList l | PTuple l => Ok (existsb (py_eq (PStr k)) l)
  | PStr s => Ok (is_infix k s)
  | _ => Raise TypeError
  end.

(** ** Iteration, [for x in v] *)
Definition iter (v : pyval) : res (list pyval) :=
  match v with
  | PList l | PTuple l => Ok l
  | PDict d => Ok (map (fun kv => PStr (fst kv)) d)
  | PStr s => Ok (map (fun c => PStr [c]) s)
  | _ => Raise TypeError
  end.

(** ** [len(v)] *)
Definition len (v : pyval) : res Z :=
  match v with
  | PList l | PTuple l => Ok (Z.of_nat (length l))
  | PDict d => Ok (Z.of_nat (length d))
  | PStr s => Ok (Z.of_nat (length s))
  | _ => Raise TypeError
  end.

(** ** [v[i]] for an integer index; a negative index counts from the end. *)
Definition index (v : pyval) (i : Z) : res pyval :=
  let at_ {A} (l : list A) (wrap : A -> pyval) : res pyval :=
    let j := if i <? 0 then i + Z.of_nat (length l) else i in
    if j <? 0 then Raise IndexError
    else match nth_error l (Z.to_nat j) with
         | Some x => Ok (wrap x)
         | None => Raise IndexError
         end in
  match v with
  | PList l | PTuple l => at_ l (fun x => x)
  | PStr s => at_ s (fun c => PStr [c])
  | PDict _ => Raise KeyError
  | _ => Raise TypeError
  end.

(** ** [v[:n]] *)
Definition slice_to (n : nat) (v : pyval) : res pyval :=
  match v with
  | PList l => Ok (PList (firstn n l))
  | PTuple l => Ok (PTuple (firstn n l))
  | PStr s => Ok (PStr (firstn n s))
  | _ => Raise TypeError  (* KeyError for a dict from Python 3.12 on *)
  end.

(** ** [json.loads(json.dumps(v))]: a tuple comes back as a list, everything
    else as it went in. *)
Fixpoint json_roundtrip (v : pyval) : pyval :=
  match v with
  | PList l | PTuple l => PList (map json_roundtrip l)
  | PDict d => PDict (map (fun kv => (fst kv, json_roundtrip (snd kv))) d)
  | _ => v
  end.

End Py.

(* ===================================================================== *)
(** * The environment of the program *)
(* ===================================================================== *)

Module Env.
Import Str Py.

(** ** SQLite values and column affinities *)
Inductive sqlval : Type :=
| SNull
| SInt (z : Z)
| SReal (q : Qc)
| SText (s : str).

Inductive affinity : Type := AffInteger | AffReal | AffText.

(** ** What [requests.get(url, timeout=10)] gives: an exception of class
    [RequestException], or a response with a status code and a body.  The
    body is the value [r.json()] parses, or [None] when it is not JSON. *)
Inductive http_result : Type :=
| ConnectionFailed
| Response (status_code : Z) (body : option pyval).

(** Everything the program takes from outside itself.  The catalog and the
    clock may answer differently each time they are asked: they are indexed
    by the number of earlier requests, respectively of earlier writes. *)
Record World : Type := {
  (** the catalog API *)
  http_get : nat -> str -> http_result;
  (** whether the installed [requests] derives its [JSONDecodeError] from
      [RequestException] (it does from version 2.27 on) *)
  json_error_is_request_exception : bool;
  (** [CURRENT_TIMESTAMP], in seconds *)
  current_timestamp : nat -> Z;
  (** [str.lower], the full Unicode lowercase mapping *)
  str_lower : str -> str;
  (** [html.unescape] *)
  html_unescape : str -> str;
  (** the order in which a [set] of integers built by adding the elements of
      a list one by one is iterated: an enumeration of these elements, each
      once, that CPython fixes by their hashes *)
  set_order : list Z -> list Z;
  (** [f"{v}"] for a value that is neither a string nor an integer *)
  format_other : pyval -> str;
  (** SQLite's conversion of a value stored into a column whose affinity
      differs from the value's storage class *)
  sqlite_convert : affinity -> sqlval -> sqlval
}.

(** [f"{v}"] *)
Definition format (w : World) (v : pyval) : str :=
  match v with
  | PStr s => s
  | PInt z => of_Z z
  | _ => format_other w v
  end.

End Env.

(* ===================================================================== *)
(** * The chat transport: what a handler sends *)
(* ===================================================================== *)

Module Tg.
Import Str.

(** [InlineKeyboardButton(label, callback_data=...)] *)
Record button : Type := Button {
  label : str;
  callback_data : str
}.

(** [InlineKeyboardMarkup(rows)] *)
Definition keyboard : Type := list (list button).

Inductive effect : Type :=
| Answer (text : option str)                    (* query.answer(text) *)
| EditReplyMarkup (kb : keyboard)               (* edit the keyboard in place *)
| ReplyText (text : str) (kb : option keyboard) (* query.message.reply_text *).

End Tg.

(* ===================================================================== *)
(** * Stable descending sort *)
(* ===================================================================== *)

Module Order.

(** Sorting by a key, largest first, elements with equal keys staying in
    their original order: [sorted(l, key=..., reverse=True)], and
    [ORDER BY key DESC] over rows in table order (where SQLite leaves the
    order of rows with equal keys unspecified, this is one admissible
    answer). *)
Fixpoint insert_desc {A} (key : A -> Z) (x : A) (l : list A) : list A :=
  match l with
  | [] => [x]
  | y :: r => if key y >? key x then y :: insert_desc key x r else x :: y :: r
  end.

Fixpoint sort_desc {A} (key : A -> Z) (l : list A) : list A :=
  match l with
  | [] => []
  | x :: r => insert_desc key x (sort_desc key r)
  end.

End Order.

(* ===================================================================== *)
(** * class AnimeDatabase *)
(* ===================================================================== *)

Module Db.
Import Str Py Env Order.

(** ** Tables ([init_db]) *)

Record user_row : Type := UserRow {
  u_username : option str;
  u_first_name : option str;
  u_last_name : option str;
  u_language_code : option str;
  u_created_at : Z
}.

Record favorite_row : Type := FavoriteRow {
  f_user_id : Z;
  f_anime_id : Z;
  f_added_at : Z
}.

Record watch_row : Type := WatchRow {
  w_user_id : Z;
  w_anime_id : Z;
  w_status : str;
  w_score : option Z;
  w_progress : option Z;
  w_added_at : Z;
  w_updated_at : Z
}.

Record achievement_row : Type := AchievementRow {
  a_achievement_id : Z;
  a_user_id : Z;
  a_achievement_type : str;
  a_achievement_name : str;
  a_achieved_at : Z
}.

(** A row of [anime_cache].  The columns [genres], [studios] and [producers]
    hold the [json.dumps] of a list; the row keeps the list [json.loads]
    reads back from that text. *)
Record anime_row : Type := AnimeRow {
  c_title : sqlval;
  c_title_japanese : sqlval;
  c_title_english : sqlval;
  c_image_url : sqlval;
  c_synopsis : sqlval;
  c_score : sqlval;
  c_episodes : sqlval;
  c_status : sqlval;
  c_year : sqlval;
  c_genres : list pyval;
  c_studios : list pyval;
  c_producers : list pyval;
  c_duration : sqlval;
  c_rating : sqlval;
  c_source : sqlval;
  c_cached_at : Z
}.

(** A row of [character_cache]; [animeography] and [voice_actors] as read
    back by [json.loads]. *)
Record character_row : Type := CharacterRow {
  ch_name : sqlval;
  ch_name_kanji : sqlval;
  ch_about : sqlval;
  ch_image_url : sqlval;
  ch_favorites : sqlval;
  ch_animeography : pyval;
  ch_voice_actors : pyval;
  ch_cached_at : Z
}.

(** The database file.  Tables with an integer primary key are maps from the
    key; the others are lists of rows in insertion order. *)
Record Store : Type := MkStore {
  users : gmap Z user_row;
  favorites : list favorite_row;
  watchlists : list watch_row;
  achievements : list achievement_row;
  anime_cache : gmap Z anime_row;
  character_cache : gmap Z character_row
}.

Definition empty : Store :=
  {| users := ∅; favorites := []; watchlists := []; achievements := [];
     anime_cache := ∅; character_cache := ∅ |}.

Definition with_users (f : gmap Z user_row -> gmap Z user_row) (st : Store) : Store :=
  {| users := f (users st); favorites := favorites st; watchlists := watchlists st;
     achievements := achievements st; anime_cache := anime_cache st;
     character_cache := character_cache st |}.

Definition with_favorites (f : list favorite_row -> list favorite_row) (st : Store) : Store :=
  {| users := users st; favorites := f (favorites st); watchlists := watchlists st;
     achievements := achievements st; anime_cache := anime_cache st;
     character_cache := character_cache st |}.

Definition with_watchlists (f : list watch_row -> list watch_row) (st : Store) : Store :=
  {| users := users st; favorites := favorites st; watchlists := f (watchlists st);
     achievements := achievements st; anime_cache := anime_cache st;
     character_cache := character_cache st |}.

Definition with_achievements (f : list achievement_row -> list achievement_row) (st : Store) : Store :=
  {| users := users st; favorites := favorites st; watchlists := watchlists st;
     achievements := f (achievements st); anime_cache := anime_cache st;
     character_cache := character_cache st |}.

Definition with_anime_cache (f : gmap Z anime_row -> gmap Z anime_row) (st : Store) : Store :=
  {| users := users st; favorites := favorites st; watchlists := watchlists st;
     achievements := achievements st; anime_cache := f (anime_cache st);
     character_cache := character_cache st |}.

Definition with_character_cache (f : gmap Z character_row -> gmap Z character_row) (st : Store) : Store :=
  {| users := users st; favorites := favorites st; watchlists := watchlists st;
     achievements := achievements st; anime_cache := anime_cache st;
     character_cache := f (character_cache st) |}.

(** ** users *)

(** [INSERT OR IGNORE INTO users ...] *)
Definition add_user (now : Z) (user_id : Z)
    (username first_name last_name language_code : option str) (st : Store) : Store :=
  match users st !! user_id with
  | Some _ => st
  | None =>
    with_users (insert user_id
      {| u_username := username; u_first_name := first_name;
         u_last_name := last_name; u_language_code := language_code;
         u_created_at := now |}) st
  end.

(** ** favorites *)

Definition fav_key_is (user_id anime_id : Z) (r : favorite_row) : bool :=
  (f_user_id r =? user_id) && (f_anime_id r =? anime_id).

(** [INSERT OR REPLACE INTO favorites (user_id, anime_id)]: a row with the
    same primary key is deleted, the new row is appended. *)
Definition add_to_favorites (now : Z) (user_id anime_id : Z) (st : Store) : Store :=
  with_favorites (fun rows =>
    List.filter (fun r => negb (fav_key_is user_id anime_id r)) rows
      ++ [ {| f_user_id := user_id; f_anime_id := anime_id; f_added_at := now |} ]) st.

(** [DELETE FROM favorites WHERE user_id = ? AND anime_id = ?] *)
Definition remove_from_favorites (user_id anime_id : Z) (st : Store) : Store :=
  with_favorites (List.filter (fun r => negb (fav_key_is user_id anime_id r))) st.

(** [SELECT anime_id FROM favorites WHERE user_id = ? ORDER BY added_at DESC] *)
Definition get_favorites (user_id : Z) (st : Store) : list Z :=
  map f_anime_id
    (sort_desc f_added_at
       (List.filter (fun r => f_user_id r =? user_id) (favorites st))).

(** [SELECT COUNT( * ) ... > 0] *)
Definition is_favorite (user_id anime_id : Z) (st : Store) : bool :=
  (0 <? Z.of_nat (length (List.filter (fav_key_is user_id anime_id) (favorites st)))).

(** ** watchlists *)

Definition s_plan_to_watch : str := u "plan_to_watch".
Definition s_watching : str := u "watching".
Definition s_completed : str := u "completed".
Definition s_dropped : str := u "dropped".

(** The two CHECK constraints of the table; a NULL score passes. *)
Definition watch_checks (r : watch_row) : bool :=
  (str_eqb (w_status r) s_plan_to_watch || str_eqb (w_status r) s_watching
   || str_eqb (w_status r) s_completed || str_eqb (w_status r) s_dropped)
  && match w_score r with
     | Some sc => (0 <=? sc) && (sc <=? 10)
     | None => true
     end.

Definition watch_key_is (user_id anime_id : Z) (r : watch_row) : bool :=
  (w_user_id r =? user_id) && (w_anime_id r =? anime_id).

(** [INSERT OR REPLACE INTO watchlists (...)]: the CHECK constraints are
    tested on the new row (a violation raises and changes nothing), then a
    row with the same primary key is deleted and the new row appended. *)
Definition insert_or_replace_watch (r : watch_row) (st : Store) : res Store :=
  if watch_checks r then
    Ok (with_watchlists (fun rows =>
          List.filter (fun x => negb (watch_key_is (w_user_id r) (w_anime_id r) x)) rows
            ++ [r]) st)
  else Raise SqliteError.

(** [update_watchlist(user_id, anime_id, status, score=None, progress=None)].
    Each branch names the columns it inserts; a column it does not name takes
    the default of the table: NULL for [score], 0 for [progress], the current
    time for [added_at]. *)
Definition update_watchlist (now : Z) (user_id anime_id : Z) (status : str)
    (score progress : option Z) (st : Store) : res Store :=
  match score, progress with
  | Some sc, Some pr =>
    insert_or_replace_watch
      {| w_user_id := user_id; w_anime_id := anime_id; w_status := status;
         w_score := Some sc; w_progress := Some pr;
         w_added_at := now; w_updated_at := now |} st
  | Some sc, None =>
    insert_or_replace_watch
      {| w_user_id := user_id; w_anime_id := anime_id; w_status := status;
         w_score := Some sc; w_progress := Some 0;
         w_added_at := now; w_updated_at := now |} st
  | None, Some pr =>
    insert_or_replace_watch
      {| w_user_id := user_id; w_anime_id := anime_id; w_status := status;
         w_score := None; w_progress := Some pr;
         w_added_at := now; w_updated_at := now |} st
  | None, None =>
    insert_or_replace_watch
      {| w_user_id := user_id; w_anime_id := anime_id; w_status := status;
         w_score := None; w_progress := Some 0;
         w_added_at := now; w_updated_at := now |} st
  end.

(** [get_watchlist(user_id, status=None)]; the dicts it returns carry the
    columns [anime_id], [status], [score] and [progress] of the row. *)
Definition get_watchlist (user_id : Z) (status : option str) (st : Store) : list watch_row :=
  match status with
  | Some (c :: s) =>
    sort_desc w_updated_at
      (List.filter (fun r => (w_user_id r =? user_id) && str_eqb (w_status r) (c :: s))
         (watchlists st))
  | _ =>
    sort_desc w_updated_at
      (List.filter (fun r => w_user_id r =? user_id) (watchlists st))
  end.

(** [get_watch_status(user_id, anime_id)]: the first matching row, or [None]. *)
Definition get_watch_status (user_id anime_id : Z) (st : Store) : option watch_row :=
  List.find (watch_key_is user_id anime_id) (watchlists st).

(** ** achievements *)

Definition ach_key_is (user_id : Z) (achievement_type : str) (r : achievement_row) : bool :=
  (a_user_id r =? user_id) && str_eqb (a_achievement_type r) achievement_type.

(** [add_achievement]: insert unless a row of this user and type exists;
    tell whether a row was inserted.  The table only grows, so the next
    AUTOINCREMENT id is the number of rows plus one. *)
Definition add_achievement (now : Z) (user_id : Z) (achievement_type achievement_name : str)
    (st : Store) : bool * Store :=
  if Nat.eqb (length (List.filter (ach_key_is user_id achievement_type) (achievements st))) 0
  then
    (true,
     with_achievements (fun rows =>
       rows ++ [ {| a_achievement_id := Z.of_nat (length rows) + 1;
                    a_user_id := user_id;
                    a_achievement_type := achievement_type;
                    a_achievement_name := achievement_name;
                    a_achieved_at := now |} ]) st)
  else (false, st).

(** [get_achievements(user_id)] *)
Definition get_achievements (user_id : Z) (st : Store) : list achievement_row :=
  sort_desc a_achieved_at
    (List.filter (fun r => a_user_id r =? user_id) (achievements st)).

(** ** The catalog cache *)

(** How [sqlite3] binds a Python value to a statement parameter. *)
Definition bind (v : pyval) : res sqlval :=
  match v with
  | PNone => Ok SNull
  | PBool b => Ok (SInt (if b then 1 else 0))
  | PInt z =>
    if (- 2 ^ 63 <=? z) && (z <? 2 ^ 63) then Ok (SInt z) else Raise OverflowError
  | PFloat q => Ok (SReal q)
  | PStr s => Ok (SText s)
  | PList _ | PTuple _ | PDict _ => Raise SqliteError
  end.

(** What a column of the given affinity keeps of a bound value. *)
Definition store_as (w : World) (aff : affinity) (v : sqlval) : sqlval :=
  match aff, v with
  | _, SNull => SNull
  | AffInteger, SInt _ => v
  | AffReal, SReal _ => v
  | AffText, SText _ => v
  | _, _ => sqlite_convert w aff v
  end.

(** What a fetched column value is in Python. *)
Definition load (v : sqlval) : pyval :=
  match v with
  | SNull => PNone
  | SInt z => PInt z
  | SReal q => PFloat q
  | SText s => PStr s
  end.

(** The rowid SQLite gives a row inserted with a NULL integer primary key:
    one more than the largest in the table, 1 in an empty table. *)
Definition next_rowid {A} (m : gmap Z A) : Z :=
  match map fst (map_to_list m) with
  | [] => 1
  | k :: ks => foldr Z.max k ks + 1
  end.

(** The key of a row whose INTEGER PRIMARY KEY column is given [v]; a value
    that does not convert to an integer is a datatype mismatch. *)
Definition rowid_of {A} (w : World) (v : sqlval) (m : gmap Z A) : res Z :=
  match v with
  | SInt z => Ok z
  | SNull => Ok (next_rowid m)
  | _ => match sqlite_convert w AffInteger v with
         | SInt z => Ok z
         | _ => Raise SqliteError
         end
  end.

(** [[x['name'] for x in v]] *)
Definition names_of (v : pyval) : res (list pyval) :=
  items ← iter v;
  mapM (fun x => getitem x (u "name")) items.

(** [cache_anime(anime_data)] *)
Definition cache_anime (w : World) (now : Z) (anime_data : pyval) (st : Store) : res Store :=
  genres ← get anime_data (u "genres") (PList []);
  genres_json ← names_of genres;
  studios ← get anime_data (u "studios") (PList []);
  studios_json ← names_of studios;
  producers ← get anime_data (u "producers") (PList []);
  producers_json ← names_of producers;
  images ← get anime_data (u "images") (PDict []);
  jpg ← get images (u "jpg") PNone;
  image_url ←
    (if truthy jpg then
       large ← get jpg (u "large_image_url") PNone;
       if truthy large then Ok large else get jpg (u "image_url") PNone
     else Ok PNone);
  p_mal_id ← get anime_data (u "mal_id") PNone;
  p_title ← get anime_data (u "title") PNone;
  p_title_japanese ← get anime_data (u "title_japanese") PNone;
  p_title_english ← get anime_data (u "title_english") PNone;
  p_synopsis ← get anime_data (u "synopsis") PNone;
  p_score ← get anime_data (u "score") PNone;
  p_episodes ← get anime_data (u "episodes") PNone;
  p_status ← get anime_data (u "status") PNone;
  p_year ← get anime_data (u "year") PNone;
  p_duration ← get anime_data (u "duration") PNone;
  p_rating ← get anime_data (u "rating") PNone;
  p_source ← get anime_data (u "source") PNone;
  b_mal_id ← bind p_mal_id;
  b_title ← bind p_title;
  b_title_japanese ← bind p_title_japanese;
  b_title_english ← bind p_title_english;
  b_image_url ← bind image_url;
  b_synopsis ← bind p_synopsis;
  b_score ← bind p_score;
  b_episodes ← bind p_episodes;
  b_status ← bind p_status;
  b_year ← bind p_year;
  b_duration ← bind p_duration;
  b_rating ← bind p_rating;
  b_source ← bind p_source;
  anime_id ← rowid_of w b_mal_id (anime_cache st);
  Ok (with_anime_cache (insert anime_id
        {| c_title := store_as w AffText b_title;
           c_title_japanese := store_as w AffText b_title_japanese;
           c_title_english := store_as w AffText b_title_english;
           c_image_url := store_as w AffText b_image_url;
           c_synopsis := store_as w AffText b_synopsis;
           c_score := store_as w AffReal b_score;
           c_episodes := store_as w AffInteger b_episodes;
           c_status := store_as w AffText b_status;
           c_year := store_as w AffInteger b_year;
           c_genres := map json_roundtrip genres_json;
           c_studios := map json_roundtrip studios_json;
           c_producers := map json_roundtrip producers_json;
           c_duration := store_as w AffText b_duration;
           c_rating := store_as w AffText b_rating;
           c_source := store_as w AffText b_source;
           c_cached_at := now |}) st).

Definition named (name : pyval) : pyval := PDict [(u "name", name)].

(** [get_cached_anime(anime_id)] *)
Definition get_cached_anime (anime_id : Z) (st : Store) : option pyval :=
  match anime_cache st !! anime_id with
  | Some row =>
    Some (PDict
      [ (u "mal_id", PInt anime_id);
        (u "title", load (c_title row));
        (u "title_japanese", load (c_title_japanese row));
        (u "title_english", load (c_title_english row));
        (u "images",
           PDict [ (u "jpg",
                    PDict [ (u "image_url", load (c_image_url row));
                            (u "large_image_url", load (c_image_url row)) ]) ]);
        (u "synopsis", load (c_synopsis row));
        (u "score", load (c_score row));
        (u "episodes", load (c_episodes row));
        (u "status", load (c_status row));
        (u "year", load (c_year row));
        (u "genres", PList (map named (c_genres row)));
        (u "studios", PList (map named (c_studios row)));
        (u "producers", PList (map named (c_producers row)));
        (u "duration", load (c_duration row));
        (u "rating", load (c_rating row));
        (u "source", load (c_source row)) ])
  | None => None
  end.

(** [cache_character(character_data)] *)
Definition cache_character (w : World) (now : Z) (character_data : pyval) (st : Store) : res Store :=
  animeography ← get character_data (u "animeography") (PList []);
  voices ← get character_data (u "voices") (PList []);
  images ← get character_data (u "images") (PDict []);
  jpg ← get images (u "jpg") PNone;
  image_url ← (if truthy jpg then get jpg (u "image_url") PNone else Ok PNone);
  p_mal_id ← get character_data (u "mal_id") PNone;
  p_name ← get character_data (u "name") PNone;
  p_name_kanji ← get character_data (u "name_kanji") PNone;
  p_about ← get character_data (u "about") PNone;
  p_favorites ← get character_data (u "favorites") PNone;
  b_mal_id ← bind p_mal_id;
  b_name ← bind p_name;
  b_name_kanji ← bind p_name_kanji;
  b_about ← bind p_about;
  b_image_url ← bind image_url;
  b_favorites ← bind p_favorites;
  character_id ← rowid_of w b_mal_id (character_cache st);
  Ok (with_character_cache (insert character_id
        {| ch_name := store_as w AffText b_name;
           ch_name_kanji := store_as w AffText b_name_kanji;
           ch_about := store_as w AffText b_about;
           ch_image_url := store_as w AffText b_image_url;
           ch_favorites := store_as w AffInteger b_favorites;
           ch_animeography := json_roundtrip animeography;
           ch_voice_actors := json_roundtrip voices;
           ch_cached_at := now |}) st).

(** [get_cached_character(character_id)] *)
Definition get_cached_character (character_id : Z) (st : Store) : option pyval :=
  match character_cache st !! character_id with
  | Some row =>
    Some (PDict
      [ (u "mal_id", PInt character_id);
        (u "name", load (ch_name row));
        (u "name_kanji", load (ch_name_kanji row));
        (u "about", load (ch_about row));
        (u "images", PDict [ (u "jpg", PDict [ (u "image_url", load (ch_image_url row)) ]) ]);
        (u "favorites", load (ch_favorites row));
        (u "animeography", ch_animeography row);
        (u "voices", ch_voice_actors row) ])
  | None => None
  end.

End Db.

(* ===================================================================== *)
(** * The running program: its state and its effects *)
(* ===================================================================== *)

Module App.
Import Str Py Env Tg.

(** The state a handler runs in: the database file [db], the
    [context.user_data] of the user being served, the requests sent to the
    catalog so far, the number of timestamps taken so far, and what has been
    sent to the chat. *)
Record State : Type := MkState {
  store : Db.Store;
  user_data : gmap str pyval;
  requests : list str;
  ticks : nat;
  outbox : list effect
}.

(** A computation reads the world, changes the state and returns or raises.
    The state reached when an exception is raised is kept: every database
    accessor commits before it returns. *)
Definition M (A : Type) : Type := World -> State -> res A * State.

#[export] Instance M_ret : MRet M := fun A a _ s => (Ok a, s).
#[export] Instance M_bind : MBind M := fun A B k m w s =>
  match m w s with
  | (Ok a, s') => k a w s'
  | (Raise e, s') => (Raise e, s')
  end.

Definition raise {A} (e : exn) : M A := fun _ s => (Raise e, s).

(** The world the program runs in. *)
Definition world : M World := fun w s => (Ok w, s).

(** A pure Python operation that returns or raises. *)
Definition lift {A} (r : res A) : M A := fun _ s => (r, s).

(** [try: body except <classes>: handler] *)
Definition try_except {A} (body : M A) (caught : World -> exn -> bool) (handler : M A) : M A :=
  fun w s =>
    match body w s with
    | (Ok a, s') => (Ok a, s')
    | (Raise e, s') => if caught w e then handler w s' else (Raise e, s')
    end.

(** [except requests.exceptions.RequestException] *)
Definition is_request_exception (w : World) (e : exn) : bool :=
  match e with
  | RequestException => true
  | JSONDecodeError => json_error_is_request_exception w
  | _ => false
  end.

(** [except Exception] and the bare [except] *)
Definition any_exception (_ : World) (_ : exn) : bool := true.

(** [for x in l: body(x)] *)
Fixpoint for_each {A} (l : list A) (body : A -> M unit) : M unit :=
  match l with
  | [] => mret tt
  | x :: r => _ ← body x; for_each r body
  end.

(** ** Database accessors *)

Definition db_read {A} (f : Db.Store -> A) : M A :=
  fun _ s => (Ok (f (store s)), s).

Definition with_store (st : Db.Store) (s : State) : State :=
  {| store := st; user_data := user_data s; requests := requests s;
     ticks := ticks s; outbox := outbox s |}.

(** A statement that inserts a row stamped with [CURRENT_TIMESTAMP]. *)
Definition db_insert (f : Z -> Db.Store -> res Db.Store) : M unit :=
  fun w s =>
    match f (current_timestamp w (ticks s)) (store s) with
    | Ok st =>
      (Ok tt, {| store := st; user_data := user_data s; requests := requests s;
                 ticks := S (ticks s); outbox := outbox s |})
    | Raise e => (Raise e, s)
    end.

Definition add_user (user_id : Z) (username first_name last_name language_code : option str)
    : M unit :=
  fun w s =>
    match Db.users (store s) !! user_id with
    | Some _ => (Ok tt, s)
    | None =>
      db_insert (fun now st =>
        Ok (Db.add_user now user_id username first_name last_name language_code st)) w s
    end.

Definition add_to_favorites (user_id anime_id : Z) : M unit :=
  db_insert (fun now st => Ok (Db.add_to_favorites now user_id anime_id st)).

Definition remove_from_favorites (user_id anime_id : Z) : M unit :=
  fun _ s => (Ok tt, with_store (Db.remove_from_favorites user_id anime_id (store s)) s).

Definition update_watchlist (user_id anime_id : Z) (status : str) (score progress : option Z)
    : M unit :=
  db_insert (fun now => Db.update_watchlist now user_id anime_id status score progress).

Definition add_achievement (user_id : Z) (achievement_type achievement_name : str) : M bool :=
  fun w s =>
    let '(inserted, st) :=
      Db.add_achievement (current_timestamp w (ticks s)) user_id
        achievement_type achievement_name (store s) in
    if inserted then
      (Ok true, {| store := st; user_data := user_data s; requests := requests s;
                   ticks := S (ticks s); outbox := outbox s |})
    else (Ok false, s).

Definition cache_anime (anime_data : pyval) : M unit :=
  fun w => db_insert (fun now => Db.cache_anime w now anime_data) w.

Definition cache_character (character_data : pyval) : M unit :=
  fun w => db_insert (fun now => Db.cache_character w now character_data) w.

(** ** The catalog: [requests.get(url, timeout=10)] *)
Definition requests_get (url : str) : M (Z * option pyval) :=
  fun w s =>
    let s' := {| store := store s; user_data := user_data s;
                 requests := requests s ++ [url];
                 ticks := ticks s; outbox := outbox s |} in
    match http_get w (length (requests s)) url with
    | ConnectionFailed => (Raise RequestException, s')
    | Response code body => (Ok (code, body), s')
    end.

(** [r.json()] *)
Definition json (body : option pyval) : M pyval :=
  match body with
  | Some v => mret v
  | None => raise JSONDecodeError
  end.

(** ** The chat *)
Definition send (e : effect) : M unit :=
  fun _ s => (Ok tt, {| store := store s; user_data := user_data s;
                        requests := requests s; ticks := ticks s;
                        outbox := outbox s ++ [e] |}).

Definition get_user_data : M (gmap str pyval) :=
  fun _ s => (Ok (user_data s), s).

End App.

(* ===================================================================== *)
(** * The catalog client ("Appels API Jikan") *)
(* ===================================================================== *)

Module Jikan.
Import Str Py Env App.

(** The addresses requested, as the f-strings build them. *)
Definition search_anime_url (query : str) (limit : Z) : str :=
  u "https://api.jikan.moe/v4/anime?q=" ++ query ++ u "&limit=" ++ of_Z limit.

Definition anime_url (anime_id : Z) : str :=
  u "https://api.jikan.moe/v4/anime/" ++ of_Z anime_id.

Definition season_url (year season : str) : str :=
  u "https://api.jikan.moe/v4/seasons/" ++ year ++ u "/" ++ season.

Definition search_character_url (query : str) (limit : Z) : str :=
  u "https://api.jikan.moe/v4/characters?q=" ++ query ++ u "&limit=" ++ of_Z limit.

Definition character_url (character_id : Z) : str :=
  u "https://api.jikan.moe/v4/characters/" ++ of_Z character_id ++ u "/full".

Definition anime_characters_url (anime_id : str) : str :=
  u "https://api.jikan.moe/v4/anime/" ++ anime_id ++ u "/characters".

Definition top_anime_url (filter_type : str) (page limit : Z) : str :=
  u "https://api.jikan.moe/v4/top/anime?filter=" ++ filter_type
  ++ u "&page=" ++ of_Z page ++ u "&limit=" ++ of_Z limit.

Definition random_anime_url : str := u "https://api.jikan.moe/v4/random/anime".

Definition schedule_url (day : option str) : str :=
  match day with
  | Some (c :: d) => u "https://api.jikan.moe/v4/schedules?filter=" ++ (c :: d)
  | _ => u "https://api.jikan.moe/v4/schedules"
  end.

Definition genre_url (w : World) (genre : pyval) (limit : Z) : str :=
  u "https://api.jikan.moe/v4/anime?genres=" ++ format w genre
  ++ u "&limit=" ++ of_Z limit.

(** [search_anime(query, limit=10)] *)
Definition search_anime (query : str) (limit : Z) : M pyval :=
  let url := search_anime_url query limit in
  try_except
    ('(status_code, body) ← requests_get url;
     if status_code =? 200 then
       data ← json body;
       d ← lift (get data (u "data") PNone);
       let anime_list := py_or d (PList []) in
       items ← lift (iter anime_list);
       _ ← for_each items cache_anime;
       mret anime_list
     else mret PNone)
    is_request_exception
    (mret PNone).

(** [get_anime_by_id(anime_id)].  The id is an integer here; the branches of
    the router that pass it as the text cut from the identifier rely on
    SQLite comparing such a text with the integer key as a number. *)
Definition get_anime_by_id (anime_id : Z) : M pyval :=
  cached_anime ← db_read (Db.get_cached_anime anime_id);
  match cached_anime with
  | Some a => mret a
  | None =>
    let url := anime_url anime_id in
    try_except
      ('(status_code, body) ← requests_get url;
       if status_code =? 200 then
         data ← json body;
         anime ← lift (get data (u "data") PNone);
         _ ← (if truthy anime then cache_anime anime else mret tt);
         mret anime
       else mret PNone)
      is_request_exception
      (mret PNone)
  end.

(** [get_anime_by_season(year, season)] *)
Definition get_anime_by_season (year season : str) : M pyval :=
  let url := season_url year season in
  try_except
    ('(status_code, body) ← requests_get url;
     if status_code =? 200 then
       data ← json body;
       d ← lift (get data (u "data") PNone);
       anime_list ← lift (slice_to 20 (py_or d (PList [])));
       items ← lift (iter anime_list);
       _ ← for_each items cache_anime;
       mret anime_list
     else mret PNone)
    is_request_exception
    (mret PNone).

(** [search_character(query, limit=10)] *)
Definition search_character (query : str) (limit : Z) : M pyval :=
  let url := search_character_url query limit in
  try_except
    ('(status_code, body) ← requests_get url;
     if status_code =? 200 then
       data ← json body;
       d ← lift (get data (u "data") PNone);
       let character_list := py_or d (PList []) in
       items ← lift (iter character_list);
       _ ← for_each items cache_character;
       mret character_list
     else mret PNone)
    is_request_exception
    (mret PNone).

(** [get_character_by_id(character_id)] *)
Definition get_character_by_id (character_id : Z) : M pyval :=
  cached_character ← db_read (Db.get_cached_character character_id);
  match cached_character with
  | Some c => mret c
  | None =>
    let url := character_url character_id in
    try_except
      ('(status_code, body) ← requests_get url;
       if status_code =? 200 then
         data ← json body;
         character ← lift (get data (u "data") PNone);
         _ ← (if truthy character then cache_character character else mret tt);
         mret character
       else mret PNone)
      is_request_exception
      (mret PNone)
  end.

(** [get_anime_characters(anime_id)]; the identifier is only rendered into
    the URL. *)
Definition get_anime_characters (anime_id : str) : M pyval :=
  let url := anime_characters_url anime_id in
  try_except
    ('(status_code, body) ← requests_get url;
     if status_code =? 200 then
       data ← json body;
       d ← lift (get data (u "data") PNone);
       mret (py_or d (PList []))
     else mret (PList []))
    is_request_exception
    (mret (PList [])).

(** [get_top_anime(filter_type="all", page=1, limit=10)]: a pair of the list
    and the number of the last page. *)
Definition get_top_anime (filter_type : str) (page limit : Z) : M pyval :=
  let url := top_anime_url filter_type page limit in
  try_except
    ('(status_code, body) ← requests_get url;
     if status_code =? 200 then
       data ← json body;
       d ← lift (get data (u "data") PNone);
       let anime_list := py_or d (PList []) in
       items ← lift (iter anime_list);
       _ ← for_each items cache_anime;
       pagination ← lift (get data (u "pagination") (PDict []));
       last_visible_page ← lift (get pagination (u "last_visible_page") (PInt 1));
       mret (PTuple [anime_list; last_visible_page])
     else mret (PTuple [PList []; PInt 1]))
    is_request_exception
    (mret (PTuple [PList []; PInt 1])).

(** [get_random_anime()] *)
Definition get_random_anime : M pyval :=
  let url := random_anime_url in
  try_except
    ('(status_code, body) ← requests_get url;
     if status_code =? 200 then
       data ← json body;
       anime ← lift (get data (u "data") PNone);
       _ ← (if truthy anime then cache_anime anime else mret tt);
       mret anime
     else mret PNone)
    is_request_exception
    (mret PNone).

(** [get_schedule(day=None)] *)
Definition get_schedule (day : option str) : M pyval :=
  let url := schedule_url day in
  try_except
    ('(status_code, body) ← requests_get url;
     if status_code =? 200 then
       data ← json body;
       d ← lift (get data (u "data") PNone);
       let anime_list := py_or d (PList []) in
       items ← lift (iter anime_list);
       _ ← for_each items cache_anime;
       mret anime_list
     else mret (PList []))
    is_request_exception
    (mret (PList [])).

(** [search_anime_by_genre(genre, limit=10)] *)
Definition search_anime_by_genre (genre : pyval) (limit : Z) : M pyval :=
  w ← world;
  let url := genre_url w genre limit in
  try_except
    ('(status_code, body) ← requests_get url;
     if status_code =? 200 then
       data ← json body;
       d ← lift (get data (u "data") PNone);
       mret (py_or d (PList []))
     else mret (PList []))
    is_request_exception
    (mret (PList [])).

End Jikan.

(* ===================================================================== *)
(** * Achievements and recommendations *)
(* ===================================================================== *)

Module Engine.
Import Str Py Env App Order.

(** [all_anime_ids = set(favorites)] followed by
    [all_anime_ids.add(item['anime_id'])] for every watch record: the ids in
    the order a loop over the set visits them. *)
Definition all_anime_ids (w : World) (favorites : list Z) (watchlist : list Db.watch_row)
    : list Z :=
  set_order w (favorites ++ map Db.w_anime_id watchlist).

(** [db.get_cached_anime(anime_id) or get_anime_by_id(anime_id)]; the dict
    built from a cache row is never empty, hence true. *)
Definition cached_or_fetched (anime_id : Z) : M pyval :=
  cached ← db_read (Db.get_cached_anime anime_id);
  match cached with
  | Some a => mret a
  | None => Jikan.get_anime_by_id anime_id
  end.

(** A [set] of hashable values, in insertion order; [add] raises on an
    unhashable value. *)
Definition set_add (x : pyval) (s : list pyval) : res (list pyval) :=
  if hashable x then Ok (if existsb (py_eq x) s then s else s ++ [x])
  else Raise TypeError.

(** [check_genre_variety(user_id)] *)
Fixpoint add_genre_names (items : list pyval) (genres : list pyval) : res (list pyval) :=
  match items with
  | [] => Ok genres
  | genre :: r =>
    name ← getitem genre (u "name");
    genres' ← set_add name genres;
    add_genre_names r genres'
  end.

Definition add_genres_of (anime : pyval) (genres : list pyval) : res (list pyval) :=
  if truthy anime then
    has ← contains (u "genres") anime;
    if has : bool then
      gl ← getitem anime (u "genres");
      items ← iter gl;
      add_genre_names items genres
    else Ok genres
  else Ok genres.

Fixpoint genre_set (ids : list Z) (genres : list pyval) : M (list pyval) :=
  match ids with
  | [] => mret genres
  | anime_id :: r =>
    anime ← cached_or_fetched anime_id;
    genres' ← lift (add_genres_of anime genres);
    genre_set r genres'
  end.

Definition check_genre_variety (user_id : Z) : M Z :=
  favorites ← db_read (Db.get_favorites user_id);
  watchlist ← db_read (Db.get_watchlist user_id None);
  w ← world;
  genres ← genre_set (all_anime_ids w favorites watchlist) [];
  mret (Z.of_nat (length genres)).

(** [check_season_variety(user_id)] *)
Definition add_season_of (w : World) (anime : pyval) (seasons : list pyval) : res (list pyval) :=
  if truthy anime then
    has_year ← contains (u "year") anime;
    if has_year : bool then
      has_season ← contains (u "season") anime;
      if has_season : bool then
        year ← getitem anime (u "year");
        season ← get anime (u "season") (PStr []);
        set_add (PStr (format w year ++ u "-" ++ format w season)) seasons
      else Ok seasons
    else Ok seasons
  else Ok seasons.

Fixpoint season_set (ids : list Z) (seasons : list pyval) : M (list pyval) :=
  match ids with
  | [] => mret seasons
  | anime_id :: r =>
    anime ← cached_or_fetched anime_id;
    w ← world;
    seasons' ← lift (add_season_of w anime seasons);
    season_set r seasons'
  end.

Definition check_season_variety (user_id : Z) : M Z :=
  favorites ← db_read (Db.get_favorites user_id);
  watchlist ← db_read (Db.get_watchlist user_id None);
  w ← world;
  seasons ← season_set (all_anime_ids w favorites watchlist) [];
  mret (Z.of_nat (length seasons)).

(** ** The registry [ACHIEVEMENTS], in the order of the dict *)
Record achievement : Type := Achievement {
  ach_id : str;
  ach_name : str;
  ach_condition : Z -> M bool
}.

Definition ACHIEVEMENTS : list achievement :=
  [ {| ach_id := u "anime_explorer";
       ach_name := u "🏆 Explorateur d'Animes";
       ach_condition := fun user_id =>
         favorites ← db_read (Db.get_favorites user_id);
         watchlist ← db_read (Db.get_watchlist user_id None);
         mret (Z.of_nat (length favorites) + Z.of_nat (length watchlist) >=? 50) |};
    {| ach_id := u "genre_master";
       ach_name := u "🎭 Maître des Genres";
       ach_condition := fun user_id =>
         n ← check_genre_variety user_id; mret (n >=? 10) |};
    {| ach_id := u "season_watcher";
       ach_name := u "📅 Observateur de Saisons";
       ach_condition := fun user_id =>
         n ← check_season_variety user_id; mret (n >=? 4) |};
    {| ach_id := u "anime_lover";
       ach_name := u "❤️ Amoureux d'Animes";
       ach_condition := fun user_id =>
         favorites ← db_read (Db.get_favorites user_id);
         mret (Z.of_nat (length favorites) >=? 20) |};
    {| ach_id := u "completionist";
       ach_name := u "✅ Completionniste";
       ach_condition := fun user_id =>
         watchlist ← db_read (Db.get_watchlist user_id None);
         mret (Z.of_nat (length
                 (List.filter (fun item => str_eqb (Db.w_status item) Db.s_completed)
                    watchlist)) >=? 10) |} ].

(** [check_achievements(user_id)] *)
Fixpoint check_each (user_id : Z) (registry : list achievement) (new_achievements : list str)
    : M (list str) :=
  match registry with
  | [] => mret new_achievements
  | a :: r =>
    holds ← ach_condition a user_id;
    if holds : bool then
      added ← add_achievement user_id (ach_id a) (ach_name a);
      check_each user_id r
        (if added : bool then new_achievements ++ [ach_name a] else new_achievements)
    else check_each user_id r new_achievements
  end.

Definition check_achievements (user_id : Z) : M (list str) :=
  check_each user_id ACHIEVEMENTS [].

(** ** Recommendations *)

(** [genre_counter[name] = genre_counter.get(name, 0) + 1] on a dict in
    insertion order: a key already present keeps its place. *)
Fixpoint bump (name : pyval) (counter : list (pyval * Z)) : list (pyval * Z) :=
  match counter with
  | [] => [(name, 1)]
  | (k, n) :: r => if py_eq k name then (k, n + 1) :: r else (k, n) :: bump name r
  end.

Definition count_genre (name : pyval) (counter : list (pyval * Z)) : res (list (pyval * Z)) :=
  if hashable name then Ok (bump name counter) else Raise TypeError.

Fixpoint count_genre_names (items : list pyval) (counter : list (pyval * Z))
    : res (list (pyval * Z)) :=
  match items with
  | [] => Ok counter
  | genre :: r =>
    genre_name ← getitem genre (u "name");
    counter' ← count_genre genre_name counter;
    count_genre_names r counter'
  end.

Definition count_genres_of (anime : pyval) (counter : list (pyval * Z))
    : res (list (pyval * Z)) :=
  if truthy anime then
    has ← contains (u "genres") anime;
    if has : bool then
      gl ← getitem anime (u "genres");
      items ← iter gl;
      count_genre_names items counter
    else Ok counter
  else Ok counter.

(** The loop over [all_anime_ids] that fills [genre_counter]. *)
Fixpoint genre_tally (ids : list Z) (counter : list (pyval * Z)) : M (list (pyval * Z)) :=
  match ids with
  | [] => mret counter
  | anime_id :: r =>
    anime ← cached_or_fetched anime_id;
    counter' ← lift (count_genres_of anime counter);
    genre_tally r counter'
  end.

(** [sorted(genre_counter.items(), key=lambda x: x[1], reverse=True)[:3]] *)
Definition top_genres (counter : list (pyval * Z)) : list (pyval * Z) :=
  firstn 3 (sort_desc snd counter).

(** [x in all_anime_ids], a set of integers *)
Definition in_id_set (x : pyval) (ids : list Z) : res bool :=
  if hashable x then
    Ok match num_of x with
       | Some q => existsb (fun z => bool_decide (q = Q2Qc (inject_Z z))) ids
       | None => false
       end
  else Raise TypeError.

(** The test guarding [recommendations.append(rec)]. *)
Definition is_new (ids : list Z) (rec : pyval) (recommendations : list pyval) : res bool :=
  mal_id ← getitem rec (u "mal_id");
  known ← in_id_set mal_id ids;
  if known : bool then Ok false
  else
    chosen ← mapM (fun r => getitem r (u "mal_id")) recommendations;
    Ok (negb (existsb (py_eq mal_id) chosen)).

(** The loop [for rec in ...] with its [break]. *)
Fixpoint append_new (ids : list Z) (limit : Z) (recs : list pyval)
    (recommendations : list pyval) : res (list pyval) :=
  match recs with
  | [] => Ok recommendations
  | rec :: r =>
    fresh ← is_new ids rec recommendations;
    if fresh : bool then
      let recommendations' := recommendations ++ [rec] in
      if Z.of_nat (length recommendations') >=? limit then Ok recommendations'
      else append_new ids limit r recommendations'
    else append_new ids limit r recommendations
  end.

(** The loop [for genre, _ in top_genres] with its [break]. *)
Fixpoint by_genre (ids : list Z) (limit : Z) (genres : list (pyval * Z))
    (recommendations : list pyval) : M (list pyval) :=
  match genres with
  | [] => mret recommendations
  | (genre, _) :: r =>
    genre_recommendations ← Jikan.search_anime_by_genre genre limit;
    recs ← lift (iter genre_recommendations);
    recommendations' ← lift (append_new ids limit recs recommendations);
    if Z.of_nat (length recommendations') >=? limit then mret recommendations'
    else by_genre ids limit r recommendations'
  end.

(** [l[:n]] for a list *)
Definition list_slice_to {A} (n : Z) (l : list A) : list A :=
  if 0 <=? n then firstn (Z.to_nat n) l
  else firstn (length l - Z.to_nat (- n)) l.

(** [get_personal_recommendations(user_id, limit=5)] *)
Definition get_personal_recommendations (user_id : Z) (limit : Z) : M pyval :=
  favorites ← db_read (Db.get_favorites user_id);
  watchlist ← db_read (Db.get_watchlist user_id None);
  match favorites, watchlist with
  | [], [] => Jikan.get_top_anime (u "all") 1 limit
  | _, _ =>
    w ← world;
    let ids := all_anime_ids w favorites watchlist in
    genre_counter ← genre_tally ids [];
    recommendations ← by_genre ids limit (top_genres genre_counter) [];
    recommendations ←
      (if Z.of_nat (length recommendations) <? limit then
         top_anime ← Jikan.get_top_anime (u "all") 1 (limit * 2);
         animes ← lift (iter top_anime);
         lift (append_new ids limit animes recommendations)
       else mret recommendations);
    mret (PList (list_slice_to limit recommendations))
  end.

End Engine.

(* ===================================================================== *)
(** * Keyboards and the callback router *)
(* ===================================================================== *)

Module Router.
Import Str Py Env Tg App.

Definition nl : str := [10%N].

(** [range(a, b)] *)
Definition range (a b : Z) : list Z :=
  map (fun k => a + Z.of_nat k) (seq 0 (Z.to_nat (b - a))).

(** [math.ceil(n / d)] for a length [n] and a positive [d] *)
Definition ceil_div (n d : Z) : Z := (n + d - 1) / d.

(** [decode_html_entities(text)] applied to a value taken from a record: the
    empty string for a false value, [html.unescape] of a string.  A number is
    a [TypeError] inside [html.unescape]; so is here a list or a dict, which
    Python would only reject once the label built from it is used. *)
Definition decode_html_entities (w : World) (text : pyval) : res str :=
  if truthy text then
    match text with
    | PStr s => Ok (html_unescape w s)
    | _ => Raise TypeError
    end
  else Ok [].

(** [title[:n - 3] + "..."] when [len(title) > n] *)
Definition shorten (n : nat) (title : str) : str :=
  if (n <? length title)%nat then firstn (n - 3) title ++ u "..." else title.

(** [create_search_pagination_keyboard(results, current_page, query, search_type)] *)
Definition item_button (w : World) (search_type : str) (item : pyval) : res button :=
  if str_eqb search_type (u "anime") then
    t ← get item (u "title") (PStr (u "Sans titre"));
    title ← decode_html_entities w t;
    item_id ← get item (u "mal_id") PNone;
    Ok {| label := shorten 35 title;
          callback_data := u "anime" ++ u "_" ++ format w item_id |}
  else
    t ← get item (u "name") (PStr (u "Sans nom"));
    title ← decode_html_entities w t;
    item_id ← get item (u "mal_id") PNone;
    Ok {| label := shorten 35 title;
          callback_data := u "character" ++ u "_" ++ format w item_id |}.

Definition create_search_pagination_keyboard (w : World) (results : pyval)
    (current_page : Z) (query search_type : str) : res keyboard :=
  let items_per_page := 5 in
  n ← len results;
  let total_pages := Z.max 1 (ceil_div n items_per_page) in
  let start_idx := current_page * items_per_page in
  let end_idx := Z.min (start_idx + items_per_page) n in
  rows ← mapM (fun i => item ← index results i;
                        b ← item_button w search_type item;
                        Ok [b])
              (range start_idx end_idx);
  if 1 <? total_pages then
    let nav_row :=
      (if 0 <? current_page then
         [ {| label := u "⬅️";
              callback_data := u "page_" ++ search_type ++ u "_" ++ query ++ u "_"
                               ++ of_Z (current_page - 1) |} ]
       else [])
      ++ [ {| label := of_Z (current_page + 1) ++ u "/" ++ of_Z total_pages;
              callback_data := u "noop" |} ]
      ++ (if current_page <? total_pages - 1 then
            [ {| label := u "➡️";
                 callback_data := u "page_" ++ search_type ++ u "_" ++ query ++ u "_"
                                  ++ of_Z (current_page + 1) |} ]
          else []) in
    Ok (rows ++ [nav_row])
  else Ok rows.

(** A value used as a number in a comparison with an integer.  The catalog
    gives the episode count as an integer or null; [True] and [False] are the
    integers 1 and 0; a string, a list or a dict raises.  (A float would be
    compared by value; it is taken here as a [TypeError].) *)
Definition as_count (v : pyval) : res Z :=
  match v with
  | PInt z => Ok z
  | PBool b => Ok (if b then 1 else 0)
  | _ => Raise TypeError
  end.

(** An integer column read back from a row: [None] cannot be computed with. *)
Definition as_int (v : option Z) : res Z :=
  match v with
  | Some z => Ok z
  | None => Raise TypeError
  end.

(** [create_progress_keyboard(anime_id, current_progress, episodes)] *)
Definition create_progress_keyboard (w : World) (anime_id : Z)
    (current_progress : option Z) (episodes : pyval) : res keyboard :=
  row1 ←
    (if truthy episodes then
       p ← as_int current_progress;
       e ← as_count episodes;
       if p <? e then
         Ok [ [ {| label := u "➖";
                   callback_data := u "progress_" ++ of_Z anime_id ++ u "_down" |};
                {| label := of_Z p; callback_data := u "noop" |};
                {| label := u "➕";
                   callback_data := u "progress_" ++ of_Z anime_id ++ u "_up" |} ] ]
       else Ok []
     else Ok []);
  let row2 :=
    if truthy episodes then
      [ [ {| label := u "✅ Terminer (" ++ format w episodes ++ u ")";
             callback_data := u "progress_" ++ of_Z anime_id ++ u "_" ++ format w episodes |} ] ]
    else [] in
  Ok (row1 ++ row2
      ++ [ [ {| label := u "🔙 Retour"; callback_data := u "lists_" ++ of_Z anime_id |} ] ]).

(** ** The chain of tests of [button_handler], in source order *)
Inductive branch : Type :=
| Page | Anime | Character | Synopsis | Details | Studio | Trailer | Similar
| Streaming | Top | Schedule | AnimeChars | CharsPage | CharacterFull
| Fav | Lists | Watch | Progress
| ProfileMain | ProfileFavorites | ProfileWatchlist | Watchlist | ProfileStats
| ProfileAchievements | ProfileRecommendations | ProfileBack | Noop.

Inductive test : Type :=
| StartsWith (prefix : str)     (* data.startswith(prefix) *)
| Equals (s : str).             (* data == s *)

Definition chain : list (test * branch) :=
  [ (StartsWith (u "page_"), Page);
    (StartsWith (u "anime_"), Anime);
    (StartsWith (u "character_"), Character);
    (StartsWith (u "synopsis_"), Synopsis);
    (StartsWith (u "details_"), Details);
    (StartsWith (u "studio_"), Studio);
    (StartsWith (u "trailer_"), Trailer);
    (StartsWith (u "similar_"), Similar);
    (StartsWith (u "streaming_"), Streaming);
    (StartsWith (u "top_"), Top);
    (StartsWith (u "schedule_"), Schedule);
    (StartsWith (u "anime_chars_"), AnimeChars);
    (StartsWith (u "chars_page_"), CharsPage);
    (StartsWith (u "character_"), CharacterFull);
    (StartsWith (u "fav_"), Fav);
    (StartsWith (u "lists_"), Lists);
    (StartsWith (u "watch_"), Watch);
    (StartsWith (u "progress_"), Progress);
    (Equals (u "profile_main"), ProfileMain);
    (Equals (u "profile_favorites"), ProfileFavorites);
    (Equals (u "profile_watchlist"), ProfileWatchlist);
    (StartsWith (u "watchlist_"), Watchlist);
    (Equals (u "profile_stats"), ProfileStats);
    (Equals (u "profile_achievements"), ProfileAchievements);
    (Equals (u "profile_recommendations"), ProfileRecommendations);
    (Equals (u "profile_back"), ProfileBack);
    (Equals (u "noop"), Noop) ].

Definition passes (data : str) (t : test) : bool :=
  match t with
  | StartsWith p => startswith data p
  | Equals s => str_eqb data s
  end.

(** The branch taken: the first whose test passes, [None] when the chain of
    [if]/[elif] falls through. *)
Fixpoint select (data : str) (tests : list (test * branch)) : option branch :=
  match tests with
  | [] => None
  | (t, b) :: r => if passes data t then Some b else select data r
  end.

(** ** [button_handler] *)

(** [query.from_user] *)
Record from_user : Type := FromUser {
  id : Z;
  username : option str;
  first_name : option str;
  last_name : option str;
  language_code : option str
}.

(** The presentation layer behind the branches: how an anime card is shown,
    and what the branches that only render a view do.  Neither is embedded
    here; the handler is parameterised by them. *)
Record Views : Type := MkViews {
  display_anime_with_navigation : pyval -> bool -> M unit;
  view_branch : branch -> str -> from_user -> M unit
}.

(** [int(s)] *)
Definition py_int (s : str) : M Z :=
  match to_int s with
  | Some z => mret z
  | None => raise ValueError
  end.

(** [parts[i]] *)
Definition part (parts : list str) (i : nat) : M str :=
  match nth_error parts i with
  | Some x => mret x
  | None => raise IndexError
  end.

(** The notification that follows a change of state. *)
Definition achievement_text (new_achievements : list str) : str :=
  u "🎉 <b>Nouveaux achievements débloqués!</b>" ++ nl
  ++ concat (map (fun achievement => u "• " ++ achievement ++ nl) new_achievements).

Definition notify_achievements (user_id : Z) : M unit :=
  new_achievements ← Engine.check_achievements user_id;
  match new_achievements with
  | [] => mret tt
  | _ => send (ReplyText (achievement_text new_achievements) None)
  end.

(** [if data.startswith("page_"):] *)
Definition show_page (stored_key search_query search_type : str) (page : Z) : M unit :=
  ud ← get_user_data;
  let results := default (PList []) (ud !! stored_key) in
  if truthy results then
    w ← world;
    keyboard ← lift (create_search_pagination_keyboard w results page search_query search_type);
    send (EditReplyMarkup keyboard)
  else mret tt.

Definition page_branch (data : str) : M unit :=
  let parts := split c_underscore data in
  if (4 <=? length parts)%nat then
    let search_type := nth 1 parts [] in
    let search_query := join (u "_") (removelast (skipn 2 parts)) in
    page ← py_int (List.last parts []);
    if str_eqb search_type (u "anime") then
      ud ← get_user_data;
      let stored_key :=
        if bool_decide (is_Some (ud !! (u "season_results_" ++ search_query)))
        then u "season_results_" ++ search_query
        else u "search_results_" ++ search_query in
      show_page stored_key search_query (u "anime") page
    else if str_eqb search_type (u "character") then
      show_page (u "character_results_" ++ search_query) search_query (u "character") page
    else mret tt
  else mret tt.

(** [elif data.startswith("fav_"):] *)
Definition fav_branch (v : Views) (data : str) (user_id : Z) : M unit :=
  s1 ← part (split c_underscore data) 1;
  anime_id ← py_int s1;
  is_fav ← db_read (Db.is_favorite user_id anime_id);
  _ ← (if is_fav : bool then
         _ ← remove_from_favorites user_id anime_id;
         send (Answer (Some (u "❌ Retiré des favoris")))
       else
         _ ← add_to_favorites user_id anime_id;
         _ ← send (Answer (Some (u "❤️ Ajouté aux favoris")));
         notify_achievements user_id);
  anime ← Jikan.get_anime_by_id anime_id;
  if truthy anime then display_anime_with_navigation v anime true else mret tt.

(** [elif data.startswith("watch_"):] *)
Definition status_map (status : str) : M str :=
  if str_eqb status (u "plan") then mret (u "plan_to_watch")
  else if str_eqb status (u "watch") then mret (u "watching")
  else if str_eqb status (u "comp") then mret (u "completed")
  else if str_eqb status (u "drop") then mret (u "dropped")
  else raise KeyError.

Definition status_names (status : str) : str :=
  if str_eqb status (u "plan_to_watch") then u "📥 À regarder"
  else if str_eqb status (u "watching") then u "👁️ En cours"
  else if str_eqb status (u "completed") then u "✅ Terminé"
  else u "❌ Abandonné".

Definition watch_branch (v : Views) (data : str) (user_id : Z) : M unit :=
  let parts := split c_underscore data in
  s2 ← part parts 2;
  anime_id ← py_int s2;
  status ← part parts 1;
  full_status ← status_map status;
  _ ← update_watchlist user_id anime_id full_status None None;
  _ ← send (Answer (Some (u "Ajouté à " ++ status_names full_status)));
  _ ← notify_achievements user_id;
  anime ← Jikan.get_anime_by_id anime_id;
  if truthy anime then display_anime_with_navigation v anime false else mret tt.

(** [elif data.startswith("progress_"):] *)

(** The [if action == "up": ... elif action == "down": ... else: ...] that
    computes [new_progress]. *)
Definition next_progress (action : str) (current_progress : option Z) (episodes : pyval)
    : M Z :=
  if str_eqb action (u "up") then
    p ← lift (as_int current_progress);
    if truthy episodes then
      e ← lift (as_count episodes);
      mret (Z.min (p + 1) e)
    else mret (Z.min (p + 1) (p + 1))
  else if str_eqb action (u "down") then
    p ← lift (as_int current_progress);
    mret (Z.max (p - 1) 0)
  else py_int action.

Definition progress_branch (data : str) (user_id : Z) : M unit :=
  let parts := split c_underscore data in
  s1 ← part parts 1;
  anime_id ← py_int s1;
  if Nat.eqb (length parts) 2 then
    anime ← Jikan.get_anime_by_id anime_id;
    watch_status ← db_read (Db.get_watch_status user_id anime_id);
    let current_progress :=
      match watch_status with Some r => Db.w_progress r | None => Some 0 end in
    episodes ← lift (get anime (u "episodes") PNone);
    w ← world;
    keyboard ← lift (create_progress_keyboard w anime_id current_progress episodes);
    send (ReplyText
            (u "📊 <b>Modifier la progression</b>" ++ nl
             ++ u "Utilisez les boutons pour ajuster:")
            (Some keyboard))
  else
    action ← part parts 2;
    watch_status ← db_read (Db.get_watch_status user_id anime_id);
    let current_status :=
      match watch_status with Some r => Db.w_status r | None => u "watching" end in
    let current_progress :=
      match watch_status with Some r => Db.w_progress r | None => Some 0 end in
    anime ← Jikan.get_anime_by_id anime_id;
    episodes ← lift (get anime (u "episodes") PNone);
    new_progress ← next_progress action current_progress episodes;
    _ ← update_watchlist user_id anime_id current_status None (Some new_progress);
    w ← world;
    reached ← (if truthy episodes then
                 e ← lift (as_count episodes); mret (new_progress >=? e)
               else mret false);
    _ ← (if reached : bool then
           e ← lift (as_count episodes);
           _ ← update_watchlist user_id anime_id (u "completed") None (Some e);
           send (Answer (Some (u "✅ Progression mise à jour: " ++ of_Z new_progress
                               ++ u "/" ++ format w episodes ++ u " (Terminé)")))
         else
           send (Answer (Some (u "📊 Progression mise à jour: " ++ of_Z new_progress
                               ++ u "/" ++ (if truthy episodes then format w episodes
                                            else u "?")))));
    _ ← notify_achievements user_id;
    keyboard ← lift (create_progress_keyboard w anime_id (Some new_progress) episodes);
    try_except (send (EditReplyMarkup keyboard)) any_exception (mret tt).

(** [button_handler(update, context)], for the interaction identifier [data]
    pressed by [user]. *)
Definition button_handler (v : Views) (data : str) (user : from_user) : M unit :=
  _ ← send (Answer None);
  _ ← add_user (id user) (username user) (first_name user) (last_name user)
        (language_code user);
  match select data chain with
  | Some Page => page_branch data
  | Some Fav => fav_branch v data (id user)
  | Some Watch => watch_branch v data (id user)
  | Some Progress => progress_branch data (id user)
  | Some Noop => mret tt
  | Some b => view_branch v b data user
  | None => mret tt
  end.

End Router.

(* ===================================================================== *)
(** * Text utilities *)
(* ===================================================================== *)

Module Text.
Import Str Env.

Definition is_hyphen (c : char) : bool := (c =? c_hyphen)%N.

(** The class [[a-z0-9\-]] *)
Definition slug_char (c : char) : bool := is_lower_az c || is_digit c || is_hyphen c.

(** [create_slug(title)] *)
Definition create_slug (w : World) (title : str) : str :=
  let slug := str_lower w title in
  let slug := sub_runs is_space (u "-") slug in
  let slug := List.filter slug_char slug in
  let slug := sub_runs is_hyphen (u "-") slug in
  strip_by is_hyphen slug.

End Text.

(* ===================================================================== *)
(** * Concrete worlds and states *)
(* ===================================================================== *)

Module Examples.
Import Str Py Env Tg App.

(** Lowercasing of the ASCII letters. *)
Definition ascii_lower (s : str) : str :=
  map (fun c => if ((65 <=? c) && (c <=? 90))%N then (c + 32)%N else c) s.

(** The elements of a list, each at its first occurrence. *)
Fixpoint first_seen (l : list Z) (seen : list Z) : list Z :=
  match l with
  | [] => []
  | x :: r =>
    if existsb (Z.eqb x) seen then first_seen r seen
    else x :: first_seen r (x :: seen)
  end.

(** A world around a given catalog: the clock advances one second per
    write, a recent [requests] is installed, and no conversion between
    SQLite storage classes takes place. *)
Definition world_of (catalog : nat -> str -> http_result) : World :=
  {| http_get := catalog;
     json_error_is_request_exception := true;
     current_timestamp := fun n => 1700000000 + Z.of_nat n;
     str_lower := ascii_lower;
     html_unescape := fun s => s;
     set_order := fun l => first_seen l [];
     format_other := fun v =>
       match v with
       | PNone => u "None"
       | PBool true => u "True"
       | PBool false => u "False"
       | _ => u "?"
       end;
     sqlite_convert := fun _ v => v |}.

(** The same world with a [requests] older than 2.27, whose JSON error is
    not a [RequestException]. *)
Definition legacy_world_of (catalog : nat -> str -> http_result) : World :=
  {| http_get := catalog;
     json_error_is_request_exception := false;
     current_timestamp := current_timestamp (world_of catalog);
     str_lower := str_lower (world_of catalog);
     html_unescape := html_unescape (world_of catalog);
     set_order := set_order (world_of catalog);
     format_other := format_other (world_of catalog);
     sqlite_convert := sqlite_convert (world_of catalog) |}.

(** A catalog that answers every request with status 200 and the given
    body. *)
Definition answers (body : option pyval) : nat -> str -> http_result :=
  fun _ _ => Response 200 body.

(** A catalog that cannot be reached. *)
Definition unreachable : nat -> str -> http_result := fun _ _ => ConnectionFailed.

(** A fresh process: empty database, empty session. *)
Definition fresh : State :=
  {| store := Db.empty; user_data := ∅; requests := []; ticks := 0; outbox := [] |}.

Definition with_user_data (ud : gmap str pyval) (s : State) : State :=
  {| store := store s; user_data := ud; requests := requests s;
     ticks := ticks s; outbox := outbox s |}.

(** Views that render nothing. *)
Definition silent : Router.Views :=
  {| Router.display_anime_with_navigation := fun _ _ => mret tt;
     Router.view_branch := fun _ _ _ => mret tt |}.

Definition alice : Router.from_user :=
  {| Router.id := 1; Router.username := Some (u "alice");
     Router.first_name := Some (u "Alice"); Router.last_name := None;
     Router.language_code := Some (u "fr") |}.

Definition genre (mal_id : Z) (name : string) : pyval :=
  PDict [ (u "mal_id", PInt mal_id); (u "type", PStr (u "anime"));
          (u "name", PStr (u name)) ].

(** A record as the catalog returns it (abridged to the fields the program
    reads, and a few it does not cache). *)
Definition example_anime : pyval :=
  PDict
    [ (u "mal_id", PInt 42);
      (u "url", PStr (u "https://myanimelist.net/anime/42/Example"));
      (u "images",
         PDict [ (u "jpg",
                  PDict [ (u "image_url", PStr (u "https://cdn.example/42.jpg"));
                          (u "small_image_url", PStr (u "https://cdn.example/42t.jpg"));
                          (u "large_image_url", PStr (u "https://cdn.example/42l.jpg")) ]) ]);
      (u "trailer", PDict [ (u "url", PStr (u "https://youtu.be/example")) ]);
      (u "title", PStr (u "Example"));
      (u "title_english", PStr (u "Example"));
      (u "title_japanese", PNone);
      (u "episodes", PInt 12);
      (u "status", PStr (u "Finished Airing"));
      (u "duration", PStr (u "24 min per ep"));
      (u "rating", PStr (u "PG-13"));
      (u "source", PStr (u "Manga"));
      (u "score", PFloat (Q2Qc (17 # 2)));
      (u "synopsis", PStr (u "An example."));
      (u "season", PStr (u "fall"));
      (u "year", PInt 2020);
      (u "producers", PList []);
      (u "studios", PList [ genre 11 "Studio A" ]);
      (u "genres", PList [ genre 1 "Action"; genre 2 "Adventure" ]) ].


(** Anime 7, of ten genres. *)
Definition many_genres : pyval :=
  PDict
    [ (u "mal_id", PInt 7);
      (u "title", PStr (u "Everything"));
      (u "genres",
         PList [ genre 1 "Action"; genre 2 "Adventure"; genre 4 "Comedy";
                 genre 8 "Drama"; genre 10 "Fantasy"; genre 14 "Horror";
                 genre 7 "Mystery"; genre 22 "Romance"; genre 24 "Sci-Fi";
                 genre 36 "Slice of Life" ]) ].

(** A catalog that fails the first two requests and then serves anime 7. *)
Definition flaky : nat -> str -> http_result :=
  fun n _ =>
    if (n <? 2)%nat then ConnectionFailed
    else Response 200 (Some (PDict [ (u "data", many_genres) ])).

Definition with_db (st : Db.Store) (s : State) : State :=
  {| store := st; user_data := user_data s; requests := requests s;
     ticks := ticks s; outbox := outbox s |}.

(** User 1 has one favorite, anime 7, which is not in the cache. *)
Definition lone_fan : State :=
  with_db (Db.add_to_favorites 1600000000 1 7 Db.empty) fresh.

(** A cache row as [cache_anime] writes it for a record with a title and one
    genre. *)
Definition plain_row (title genre_name : string) : Db.anime_row :=
  {| Db.c_title := SText (u title); Db.c_title_japanese := SNull;
     Db.c_title_english := SNull; Db.c_image_url := SNull; Db.c_synopsis := SNull;
     Db.c_score := SNull; Db.c_episodes := SInt 12; Db.c_status := SNull;
     Db.c_year := SInt 2020; Db.c_genres := [PStr (u genre_name)];
     Db.c_studios := []; Db.c_producers := []; Db.c_duration := SNull;
     Db.c_rating := SNull; Db.c_source := SNull; Db.c_cached_at := 1600000000 |}.

(** User 1 has twenty favorites, anime 1 to 20, all in the cache. *)
Definition twenty : list Z := map Z.of_nat (seq 1 20).

Definition collector : State :=
  with_db
    {| Db.users := ∅;
       Db.favorites := map (fun k => Db.FavoriteRow 1 k (1600000000 + k)) twenty;
       Db.watchlists := [];
       Db.achievements := [];
       Db.anime_cache := list_to_map (map (fun k => (k, plain_row "Some title" "Action")) twenty);
       Db.character_cache := ∅ |}
    fresh.



(** A page of the top list: one record, three pages in all. *)
Definition top_page : pyval :=
  PDict [ (u "data", PList [ example_anime ]);
          (u "pagination", PDict [ (u "last_visible_page", PInt 3);
                                   (u "has_next_page", PBool true) ]) ].

(** Six search results stored for the query "naruto": two pages of five. *)
Definition six_results : pyval :=
  PList (map (fun k => PDict [ (u "mal_id", PInt k); (u "title", PStr (u "Naruto")) ])
             [1; 2; 3; 4; 5; 6]).

Definition searched_naruto : State :=
  with_user_data (<[ u "search_results_naruto" := six_results ]> ∅) fresh.

(** User 1 watches anime 42 (twelve episodes) and has seen eleven. *)
Definition eleven_seen : State :=
  with_db
    {| Db.users := ∅;
       Db.favorites := [];
       Db.watchlists := [ Db.WatchRow 1 42 (u "watching") None (Some 11)
                            1600000000 1600000000 ];
       Db.achievements := [];
       Db.anime_cache := <[ 42 := plain_row "Example" "Action" ]> ∅;
       Db.character_cache := ∅ |}
    fresh.

End Examples.

(* ===================================================================== *)
(** * Predicates used in the statements *)
(* ===================================================================== *)

Module Spec.
Import Str Py Env App Engine.

(** No two neighbouring characters are both hyphens. *)
Fixpoint no_double_hyphen (s : str) : Prop :=
  match s with
  | a :: ((b :: _) as r) =>
    ~ (Text.is_hyphen a = true /\ Text.is_hyphen b = true) /\ no_double_hyphen r
  | _ => True
  end.

(** How many achievement records a user has of a kind. *)
Definition achievement_count (user_id : Z) (kind : str) (st : Db.Store) : nat :=
  length (List.filter (Db.ach_key_is user_id kind) (Db.achievements st)).

Definition granted (user_id : Z) (kind : str) (st : Db.Store) : Prop :=
  achievement_count user_id kind st <> 0%nat.

(** The known set of a user: the ids [check_genre_variety],
    [check_season_variety] and [get_personal_recommendations] loop over. *)
Definition known_set (w : World) (user_id : Z) (st : Db.Store) : list Z :=
  Engine.all_anime_ids w (Db.get_favorites user_id st) (Db.get_watchlist user_id None st).

(** Every entity of the known set has a row in the catalog cache. *)
Definition known_cached (w : World) (user_id : Z) (st : Db.Store) : Prop :=
  Forall (fun anime_id => is_Some (Db.anime_cache st !! anime_id)) (known_set w user_id st).

(** Two database states with the same favorites, watch records and catalog
    cache. *)
Definition same_entities (st st' : Db.Store) : Prop :=
  Db.favorites st = Db.favorites st'
  /\ Db.watchlists st = Db.watchlists st'
  /\ Db.anime_cache st = Db.anime_cache st'.

(** A loop over cached entities asks the catalog nothing, leaves the state
    as it is, and gives the same result in any state with the same cache. *)
Definition reads_cache_only {A} (m : M A) (w : World) (s : State) : Prop :=
  exists r, m w s = (r, s)
    /\ forall s', Db.anime_cache (store s') = Db.anime_cache (store s) -> m w s' = (r, s').

(** A predicate is settled by the entities when, the known set being cached,
    it leaves the state as it is and gives the same answer in every state
    with the same favorites, watch records and cache. *)
Definition settled_by_entities (a : achievement) (w : World) (user_id : Z) : Prop :=
  forall s, known_cached w user_id (store s) ->
    exists r, ach_condition a user_id w s = (r, s)
      /\ forall s', same_entities (store s) (store s') -> ach_condition a user_id w s' = (r, s').

(** In state [s] the predicate of [a] is decided, and [a] is granted if it
    holds. *)
Definition decided_and_granted (w : World) (user_id : Z) (s : State) (a : achievement) : Prop :=
  exists b, ach_condition a user_id w s = (Ok b, s)
    /\ (b = true -> granted user_id (ach_id a) (store s)).

(** ** Catalog records and their cached snapshot *)












(** ** The catalog client *)

(** The state after one more request has been sent. *)
Definition logged (url : str) (s : State) : State :=
  {| store := store s; user_data := user_data s; requests := requests s ++ [url];
     ticks := ticks s; outbox := outbox s |}.

(** The next request for [url] meets a network error or a status other
    than 200. *)
Definition unavailable (w : World) (s : State) (url : str) : Prop :=
  http_get w (length (requests s)) url = ConnectionFailed
  \/ exists code body,
       http_get w (length (requests s)) url = Response code body /\ code <> 200.

(** ** The genre tally *)










(** ** Order *)

(** [a] occurs in the list and [b] occurs after it. *)
Inductive before {A} (a b : A) : list A -> Prop :=
| before_here (l : list A) : In b l -> before a b (a :: l)
| before_later (x : A) (l : list A) : before a b l -> before a b (x :: l).

(** Largest key first. *)
Definition descending {A} (key : A -> Z) (l : list A) : Prop :=
  StronglySorted (fun a b => key b <= key a) l.

End Spec.
(* ===================================================================== *)
(** * class AnimeDatabase: the custom lists *)
(* ===================================================================== *)

Module Lists.
Import Str Py Order.

(** ** Tables [custom_lists] and [custom_list_items] ([init_db]) *)

Record list_row : Type := ListRow {
  cl_list_id : Z;
  cl_user_id : Z;
  cl_list_name : str;
  cl_created_at : Z
}.

Record item_row : Type := ItemRow {
  ci_list_id : Z;
  ci_anime_id : Z;
  ci_added_at : Z
}.

(** The two tables, rows in insertion order, and the entry that SQLite keeps
    in [sqlite_sequence] for the AUTOINCREMENT key of [custom_lists]: the
    largest [list_id] given so far.  No accessor touches another table, and
    foreign keys are not enforced (the program never turns them on). *)
Record Tables : Type := MkTables {
  custom_lists : list list_row;
  custom_list_items : list item_row;
  sequence : Z
}.

Definition empty : Tables :=
  {| custom_lists := []; custom_list_items := []; sequence := 0 |}.

Definition max_rowid : Z := 2 ^ 63 - 1.

(** The [list_id] of the next row: one more than the largest in the table
    (1 in an empty table), and more than every id given before; the insert
    fails when the largest possible id has been used. *)
Definition next_list_id (tb : Tables) : res Z :=
  let largest :=
    match map cl_list_id (custom_lists tb) with
    | [] => 0
    | k :: ks => foldr Z.max k ks
    end in
  if (largest =? max_rowid) || (sequence tb =? max_rowid) then Raise SqliteError
  else Ok (Z.max (largest + 1) (sequence tb + 1)).

(** [create_custom_list(user_id, list_name)]: the new row, and
    [cursor.lastrowid]. *)
Definition create_custom_list (now : Z) (user_id : Z) (list_name : str) (tb : Tables)
    : res (Z * Tables) :=
  list_id ← next_list_id tb;
  Ok (list_id,
      {| custom_lists :=
           custom_lists tb
             ++ [ {| cl_list_id := list_id; cl_user_id := user_id;
                     cl_list_name := list_name; cl_created_at := now |} ];
         custom_list_items := custom_list_items tb;
         sequence := list_id |}).

Definition item_key_is (list_id anime_id : Z) (r : item_row) : bool :=
  (ci_list_id r =? list_id) && (ci_anime_id r =? anime_id).

(** [add_to_custom_list(list_id, anime_id)]:
    [INSERT OR IGNORE INTO custom_list_items (list_id, anime_id)]. *)
Definition add_to_custom_list (now : Z) (list_id anime_id : Z) (tb : Tables) : Tables :=
  if existsb (item_key_is list_id anime_id) (custom_list_items tb) then tb
  else
    {| custom_lists := custom_lists tb;
       custom_list_items :=
         custom_list_items tb
           ++ [ {| ci_list_id := list_id; ci_anime_id := anime_id; ci_added_at := now |} ];
       sequence := sequence tb |}.

(** [remove_from_custom_list(list_id, anime_id)] *)
Definition remove_from_custom_list (list_id anime_id : Z) (tb : Tables) : Tables :=
  {| custom_lists := custom_lists tb;
     custom_list_items :=
       List.filter (fun r => negb (item_key_is list_id anime_id r)) (custom_list_items tb);
     sequence := sequence tb |}.

(** [get_custom_lists(user_id)]: the [list_id] and [list_name] of each list
    of the user, [ORDER BY created_at DESC]. *)
Definition get_custom_lists (user_id : Z) (tb : Tables) : list (Z * str) :=
  map (fun r => (cl_list_id r, cl_list_name r))
    (sort_desc cl_created_at
       (List.filter (fun r => cl_user_id r =? user_id) (custom_lists tb))).

(** [get_custom_list_items(list_id)] *)
Definition get_custom_list_items (list_id : Z) (tb : Tables) : list Z :=
  map ci_anime_id
    (sort_desc ci_added_at
       (List.filter (fun r => ci_list_id r =? list_id) (custom_list_items tb))).

End Lists.

(* ===================================================================== *)
(** * Text utilities: escaping and truncation *)
(* ===================================================================== *)

Module Markup.
Import Str Py.

Definition c_amp : char := 38%N.
Definition c_lt : char := 60%N.
Definition c_gt : char := 62%N.
Definition c_quot : char := 34%N.
Definition c_apos : char := 39%N.

(** [s.replace(c, rep)] for a one-character [c] *)
Definition replace_char (c : char) (rep : str) (s : str) : str :=
  flat_map (fun x => if (x =? c)%N then rep else [x]) s.

(** [html.escape(s, quote=True)]: the ampersand first, then the angle
    brackets, then the two quotes. *)
Definition html_escape (s : str) : str :=
  let s := replace_char c_amp (u "&amp;") s in
  let s := replace_char c_lt (u "&lt;") s in
  let s := replace_char c_gt (u "&gt;") s in
  let s := replace_char c_quot (u "&quot;") s in
  replace_char c_apos (u "&#x27;") s.

(** [escape_html(text)]: the empty string for [None]; a value that is not a
    string has no [replace]. *)
Definition escape_html (text : pyval) : res str :=
  match text with
  | PNone => Ok []
  | PStr s => Ok (html_escape s)
  | _ => Raise AttributeError
  end.

(** [truncate(s, limit)] for a string [s]; [s or ""] is [s] itself. *)
Definition truncate (s : str) (limit : Z) : str :=
  if Z.of_nat (length s) >? limit
  then Engine.list_slice_to (limit - 3) s ++ u "..."
  else s.

End Markup.

(* ===================================================================== *)
(** * The other inline keyboards *)
(* ===================================================================== *)

Module Keyboards.
Import Str Py Env Tg.

(** [db.is_favorite(user_id, anime_id)] for an [anime_id] read from a record:
    the value is bound to the statement and compared with the integer
    column; NULL equals nothing, and a value of another storage class is
    compared as SQLite converts it for an integer column. *)
Definition is_favorite_of (w : World) (user_id : Z) (anime_id : pyval) (st : Db.Store)
    : res bool :=
  b ← Db.bind anime_id;
  Ok match b with
     | SNull => false
     | SInt z => Db.is_favorite user_id z st
     | _ =>
       match sqlite_convert w AffInteger b with
       | SInt z => Db.is_favorite user_id z st
       | _ => false
       end
     end.

(** [create_anime_navigation_keyboard(anime_id, user_id=None)]; the
    [anime_id] is the [mal_id] of the record shown, the [user_id] an integer
    (0 is false) or [None]. *)
Definition create_anime_navigation_keyboard (w : World) (anime_id : pyval)
    (user_id : option Z) (st : Db.Store) : res keyboard :=
  let keyboard :=
    [ [ {| label := u "📝 Synopsis"; callback_data := u "synopsis_" ++ format w anime_id |};
        {| label := u "🔍 Détails"; callback_data := u "details_" ++ format w anime_id |} ];
      [ {| label := u "🏢 Studio"; callback_data := u "studio_" ++ format w anime_id |};
        {| label := u "🎬 Trailer"; callback_data := u "trailer_" ++ format w anime_id |} ];
      [ {| label := u "👥 Personnages";
           callback_data := u "anime_chars_" ++ format w anime_id |};
        {| label := u "🎯 Similaires"; callback_data := u "similar_" ++ format w anime_id |} ];
      [ {| label := u "📺 Streaming"; callback_data := u "streaming_" ++ format w anime_id |} ] ] in
  match user_id with
  | Some uid =>
    if uid =? 0 then Ok keyboard
    else
      is_fav ← is_favorite_of w uid anime_id st;
      let fav_text :=
        if is_fav : bool then u "❤️ Retirer des Favoris" else u "🤍 Ajouter aux Favoris" in
      Ok (keyboard
          ++ [ [ {| label := fav_text; callback_data := u "fav_" ++ format w anime_id |};
                 {| label := u "📋 Listes";
                    callback_data := u "lists_" ++ format w anime_id |} ] ])
  | None => Ok keyboard
  end.

(** [create_lists_keyboard(anime_id, user_id)], both integers. *)
Definition create_lists_keyboard (anime_id user_id : Z) (st : Db.Store) : keyboard :=
  let watch_status := Db.get_watch_status user_id anime_id st in
  [ [ {| label := u "📥 À regarder"; callback_data := u "watch_plan_" ++ of_Z anime_id |};
      {| label := u "👁️ En cours"; callback_data := u "watch_watch_" ++ of_Z anime_id |} ];
    [ {| label := u "✅ Terminé"; callback_data := u "watch_comp_" ++ of_Z anime_id |};
      {| label := u "❌ Abandonné"; callback_data := u "watch_drop_" ++ of_Z anime_id |} ] ]
  ++ (match watch_status with
      | Some _ =>
        [ [ {| label := u "📊 Modifier progression";
               callback_data := u "progress_" ++ of_Z anime_id |} ] ]
      | None => []
      end)
  ++ [ [ {| label := u "🔙 Retour"; callback_data := u "anime_" ++ of_Z anime_id |} ] ].

(** [create_top_anime_keyboard(current_filter, current_page, total_pages)]:
    the page is an integer, the number of pages is what [get_top_anime] read
    from the answer of the catalog. *)
Definition create_top_anime_keyboard (w : World) (current_filter : str) (current_page : Z)
    (total_pages : pyval) : res keyboard :=
  let filter_buttons :=
    [ [ {| label := u "🎯 Tous"; callback_data := u "top_all_1" |};
        {| label := u "📡 En cours"; callback_data := u "top_airing_1" |};
        {| label := u "🔮 À venir"; callback_data := u "top_upcoming_1" |} ];
      [ {| label := u "📺 Séries"; callback_data := u "top_tv_1" |};
        {| label := u "🎬 Films"; callback_data := u "top_movie_1" |};
        {| label := u "💎 OVA"; callback_data := u "top_ova_1" |} ];
      [ {| label := u "⭐ Populaires"; callback_data := u "top_bypopularity_1" |};
        {| label := u "❤️ Favoris"; callback_data := u "top_favorite_1" |} ] ] in
  let navigation_buttons :=
    (if 1 <? current_page then
       [ {| label := u "⬅️";
            callback_data := u "top_" ++ current_filter ++ u "_" ++ of_Z (current_page - 1) |} ]
     else [])
    ++ [ {| label := of_Z current_page ++ u "/" ++ format w total_pages;
            callback_data := u "noop" |} ] in
  pages ← Router.as_count total_pages;
  let navigation_buttons :=
    navigation_buttons
    ++ (if current_page <? pages then
          [ {| label := u "➡️";
               callback_data := u "top_" ++ current_filter ++ u "_" ++ of_Z (current_page + 1) |} ]
        else []) in
  match navigation_buttons with
  | [] => Ok filter_buttons
  | _ => Ok (filter_buttons ++ [navigation_buttons])
  end.

End Keyboards.

(* ===================================================================== *)
(** * The statistics of a user *)
(* ===================================================================== *)

Module Stats.
Import Str Py Env.

(** [status_counts[key] += 1] on a dict in insertion order; a key that the
    dict does not hold is a [KeyError]. *)
Fixpoint incr (key : str) (status_counts : list (str * Z)) : res (list (str * Z)) :=
  match status_counts with
  | [] => Raise KeyError
  | (k, n) :: r =>
    if str_eqb k key then Ok ((k, n + 1) :: r)
    else r' ← incr key r; Ok ((k, n) :: r')
  end.

(** [for item in watchlist: status_counts[item['status']] += 1] *)
Fixpoint count_statuses (watchlist : list Db.watch_row) (status_counts : list (str * Z))
    : res (list (str * Z)) :=
  match watchlist with
  | [] => Ok status_counts
  | item :: r =>
    status_counts' ← incr (Db.w_status item) status_counts;
    count_statuses r status_counts'
  end.

(** [status_counts[key]] *)
Fixpoint count_at (key : str) (status_counts : list (str * Z)) : res Z :=
  match status_counts with
  | [] => Raise KeyError
  | (k, n) :: r => if str_eqb k key then Ok n else count_at key r
  end.

(** [sum(status_counts.values())] *)
Definition total (status_counts : list (str * Z)) : Z :=
  foldr Z.add 0 (map snd status_counts).

(** The text built from the counts. *)
Definition render (n_favorites : Z) (status_counts : list (str * Z)) (total_animes : Z)
    (achievements : list Db.achievement_row) : res str :=
  plan_to_watch ← count_at Db.s_plan_to_watch status_counts;
  watching ← count_at Db.s_watching status_counts;
  completed ← count_at Db.s_completed status_counts;
  dropped ← count_at Db.s_dropped status_counts;
  Ok (u "📊 <b>Vos Statistiques Anime</b>" ++ Router.nl
      ++ u "❤️ <b>Favoris</b>: " ++ of_Z n_favorites ++ u " animes" ++ Router.nl
      ++ u "📥 <b>À regarder</b>: " ++ of_Z plan_to_watch ++ u " animes" ++ Router.nl
      ++ u "👁️ <b>En cours</b>: " ++ of_Z watching ++ u " animes" ++ Router.nl
      ++ u "✅ <b>Terminés</b>: " ++ of_Z completed ++ u " animes" ++ Router.nl
      ++ u "❌ <b>Abandonnés</b>: " ++ of_Z dropped ++ u " animes" ++ Router.nl
      ++ u "📈 <b>Total</b>: " ++ of_Z total_animes ++ u " animes" ++ Router.nl
      ++ u "🏆 <b>Achievements</b>: " ++ of_Z (Z.of_nat (length achievements))
      ++ u " obtenus" ++ Router.nl
      ++ match achievements with
         | [] => []
         | _ =>
           Router.nl ++ u "<b>Derniers achievements:</b>" ++ Router.nl
           ++ concat (map (fun ach => u "• " ++ Db.a_achievement_name ach ++ Router.nl)
                          (firstn 3 achievements))
         end).

(** [format_user_stats(user_id)] *)
Definition format_user_stats (user_id : Z) (st : Db.Store) : res str :=
  let favorites := Db.get_favorites user_id st in
  let watchlist := Db.get_watchlist user_id None st in
  let achievements := Db.get_achievements user_id st in
  status_counts ←
    count_statuses watchlist
      [ (Db.s_plan_to_watch, 0); (Db.s_watching, 0); (Db.s_completed, 0); (Db.s_dropped, 0) ];
  let total_animes := Z.of_nat (length favorites) + total status_counts in
  render (Z.of_nat (length favorites)) status_counts total_animes achievements.

End Stats.

(* ===================================================================== *)
(** * Predicates used in the statements about the rest of the program *)
(* ===================================================================== *)

Module Laws.
Import Str Py Env Tg App.

(** ** Primary keys *)

(** No two rows of [favorites] have the same user and anime. *)
Definition fav_keys_unique (st : Db.Store) : Prop :=
  NoDup (map (fun r => (Db.f_user_id r, Db.f_anime_id r)) (Db.favorites st)).

(** No two rows of [watchlists] have the same user and anime. *)
Definition watch_keys_unique (st : Db.Store) : Prop :=
  NoDup (map (fun r => (Db.w_user_id r, Db.w_anime_id r)) (Db.watchlists st)).

(** Every row of [watchlists] passes the CHECK constraints of the table. *)
Definition watch_rows_checked (st : Db.Store) : Prop :=
  Forall (fun r => Db.watch_checks r = true) (Db.watchlists st).

(** One of the four statuses the table admits. *)
Definition valid_status (status : str) : Prop :=
  In status [Db.s_plan_to_watch; Db.s_watching; Db.s_completed; Db.s_dropped].

(** A score the table admits: NULL, or from 0 to 10. *)
Definition valid_score (score : option Z) : Prop :=
  match score with
  | Some sc => 0 <= sc <= 10
  | None => True
  end.

(** ** Decimal numerals *)

(** The characters of a sequence of decimal digits. *)
Definition digits (d : Decimal.uint) : str :=
  map byte_of (list_ascii_of_string (DecimalString.NilEmpty.string_of_uint d)).

(** ** Keyboards and the router *)

(** The branch of [button_handler] that each button of a keyboard reaches
    when it is pressed. *)
Definition routes (kb : keyboard) : list (list (option Router.branch)) :=
  map (map (fun b => Router.select (callback_data b) Router.chain)) kb.

(** A user id that is given and true. *)
Definition signed_in (user_id : option Z) : bool :=
  match user_id with
  | Some z => negb (z =? 0)
  | None => false
  end.

(** What the branch of [watch_] does once it has read the anime and the
    status from the identifier. *)
Definition set_status (v : Router.Views) (user_id anime_id : Z) (full_status : str) : M unit :=
  _ ← update_watchlist user_id anime_id full_status None None;
  _ ← send (Answer (Some (u "Ajouté à " ++ Router.status_names full_status)));
  _ ← Router.notify_achievements user_id;
  anime ← Jikan.get_anime_by_id anime_id;
  if truthy anime then Router.display_anime_with_navigation v anime false else mret tt.

(** ** Character records and their cached snapshot *)





(** The anime has a row in the catalog cache. *)
Definition cached (anime_id : Z) (s : State) : Prop :=
  is_Some (Db.anime_cache (store s) !! anime_id).

(** ** Recommendations *)




(** ** Statistics *)

(** How many records have a status. *)
Definition with_status (status : str) (watchlist : list Db.watch_row) : Z :=
  Z.of_nat (length (List.filter (fun r => str_eqb (Db.w_status r) status) watchlist)).

(** ** Markup *)

(** What [html.escape] writes for one character. *)
Definition entity (c : char) : str :=
  if (c =? Markup.c_amp)%N then u "&amp;"
  else if (c =? Markup.c_lt)%N then u "&lt;"
  else if (c =? Markup.c_gt)%N then u "&gt;"
  else if (c =? Markup.c_quot)%N then u "&quot;"
  else if (c =? Markup.c_apos)%N then u "&#x27;"
  else [c].

(** A character that is neither an angle bracket nor a quote. *)
Definition no_markup (c : char) : Prop :=
  c <> Markup.c_lt /\ c <> Markup.c_gt /\ c <> Markup.c_quot /\ c <> Markup.c_apos.

End Laws.

(* ===================================================================== *)
(** * More concrete states *)
(* ===================================================================== *)

Module Samples.
Import Str Py Env Tg App.

(** User 1 has the favorites 7 and 9, added in this order. *)
Definition two_added : Db.Store :=
  Db.add_to_favorites 1600000001 1 9 (Db.add_to_favorites 1600000000 1 7 Db.empty).

(** A process in which user 1 watches anime 42. *)
Definition watching_42 : State :=
  Examples.with_db
    {| Db.users := ∅; Db.favorites := [];
       Db.watchlists := [ Db.WatchRow 1 42 Db.s_watching None (Some 3) 1600000000 1600000000 ];
       Db.achievements := []; Db.anime_cache := ∅; Db.character_cache := ∅ |}
    Examples.fresh.

(** User 1 has created the list "A voir" and put anime 5 on it. *)
Definition one_list : Lists.Tables :=
  {| Lists.custom_lists := [ Lists.ListRow 1 1 (u "A voir") 1600000000 ];
     Lists.custom_list_items := [ Lists.ItemRow 1 5 1600000001 ];
     Lists.sequence := 1 |}.

(** Anime 42 is a favorite of user 1. *)
Definition fan_of_42 : Db.Store := Db.add_to_favorites 1600000000 1 42 Db.empty.

(** User 1 has one favorite, three watch records and one achievement. *)
Definition busy_user : Db.Store :=
  {| Db.users := ∅;
     Db.favorites := [ Db.FavoriteRow 1 7 1600000000 ];
     Db.watchlists :=
       [ Db.WatchRow 1 7 Db.s_completed (Some 9) (Some 12) 1600000001 1600000001;
         Db.WatchRow 1 8 Db.s_watching None (Some 3) 1600000002 1600000002;
         Db.WatchRow 1 9 Db.s_completed None (Some 24) 1600000003 1600000003 ];
     Db.achievements := [ Db.AchievementRow 1 1 (u "anime_lover") (u "Amoureux") 1600000004 ];
     Db.anime_cache := ∅; Db.character_cache := ∅ |}.






(** A process whose database is [fan_of_42]. *)
Definition fan : State := with_store fan_of_42 Examples.fresh.

End Samples.


(* ===================================================================== *)
(** * Theorems *)
(* ===================================================================== *)

(** ** Strings *)

Section Strings.
Import Str.

Lemma str_eqb_eq (a b : str) : str_eqb a b = true <-> a = b.
Proof.
  revert b. induction a as [|x a IH]; intros [|y b]; simpl; split;
    try discriminate; try reflexivity.
  - intros H. apply andb_true_iff in H as [Hx Hab].
    apply N.eqb_eq in Hx. apply IH in Hab. congruence.
  - intros [= -> ->]. rewrite N.eqb_refl. simpl. apply IH. reflexivity.
Qed.

Lemma str_eqb_refl (a : str) : str_eqb a a = true.
Proof. apply str_eqb_eq. reflexivity. Qed.

Lemma str_eqb_neq (a b : str) : str_eqb a b = false <-> a <> b.
Proof.
  rewrite <- str_eqb_eq. destruct (str_eqb a b); split; congruence.
Qed.

End Strings.

(** ** Running a computation *)

Section Running.
Import Py Env App.

Lemma run_bind {A B} (m : M A) (k : A -> M B) (w : World) (s : State) :
  (m ≫= k) w s
  = match m w s with
    | (Ok a, s') => k a w s'
    | (Raise e, s') => (Raise e, s')
    end.
Proof. reflexivity. Qed.

Lemma run_ret {A} (a : A) (w : World) (s : State) : (mret a : M A) w s = (Ok a, s).
Proof. reflexivity. Qed.

Lemma run_db_read {A} (f : Db.Store -> A) (w : World) (s : State) :
  db_read f w s = (Ok (f (store s)), s).
Proof. reflexivity. Qed.

Lemma run_lift {A} (r : res A) (w : World) (s : State) : lift r w s = (r, s).
Proof. reflexivity. Qed.

Lemma run_world (w : World) (s : State) : world w s = (Ok w, s).
Proof. reflexivity. Qed.

End Running.

Ltac run :=
  repeat (rewrite ?run_bind, ?run_ret, ?run_db_read, ?run_lift, ?run_world; cbv beta iota).

(** ** Slugs *)

Section Slug.
Import Str Env Text Spec.

Lemma u_hyphen : u "-" = [c_hyphen].
Proof. reflexivity. Qed.

Lemma sub_runs_from_hyphen_shape (in_run : bool) (s : str) :
  no_double_hyphen (sub_runs_from is_hyphen [c_hyphen] in_run s)
  /\ (in_run = true ->
      forall c r, sub_runs_from is_hyphen [c_hyphen] in_run s = c :: r -> is_hyphen c = false).
Proof.
  revert in_run. induction s as [|c s IH]; intros in_run.
  - simpl. split; [exact I | discriminate].
  - simpl. destruct (is_hyphen c) eqn:Hc.
    + destruct in_run.
      * destruct (IH true) as [Hnd Hhd]. split; [exact Hnd | intros _; exact (Hhd eq_refl)].
      * destruct (IH true) as [Hnd Hhd]. split; [| discriminate].
        simpl. destruct (sub_runs_from is_hyphen [c_hyphen] true s) as [|d t] eqn:E.
        -- exact I.
        -- split; [| exact Hnd].
           intros [_ Hd]. rewrite (Hhd eq_refl d t eq_refl) in Hd. discriminate.
    + destruct (IH false) as [Hnd _]. split.
      * simpl. destruct (sub_runs_from is_hyphen [c_hyphen] false s) as [|d t] eqn:E.
        -- exact I.
        -- split; [| exact Hnd]. intros [Hc' _]. congruence.
      * intros _ c' r [= <- _]. exact Hc.
Qed.

Lemma sub_runs_from_Forall (P : char -> Prop) cls rep b s :
  Forall P rep -> Forall P s -> Forall P (sub_runs_from cls rep b s).
Proof.
  intros Hrep Hs. revert b. induction Hs as [|c s Hc Hs IH]; intros b; simpl.
  - constructor.
  - destruct (cls c).
    + destruct b; [apply IH | apply Forall_app; split; [exact Hrep | apply IH]].
    + constructor; [exact Hc | apply IH].
Qed.

Lemma lstrip_by_suffix p (s : str) : exists k, s = k ++ lstrip_by p s.
Proof.
  induction s as [|c s [k Hk]]; simpl.
  - exists []. reflexivity.
  - destruct (p c).
    + exists (c :: k). simpl. congruence.
    + exists []. reflexivity.
Qed.

Lemma lstrip_by_head p (s : str) c r : lstrip_by p s = c :: r -> p c = false.
Proof.
  induction s as [|d s IH]; simpl; [discriminate |].
  destruct (p d) eqn:Hd; [exact IH |]. intros [= <- _]. exact Hd.
Qed.

Lemma strip_by_infix p (s : str) : exists k1 k2, s = k1 ++ strip_by p s ++ k2.
Proof.
  unfold strip_by, rstrip_by.
  destruct (lstrip_by_suffix p s) as [k1 H1].
  destruct (lstrip_by_suffix p (rev (lstrip_by p s))) as [k2 H2].
  exists k1, (rev k2).
  rewrite <- rev_app_distr, <- H2, rev_involutive. exact H1.
Qed.

Lemma no_double_hyphen_app_r (a b : str) : no_double_hyphen (a ++ b) -> no_double_hyphen b.
Proof.
  induction a as [|x a IH]; simpl; [tauto |].
  destruct (a ++ b) eqn:E; intros H.
  - destruct a; [simpl in E; subst; exact I | discriminate].
  - apply IH. tauto.
Qed.

Lemma no_double_hyphen_app_l (a b : str) : no_double_hyphen (a ++ b) -> no_double_hyphen a.
Proof.
  induction a as [|x a IH]; simpl; [tauto |].
  destruct a as [|y a]; [tauto |]. simpl in *. intros [H1 H2]. split; [exact H1 | apply IH, H2].
Qed.

Lemma no_double_hyphen_split (s : str) :
  no_double_hyphen s -> forall l1 l2, s <> l1 ++ [c_hyphen; c_hyphen] ++ l2.
Proof.
  intros H l1 l2 ->. apply no_double_hyphen_app_r in H. simpl in H.
  destruct H as [H _]. apply H. split; reflexivity.
Qed.

Lemma strip_by_head p (s : str) c r : strip_by p s = c :: r -> p c = false.
Proof.
  unfold strip_by, rstrip_by. intros H.
  destruct (lstrip_by_suffix p (rev (lstrip_by p s))) as [k Hk].
  apply (f_equal (@rev _)) in Hk. rewrite rev_involutive, rev_app_distr, H in Hk.
  simpl in Hk. eapply lstrip_by_head. exact Hk.
Qed.

Lemma strip_by_last p (s : str) c : last (strip_by p s) = Some c -> p c = false.
Proof.
  unfold strip_by, rstrip_by. intros H.
  destruct (lstrip_by p (rev (lstrip_by p s))) as [|d t] eqn:E; [discriminate |].
  simpl in H. rewrite last_snoc in H. injection H as <-.
  eapply lstrip_by_head. exact E.
Qed.

(** C10. For every title, [create_slug] returns a string made only of the
    lowercase letters a to z, the digits and the hyphen, that neither begins
    nor ends with a hyphen and contains no two consecutive hyphens. *)
Theorem create_slug_shape (w : World) (title : str) :
  Forall (fun c => (97 <= c <= 122)%N \/ (48 <= c <= 57)%N \/ c = 45%N)
         (create_slug w title)
  /\ head (create_slug w title) <> Some 45%N
  /\ last (create_slug w title) <> Some 45%N
  /\ forall l1 l2, create_slug w title <> l1 ++ [45%N; 45%N] ++ l2.
Proof.
  unfold create_slug. rewrite !u_hyphen. unfold sub_runs.
  set (t := sub_runs_from is_hyphen [c_hyphen] false
              (List.filter slug_char (sub_runs_from is_space [c_hyphen] false (str_lower w title)))).
  assert (Hok : forall c, slug_char c = true ->
                  (97 <= c <= 122)%N \/ (48 <= c <= 57)%N \/ c = 45%N).
  { intros c. unfold slug_char, is_lower_az, is_digit, is_hyphen, c_hyphen.
    rewrite !orb_true_iff, !andb_true_iff, !N.leb_le, N.eqb_eq. tauto. }
  assert (Ht : Forall (fun c => slug_char c = true) t).
  { apply sub_runs_from_Forall.
    - repeat constructor.
    - apply Forall_forall. intros c Hc. apply list_elem_of_In, filter_In in Hc. tauto. }
  destruct (strip_by_infix is_hyphen t) as (k1 & k2 & Hk).
  split; [| split; [| split]].
  - rewrite Hk in Ht. apply Forall_app in Ht as [_ Ht]. apply Forall_app in Ht as [Ht _].
    eapply Forall_impl; [exact Ht | exact Hok].
  - destruct (strip_by is_hyphen t) as [|c r] eqn:E; [discriminate |].
    simpl. intros [= ->]. apply strip_by_head in E. discriminate.
  - intros H. apply strip_by_last in H. discriminate.
  - apply no_double_hyphen_split.
    destruct (sub_runs_from_hyphen_shape false
                (List.filter slug_char (sub_runs_from is_space [c_hyphen] false (str_lower w title))))
      as [Hnd _].
    fold t in Hnd. rewrite Hk in Hnd.
    apply no_double_hyphen_app_r in Hnd. apply no_double_hyphen_app_l in Hnd. exact Hnd.
Qed.

End Slug.

(** ** The watch records *)

Section WatchRecords.
Import Str Py Env Db.

Lemma find_app_split {A} (p : A -> bool) (l1 l2 : list A) :
  List.find p (l1 ++ l2)
  = match List.find p l1 with Some x => Some x | None => List.find p l2 end.
Proof.
  induction l1 as [|x l1 IH]; simpl; [reflexivity |].
  destruct (p x); [reflexivity | exact IH].
Qed.

Lemma find_filter_other {A} (p q : A -> bool) (l : list A) :
  (forall x, p x = true -> q x = true) ->
  List.find p (List.filter q l) = List.find p l.
Proof.
  intros Hpq. induction l as [|x l IH]; simpl; [reflexivity |].
  destruct (q x) eqn:Hq; simpl.
  - destruct (p x); [reflexivity | exact IH].
  - destruct (p x) eqn:Hp; [| exact IH].
    apply Hpq in Hp. congruence.
Qed.

Lemma find_filter_excluded {A} (p : A -> bool) (l : list A) :
  List.find p (List.filter (fun x => negb (p x)) l) = None.
Proof.
  induction l as [|x l IH]; simpl; [reflexivity |].
  destruct (p x) eqn:Hp; simpl; [exact IH | rewrite Hp; exact IH].
Qed.

Lemma watch_key_is_refl (r : watch_row) : watch_key_is (w_user_id r) (w_anime_id r) r = true.
Proof. unfold watch_key_is. rewrite !Z.eqb_refl. reflexivity. Qed.

(** What an insert-or-replace leaves under the key of the new row is the new
    row, whatever was there. *)
Lemma insert_or_replace_watch_reads_back (r : watch_row) (st st' : Store) :
  insert_or_replace_watch r st = Ok st' ->
  get_watch_status (w_user_id r) (w_anime_id r) st' = Some r.
Proof.
  unfold insert_or_replace_watch, get_watch_status.
  destruct (watch_checks r); [| discriminate]. intros [= <-]. simpl.
  rewrite find_app_split, find_filter_excluded. simpl.
  rewrite watch_key_is_refl. reflexivity.
Qed.

(** The records under other keys are not touched. *)
Lemma insert_or_replace_watch_other (r : watch_row) (st st' : Store) (user_id anime_id : Z) :
  insert_or_replace_watch r st = Ok st' ->
  (user_id, anime_id) <> (w_user_id r, w_anime_id r) ->
  get_watch_status user_id anime_id st' = get_watch_status user_id anime_id st.
Proof.
  unfold insert_or_replace_watch, get_watch_status.
  destruct (watch_checks r); [| discriminate]. intros [= <-] Hne. simpl.
  rewrite find_app_split.
  assert (Hk : watch_key_is user_id anime_id r = false).
  { unfold watch_key_is. apply andb_false_iff.
    destruct (Z.eqb_spec (w_user_id r) user_id) as [Hu|]; [| tauto].
    destruct (Z.eqb_spec (w_anime_id r) anime_id) as [Ha|]; [| tauto].
    exfalso. apply Hne. congruence. }
  rewrite find_filter_other.
  - simpl. rewrite Hk. destruct (find _ _); reflexivity.
  - intros x Hx. apply negb_true_iff. unfold watch_key_is in *.
    apply andb_true_iff in Hx as [Hxu Hxa].
    apply Z.eqb_eq in Hxu, Hxa. rewrite Hxu, Hxa.
    apply andb_false_iff.
    destruct (Z.eqb_spec user_id (w_user_id r)) as [Hu|]; [| tauto].
    destruct (Z.eqb_spec anime_id (w_anime_id r)) as [Ha|]; [| tauto].
    exfalso. apply Hne. congruence.
Qed.

(** The record read back after [update_watchlist]: the status given, the
    score given or NULL, the progress given or 0.  Nothing of the previous
    record of the key survives. *)
Lemma update_watchlist_reads_back (now user_id anime_id : Z) (status : str)
    (score progress : option Z) (st st' : Store) :
  update_watchlist now user_id anime_id status score progress st = Ok st' ->
  get_watch_status user_id anime_id st'
  = Some {| w_user_id := user_id; w_anime_id := anime_id; w_status := status;
            w_score := score; w_progress := Some (default 0 progress);
            w_added_at := now; w_updated_at := now |}.
Proof.
  unfold update_watchlist. intros H.
  destruct score as [sc|], progress as [pr|];
    apply insert_or_replace_watch_reads_back in H; exact H.
Qed.

Lemma update_watchlist_other (now user_id anime_id : Z) (status : str)
    (score progress : option Z) (st st' : Store) (user_id' anime_id' : Z) :
  update_watchlist now user_id anime_id status score progress st = Ok st' ->
  (user_id', anime_id') <> (user_id, anime_id) ->
  get_watch_status user_id' anime_id' st' = get_watch_status user_id' anime_id' st.
Proof.
  unfold update_watchlist. intros H Hne.
  destruct score as [sc|], progress as [pr|];
    eapply insert_or_replace_watch_other in H; eauto.
Qed.

(** C1 (the program departs from the claim).  User 1 has a record for anime
    42 with status watching, score 8 and progress 5.  An update that gives
    only the status leaves score NULL and progress 0; an update that gives
    status and progress leaves score NULL; an update that gives status and
    score leaves progress 0. *)
Theorem update_watchlist_drops_unnamed_fields :
  exists st1 st2 st3 st4,
    update_watchlist 100 1 42 (u "watching") (Some 8) (Some 5) Db.empty = Ok st1
    /\ get_watch_status 1 42 st1
       = Some (WatchRow 1 42 (u "watching") (Some 8) (Some 5) 100 100)
    /\ update_watchlist 200 1 42 (u "completed") None None st1 = Ok st2
    /\ get_watch_status 1 42 st2
       = Some (WatchRow 1 42 (u "completed") None (Some 0) 200 200)
    /\ update_watchlist 200 1 42 (u "watching") None (Some 6) st1 = Ok st3
    /\ get_watch_status 1 42 st3
       = Some (WatchRow 1 42 (u "watching") None (Some 6) 200 200)
    /\ update_watchlist 200 1 42 (u "watching") (Some 9) None st1 = Ok st4
    /\ get_watch_status 1 42 st4
       = Some (WatchRow 1 42 (u "watching") (Some 9) (Some 0) 200 200).
Proof.
  do 4 eexists.
  split; [vm_compute; reflexivity |].
  split; [vm_compute; reflexivity |].
  split; [vm_compute; reflexivity |].
  split; [vm_compute; reflexivity |].
  split; [vm_compute; reflexivity |].
  split; [vm_compute; reflexivity |].
  split; vm_compute; reflexivity.
Qed.

End WatchRecords.

(** ** Achievements *)

Section Achievements.
Import Str Py Env App Spec Engine.

Lemma ach_key_is_new (now user_id : Z) (kind name : str) (n : Z) :
  Db.ach_key_is user_id kind (Db.AchievementRow n user_id kind name now) = true.
Proof. unfold Db.ach_key_is. simpl. rewrite Z.eqb_refl, str_eqb_refl. reflexivity. Qed.

(** A first grant inserts one record; a grant of a kind the user has is
    refused and changes nothing. *)
Lemma add_achievement_new (now user_id : Z) (kind name : str) (st : Db.Store) :
  achievement_count user_id kind st = 0%nat ->
  exists st', Db.add_achievement now user_id kind name st = (true, st')
    /\ achievement_count user_id kind st' = 1%nat.
Proof.
  intros H0. unfold Db.add_achievement. unfold achievement_count in H0.
  rewrite H0. simpl. eexists. split; [reflexivity |].
  unfold achievement_count. simpl. rewrite List.filter_app, length_app, H0. simpl.
  rewrite ach_key_is_new. reflexivity.
Qed.

Lemma add_achievement_again (now user_id : Z) (kind name : str) (st : Db.Store) :
  achievement_count user_id kind st <> 0%nat ->
  Db.add_achievement now user_id kind name st = (false, st).
Proof.
  intros H0. unfold Db.add_achievement. unfold achievement_count in H0.
  destruct (Nat.eqb_spec (length (List.filter (Db.ach_key_is user_id kind) (Db.achievements st))) 0%nat);
    [contradiction | reflexivity].
Qed.

Lemma add_achievement_twice (now now' user_id : Z) (kind name name' : str) (st : Db.Store) :
  let st1 := snd (Db.add_achievement now user_id kind name st) in
  Db.add_achievement now' user_id kind name' st1 = (false, st1)
  /\ (achievement_count user_id kind st = 0%nat ->
      fst (Db.add_achievement now user_id kind name st) = true
      /\ achievement_count user_id kind st1 = 1%nat).
Proof.
  intros st1. subst st1.
  destruct (Nat.eq_dec (achievement_count user_id kind st) 0%nat) as [H0|H0].
  - destruct (add_achievement_new now user_id kind name st H0) as (st' & E & H1).
    rewrite E. simpl. split.
    + apply add_achievement_again. rewrite H1. discriminate.
    + intros _. split; [reflexivity | exact H1].
  - rewrite (add_achievement_again now user_id kind name st H0). simpl. split.
    + apply add_achievement_again. exact H0.
    + intros H. contradiction.
Qed.

(** *** The predicates of the registry read the favorites, the watch records
    and, through the known set, the catalog cache. *)

Lemma same_entities_refl st : same_entities st st.
Proof. repeat split. Qed.

Lemma same_entities_trans st1 st2 st3 :
  same_entities st1 st2 -> same_entities st2 st3 -> same_entities st1 st3.
Proof. unfold same_entities. intros (? & ? & ?) (? & ? & ?). repeat split; congruence. Qed.

Lemma same_entities_favorites user_id st st' :
  same_entities st st' -> Db.get_favorites user_id st = Db.get_favorites user_id st'.
Proof. intros (H & _ & _). unfold Db.get_favorites. rewrite H. reflexivity. Qed.

Lemma same_entities_watchlist user_id status st st' :
  same_entities st st' -> Db.get_watchlist user_id status st = Db.get_watchlist user_id status st'.
Proof. intros (_ & H & _). unfold Db.get_watchlist. rewrite H. reflexivity. Qed.

Lemma same_entities_known_set w user_id st st' :
  same_entities st st' -> known_set w user_id st = known_set w user_id st'.
Proof.
  intros H. unfold known_set.
  rewrite (same_entities_favorites user_id st st' H),
          (same_entities_watchlist user_id None st st' H). reflexivity.
Qed.

Lemma same_entities_known_cached w user_id st st' :
  same_entities st st' -> known_cached w user_id st -> known_cached w user_id st'.
Proof.
  intros H. unfold known_cached. rewrite (same_entities_known_set w user_id st st' H).
  destruct H as (_ & _ & ->). tauto.
Qed.

Lemma cached_or_fetched_hit (anime_id : Z) (w : World) (s : State) :
  is_Some (Db.anime_cache (store s) !! anime_id) ->
  exists a, Db.get_cached_anime anime_id (store s) = Some a
    /\ cached_or_fetched anime_id w s = (Ok a, s).
Proof.
  intros [row Hrow]. unfold cached_or_fetched. run.
  unfold Db.get_cached_anime. rewrite Hrow. eexists. split; reflexivity.
Qed.

Lemma genre_set_cached (w : World) (ids : list Z) (genres : list pyval) (s : State) :
  Forall (fun anime_id => is_Some (Db.anime_cache (store s) !! anime_id)) ids ->
  reads_cache_only (genre_set ids genres) w s.
Proof.
  intros Hall. revert genres. induction Hall as [|anime_id ids Hid Hall IH]; intros genres.
  - exists (Ok genres). split; [reflexivity | intros; reflexivity].
  - destruct (cached_or_fetched_hit anime_id w s Hid) as (a & Ha & Hrun).
    simpl. destruct (add_genres_of a genres) as [genres'|e] eqn:Hadd.
    + destruct (IH genres') as (r & Hr & Hr').
      exists r. split.
      * run. rewrite Hrun. run. rewrite Hadd. exact Hr.
      * intros s' Hs'. run.
        assert (Hid' : is_Some (Db.anime_cache (store s') !! anime_id)) by (rewrite Hs'; exact Hid).
        destruct (cached_or_fetched_hit anime_id w s' Hid') as (a' & Ha' & Hrun').
        assert (a' = a).
        { unfold Db.get_cached_anime in Ha, Ha'. rewrite Hs' in Ha'. congruence. }
        subst a'. rewrite Hrun'. run. rewrite Hadd. apply Hr'. exact Hs'.
    + exists (Raise e). split.
      * run. rewrite Hrun. run. rewrite Hadd. reflexivity.
      * intros s' Hs'. run.
        assert (Hid' : is_Some (Db.anime_cache (store s') !! anime_id)) by (rewrite Hs'; exact Hid).
        destruct (cached_or_fetched_hit anime_id w s' Hid') as (a' & Ha' & Hrun').
        assert (a' = a).
        { unfold Db.get_cached_anime in Ha, Ha'. rewrite Hs' in Ha'. congruence. }
        subst a'. rewrite Hrun'. run. rewrite Hadd. reflexivity.
Qed.

Lemma season_set_cached (w : World) (ids : list Z) (seasons : list pyval) (s : State) :
  Forall (fun anime_id => is_Some (Db.anime_cache (store s) !! anime_id)) ids ->
  reads_cache_only (season_set ids seasons) w s.
Proof.
  intros Hall. revert seasons. induction Hall as [|anime_id ids Hid Hall IH]; intros seasons.
  - exists (Ok seasons). split; [reflexivity | intros; reflexivity].
  - destruct (cached_or_fetched_hit anime_id w s Hid) as (a & Ha & Hrun).
    simpl. destruct (add_season_of w a seasons) as [seasons'|e] eqn:Hadd.
    + destruct (IH seasons') as (r & Hr & Hr').
      exists r. split.
      * run. rewrite Hrun. run. rewrite Hadd. exact Hr.
      * intros s' Hs'. run.
        assert (Hid' : is_Some (Db.anime_cache (store s') !! anime_id)) by (rewrite Hs'; exact Hid).
        destruct (cached_or_fetched_hit anime_id w s' Hid') as (a' & Ha' & Hrun').
        assert (a' = a).
        { unfold Db.get_cached_anime in Ha, Ha'. rewrite Hs' in Ha'. congruence. }
        subst a'. rewrite Hrun'. run. rewrite Hadd. apply Hr'. exact Hs'.
    + exists (Raise e). split.
      * run. rewrite Hrun. run. rewrite Hadd. reflexivity.
      * intros s' Hs'. run.
        assert (Hid' : is_Some (Db.anime_cache (store s') !! anime_id)) by (rewrite Hs'; exact Hid).
        destruct (cached_or_fetched_hit anime_id w s' Hid') as (a' & Ha' & Hrun').
        assert (a' = a).
        { unfold Db.get_cached_anime in Ha, Ha'. rewrite Hs' in Ha'. congruence. }
        subst a'. rewrite Hrun'. run. rewrite Hadd. reflexivity.
Qed.

Lemma registry_settled (w : World) (user_id : Z) :
  Forall (fun a => settled_by_entities a w user_id) ACHIEVEMENTS.
Proof.
  unfold ACHIEVEMENTS. repeat apply Forall_cons_2; [..| apply Forall_nil_2];
    intros s Hk; simpl.
  - eexists. split; [reflexivity |]. intros s' Hs'. run.
    rewrite <- (same_entities_favorites user_id _ _ Hs'),
            <- (same_entities_watchlist user_id None _ _ Hs'). reflexivity.
  - destruct (genre_set_cached w (known_set w user_id (store s)) [] s Hk) as (r & Hr & Hr').
    unfold check_genre_variety.
    exists (match r with Ok genres => Ok (Z.of_nat (length genres) >=? 10) | Raise e => Raise e end).
    split.
    + run. fold (known_set w user_id (store s)). rewrite Hr. destruct r; reflexivity.
    + intros s' Hs'. run. fold (known_set w user_id (store s')).
      rewrite <- (same_entities_known_set w user_id _ _ Hs').
      rewrite Hr' by (symmetry; apply Hs'). destruct r; reflexivity.
  - destruct (season_set_cached w (known_set w user_id (store s)) [] s Hk) as (r & Hr & Hr').
    unfold check_season_variety.
    exists (match r with Ok seasons => Ok (Z.of_nat (length seasons) >=? 4) | Raise e => Raise e end).
    split.
    + run. fold (known_set w user_id (store s)). rewrite Hr. destruct r; reflexivity.
    + intros s' Hs'. run. fold (known_set w user_id (store s')).
      rewrite <- (same_entities_known_set w user_id _ _ Hs').
      rewrite Hr' by (symmetry; apply Hs'). destruct r; reflexivity.
  - eexists. split; [reflexivity |]. intros s' Hs'. run.
    rewrite <- (same_entities_favorites user_id _ _ Hs'). reflexivity.
  - eexists. split; [reflexivity |]. intros s' Hs'. run.
    rewrite <- (same_entities_watchlist user_id None _ _ Hs'). reflexivity.
Qed.

Lemma add_achievement_effect (user_id : Z) (kind name : str) (w : World) (s : State) :
  exists b s',
    add_achievement user_id kind name w s = (Ok b, s')
    /\ same_entities (store s) (store s')
    /\ granted user_id kind (store s')
    /\ (forall k, granted user_id k (store s) -> granted user_id k (store s'))
    /\ (granted user_id kind (store s) -> b = false /\ s' = s).
Proof.
  unfold add_achievement.
  destruct (Nat.eq_dec (achievement_count user_id kind (store s)) 0%nat) as [H0|H0].
  - destruct (add_achievement_new (current_timestamp w (ticks s)) user_id kind name (store s) H0)
      as (st' & E & H1).
    rewrite E. do 2 eexists. split; [reflexivity |]. simpl.
    assert (Hst : st' = snd (Db.add_achievement (current_timestamp w (ticks s)) user_id kind name (store s)))
      by (rewrite E; reflexivity).
    unfold Db.add_achievement in Hst. unfold achievement_count in H0. rewrite H0 in Hst.
    simpl in Hst. split; [| split; [| split]].
    + subst st'. repeat split.
    + unfold granted. rewrite H1. discriminate.
    + intros k Hk. unfold granted, achievement_count in *. subst st'. simpl.
      rewrite List.filter_app, length_app. lia.
    + intros Hg. unfold granted, achievement_count in Hg. contradiction.
  - rewrite (add_achievement_again _ user_id kind name (store s) H0).
    exists false, s. split; [reflexivity |].
    split; [apply same_entities_refl |]. split; [exact H0 |]. split; [tauto |].
    intros _. split; reflexivity.
Qed.

(** What a run of the loop of [check_achievements] that returns leaves
    behind, the known set being cached: the entities are as before, nothing
    granted is lost, and every predicate of the registry is decided in the
    final state, the kinds whose predicate holds being granted. *)
Lemma check_each_first_run (w : World) (user_id : Z) (registry : list achievement) :
  Forall (fun a => settled_by_entities a w user_id) registry ->
  forall acc s r s1,
    known_cached w user_id (store s) ->
    check_each user_id registry acc w s = (Ok r, s1) ->
    same_entities (store s) (store s1)
    /\ (forall k, granted user_id k (store s) -> granted user_id k (store s1))
    /\ Forall (decided_and_granted w user_id s1) registry.
Proof.
  induction 1 as [|a registry Ha Hreg IH]; intros acc s r s1 Hk Hrun.
  - simpl in Hrun. injection Hrun as _ <-.
    split; [apply same_entities_refl |]. split; [tauto | constructor].
  - simpl in Hrun. revert Hrun. run.
    destruct (Ha s Hk) as (rc & Hc & Hc'). rewrite Hc.
    destruct rc as [holds|e]; [| discriminate].
    destruct holds.
    + run.
      destruct (add_achievement_effect user_id (ach_id a) (ach_name a) w s)
        as (b & s' & E & Hsame & Hg & Hmono & _).
      rewrite E. intros Hrun.
      destruct (IH _ s' r s1 (same_entities_known_cached _ _ _ _ Hsame Hk) Hrun)
        as (Hsame' & Hmono' & Hall).
      split; [eapply same_entities_trans; eassumption |].
      split; [intros k Hgk; apply Hmono', Hmono, Hgk |].
      constructor; [| exact Hall].
      exists true. split.
      * apply Hc'. eapply same_entities_trans; eassumption.
      * intros _. apply Hmono', Hg.
    + intros Hrun.
      destruct (IH _ s r s1 Hk Hrun) as (Hsame' & Hmono' & Hall).
      split; [exact Hsame' |]. split; [exact Hmono' |].
      constructor; [| exact Hall].
      exists false. split; [apply Hc', Hsame' | discriminate].
Qed.

Lemma check_each_nothing_new (w : World) (user_id : Z) (registry : list achievement)
    (acc : list str) (s : State) :
  Forall (decided_and_granted w user_id s) registry ->
  check_each user_id registry acc w s = (Ok acc, s).
Proof.
  induction 1 as [|a registry (b & Hc & Hg) Hreg IH]; [reflexivity |].
  simpl. run. rewrite Hc. destruct b; [| exact IH].
  run.
  destruct (add_achievement_effect user_id (ach_id a) (ach_name a) w s)
    as (b & s' & E & _ & _ & _ & Hagain).
  destruct (Hagain (Hg eq_refl)) as [-> ->]. rewrite E. exact IH.
Qed.

Lemma check_achievements_rerun (w : World) (user_id : Z) (s s1 : State) (r : list str) :
  known_cached w user_id (store s) ->
  check_achievements user_id w s = (Ok r, s1) ->
  check_achievements user_id w s1 = (Ok [], s1).
Proof.
  intros Hk Hrun. unfold check_achievements in *.
  destruct (check_each_first_run w user_id ACHIEVEMENTS (registry_settled w user_id)
              [] s r s1 Hk Hrun) as (_ & _ & Hall).
  apply check_each_nothing_new. exact Hall.
Qed.

(** C4, as amended.  Granting a kind to a user twice stores one record (when
    the user had none of the kind) and the second [add_achievement] returns
    False and changes nothing.  When every entity of the user's known set is
    in the catalog cache, a second run of [check_achievements] right after a
    run that returned grants nothing, returns the empty list and leaves the
    state as it is. *)
Theorem achievements_granted_once (w : World) (user_id : Z) (s s1 : State) (r : list str) :
  known_cached w user_id (store s) ->
  check_achievements user_id w s = (Ok r, s1) ->
  (forall now now' kind name name' st,
     let st1 := snd (Db.add_achievement now user_id kind name st) in
     Db.add_achievement now' user_id kind name' st1 = (false, st1)
     /\ (achievement_count user_id kind st = 0%nat ->
         fst (Db.add_achievement now user_id kind name st) = true
         /\ achievement_count user_id kind st1 = 1%nat))
  /\ check_achievements user_id w s1 = (Ok [], s1).
Proof.
  intros Hk Hrun. split.
  - intros. apply add_achievement_twice.
  - eapply check_achievements_rerun; eassumption.
Qed.

(** The twenty cached favorites of user 1 earn one achievement in a first
    run and nothing in the next. *)
Lemma achievements_granted_once_witness :
  exists s1,
    check_achievements 1 (Examples.world_of Examples.unreachable) Examples.collector
    = (Ok [u "❤️ Amoureux d'Animes"], s1)
    /\ achievement_count 1 (u "anime_lover") (store s1) = 1%nat
    /\ check_achievements 1 (Examples.world_of Examples.unreachable) s1 = (Ok [], s1).
Proof.
  eexists. split; [vm_compute; reflexivity |]. split; [vm_compute; reflexivity |].
  eapply (achievements_granted_once (Examples.world_of Examples.unreachable) 1
            Examples.collector).
  - unfold known_cached. refine (@bool_decide_unpack _ (Forall_dec _ _) _). vm_compute. exact I.
  - vm_compute. reflexivity.
Defined.

(** C4 as stated fails: the predicates consult the catalog for entities that
    are not cached.  With a catalog that is down during a first run and up
    during the second, the first run grants nothing and leaves the database
    as it was, and the second run grants an achievement. *)
Lemma check_achievements_rerun_grants :
  exists s1 s2,
    check_achievements 1 (Examples.world_of Examples.flaky) Examples.lone_fan = (Ok [], s1)
    /\ store s1 = store Examples.lone_fan
    /\ check_achievements 1 (Examples.world_of Examples.flaky) s1
       = (Ok [u "🎭 Maître des Genres"], s2).
Proof.
  do 2 eexists. split; [vm_compute; reflexivity |].
  split; vm_compute; reflexivity.
Qed.

End Achievements.

(** ** The catalog cache *)

Section Cache.
Import Str Py Env App Spec.




Lemma mapM_res_cons {A B} (f : A -> res B) (x : A) (l : list A) :
  mapM f (x :: l) = res_bind (f x) (fun y => res_bind (mapM f l) (fun k => Ok (y :: k))).
Proof. reflexivity. Qed.

Lemma res_bind_ok {A B} (a : A) (k : A -> res B) : res_bind (Ok a) k = k a.
Proof. reflexivity. Qed.

Lemma res_mbind_ok {A B} (a : A) (k : A -> res B) : (Ok a ≫= k) = k a.
Proof. reflexivity. Qed.











End Cache.

(** ** The catalog client *)

Section Client.
Import Str Py Env App Spec.

Ltac fetch_fails H :=
  unfold try_except; run; unfold requests_get;
  destruct H as [H | (code & body & H & Hne)]; rewrite H;
  [ reflexivity
  | cbv iota; run; destruct (Z.eqb_spec code 200); [contradiction | reflexivity] ].

(** On a network error and on a status other than 200 every operation of
    the client returns its empty or absent result, after one request and
    with the database as it was. *)
Lemma search_anime_unavailable (w : World) (s : State) (query : str) (limit : Z) :
  unavailable w s (Jikan.search_anime_url query limit) ->
  Jikan.search_anime query limit w s
  = (Ok PNone, logged (Jikan.search_anime_url query limit) s).
Proof. intros H. unfold Jikan.search_anime. fetch_fails H. Qed.


Lemma get_anime_by_season_unavailable (w : World) (s : State) (year season : str) :
  unavailable w s (Jikan.season_url year season) ->
  Jikan.get_anime_by_season year season w s
  = (Ok PNone, logged (Jikan.season_url year season) s).
Proof. intros H. unfold Jikan.get_anime_by_season. fetch_fails H. Qed.

Lemma search_character_unavailable (w : World) (s : State) (query : str) (limit : Z) :
  unavailable w s (Jikan.search_character_url query limit) ->
  Jikan.search_character query limit w s
  = (Ok PNone, logged (Jikan.search_character_url query limit) s).
Proof. intros H. unfold Jikan.search_character. fetch_fails H. Qed.

Lemma get_character_by_id_unavailable (w : World) (s : State) (character_id : Z) :
  Db.character_cache (store s) !! character_id = None ->
  unavailable w s (Jikan.character_url character_id) ->
  Jikan.get_character_by_id character_id w s
  = (Ok PNone, logged (Jikan.character_url character_id) s).
Proof.
  intros Hcold H. unfold Jikan.get_character_by_id. run.
  unfold Db.get_cached_character. rewrite Hcold. fetch_fails H.
Qed.

Lemma get_anime_characters_unavailable (w : World) (s : State) (anime_id : str) :
  unavailable w s (Jikan.anime_characters_url anime_id) ->
  Jikan.get_anime_characters anime_id w s
  = (Ok (PList []), logged (Jikan.anime_characters_url anime_id) s).
Proof. intros H. unfold Jikan.get_anime_characters. fetch_fails H. Qed.

Lemma get_top_anime_unavailable (w : World) (s : State) (filter_type : str) (page limit : Z) :
  unavailable w s (Jikan.top_anime_url filter_type page limit) ->
  Jikan.get_top_anime filter_type page limit w s
  = (Ok (PTuple [PList []; PInt 1]), logged (Jikan.top_anime_url filter_type page limit) s).
Proof. intros H. unfold Jikan.get_top_anime. fetch_fails H. Qed.

Lemma get_random_anime_unavailable (w : World) (s : State) :
  unavailable w s Jikan.random_anime_url ->
  Jikan.get_random_anime w s = (Ok PNone, logged Jikan.random_anime_url s).
Proof. intros H. unfold Jikan.get_random_anime. fetch_fails H. Qed.

Lemma get_schedule_unavailable (w : World) (s : State) (day : option str) :
  unavailable w s (Jikan.schedule_url day) ->
  Jikan.get_schedule day w s = (Ok (PList []), logged (Jikan.schedule_url day) s).
Proof. intros H. unfold Jikan.get_schedule. fetch_fails H. Qed.

(** A body that is not JSON is absorbed by a [requests] whose JSON error is
    a [RequestException], and escapes otherwise. *)
Lemma search_anime_not_json (w : World) (s : State) (query : str) (limit : Z) :
  http_get w (length (requests s)) (Jikan.search_anime_url query limit) = Response 200 None ->
  Jikan.search_anime query limit w s
  = (if json_error_is_request_exception w then Ok PNone else Raise JSONDecodeError,
     logged (Jikan.search_anime_url query limit) s).
Proof.
  intros H. unfold Jikan.search_anime, try_except. run. unfold requests_get. rewrite H.
  cbv iota. change (200 =? 200) with true. cbv iota. run. unfold json, raise.
  unfold is_request_exception. destruct (json_error_is_request_exception w); reflexivity.
Qed.

(** C5 (the program departs from the claim).  A response of status 200 whose
    body has not the expected shape makes the client raise: a JSON array
    where an object is expected, a record whose [genres] is null, a
    [pagination] that is null, a genre without a name; and with an older
    [requests] a body that is not JSON at all. *)
Theorem client_raises_on_malformed_body :
  fst (Jikan.search_anime (u "naruto") 10
         (Examples.world_of (Examples.answers (Some (PList [])))) Examples.fresh)
  = Raise AttributeError
  /\ fst (Jikan.get_anime_by_id 42
            (Examples.world_of (Examples.answers (Some (PDict
               [ (u "data", PDict [ (u "mal_id", PInt 42); (u "genres", PNone) ]) ]))))
            Examples.fresh)
     = Raise TypeError
  /\ fst (Jikan.get_top_anime (u "all") 1 10
            (Examples.world_of (Examples.answers (Some (PDict
               [ (u "data", PList []); (u "pagination", PNone) ]))))
            Examples.fresh)
     = Raise AttributeError
  /\ fst (Jikan.get_schedule None
            (Examples.world_of (Examples.answers (Some (PDict
               [ (u "data",
                  PList [ PDict [ (u "mal_id", PInt 1);
                                  (u "genres", PList [ PDict [] ]) ] ]) ]))))
            Examples.fresh)
     = Raise KeyError
  /\ fst (Jikan.search_anime (u "naruto") 10
            (Examples.legacy_world_of (Examples.answers None)) Examples.fresh)
     = Raise JSONDecodeError.
Proof. repeat split; vm_compute; reflexivity. Qed.

End Client.

(** ** The stable descending sort *)

Section Sorting.
Import Order Spec.
Context {A : Type} (key : A -> Z).

Lemma before_In (a b : A) (l : list A) : before a b l -> In a l /\ In b l.
Proof.
  induction 1 as [l Hb | x l _ [IHa IHb]]; simpl; tauto.
Qed.

Lemma before_app_r (a b : A) (l1 l2 : list A) : before a b l2 -> before a b (l1 ++ l2).
Proof. intros H. induction l1; simpl; [exact H | apply before_later; assumption]. Qed.

Lemma before_app_l (a b : A) (l1 l2 : list A) : before a b l1 -> before a b (l1 ++ l2).
Proof.
  induction 1 as [l Hb | x l _ IH]; simpl.
  - apply before_here. apply in_or_app. tauto.
  - apply before_later. exact IH.
Qed.

Lemma insert_desc_perm (x : A) (l : list A) : insert_desc key x l ≡ₚ x :: l.
Proof.
  induction l as [|y l IH]; simpl; [reflexivity |].
  destruct (key y >? key x); [| reflexivity].
  rewrite IH. apply perm_swap.
Qed.

Lemma sort_desc_perm (l : list A) : sort_desc key l ≡ₚ l.
Proof.
  induction l as [|x l IH]; simpl; [reflexivity |].
  rewrite insert_desc_perm, IH. reflexivity.
Qed.

Lemma insert_desc_descending (x : A) (l : list A) :
  descending key l -> descending key (insert_desc key x l).
Proof.
  unfold descending. induction 1 as [|y l Hl IH Hy]; simpl.
  - repeat constructor.
  - destruct (key y >? key x) eqn:E.
    + constructor; [exact IH |].
      rewrite insert_desc_perm. constructor; [lia | exact Hy].
    + constructor; [constructor; assumption |].
      constructor; [lia |].
      eapply Forall_impl; [exact Hy |]. simpl. intros z Hz. lia.
Qed.

Lemma sort_desc_descending (l : list A) : descending key (sort_desc key l).
Proof.
  induction l as [|x l IH]; simpl; [constructor | apply insert_desc_descending, IH].
Qed.



End Sorting.

(** ** Equality of hashable values *)

Section NestedInduction.
Import Py.
Variable P : pyval -> Prop.
Hypothesis HNone : P PNone.
Hypothesis HBool : forall b, P (PBool b).
Hypothesis HInt : forall z, P (PInt z).
Hypothesis HFloat : forall q, P (PFloat q).
Hypothesis HStr : forall s, P (PStr s).
Hypothesis HList : forall l, Forall P l -> P (PList l).
Hypothesis HTuple : forall l, Forall P l -> P (PTuple l).
Hypothesis HDict : forall d, Forall (fun kv => P (snd kv)) d -> P (PDict d).


End NestedInduction.

Section PyEq.
Import Str Py Spec.










End PyEq.

(** ** The genre tally of the recommendations *)

Section Tally.
Import Str Py Env App Spec Engine Order.

















End Tally.

(** ** Recommendations *)

Section Recommendations.
Import Str Py Env App Spec Engine.

(** With no favorite and no watch record the recommendations are whatever
    [get_top_anime] returns. *)
Lemma recommendations_fallback (w : World) (s : State) (user_id limit : Z) :
  Db.get_favorites user_id (store s) = [] ->
  Db.get_watchlist user_id None (store s) = [] ->
  get_personal_recommendations user_id limit w s
  = Jikan.get_top_anime (u "all") 1 limit w s.
Proof.
  intros Hf Hw. unfold get_personal_recommendations. run. rewrite Hf, Hw. reflexivity.
Qed.

(** With a favorite or a watch record they are built from the top genres of
    the tally over the known set. *)
Lemma recommendations_personal (w : World) (s : State) (user_id limit : Z) :
  Db.get_favorites user_id (store s) <> [] \/ Db.get_watchlist user_id None (store s) <> [] ->
  get_personal_recommendations user_id limit w s
  = (genre_counter ← genre_tally (known_set w user_id (store s)) [];
     recommendations ← by_genre (known_set w user_id (store s)) limit
                         (top_genres genre_counter) [];
     recommendations ←
       (if Z.of_nat (length recommendations) <? limit then
          top_anime ← Jikan.get_top_anime (u "all") 1 (limit * 2);
          animes ← lift (iter top_anime);
          lift (append_new (known_set w user_id (store s)) limit animes recommendations)
        else mret recommendations);
     mret (PList (list_slice_to limit recommendations))) w s.
Proof.
  intros H. unfold get_personal_recommendations, known_set. run.
  destruct (Db.get_favorites user_id (store s)) as [|f fs];
    destruct (Db.get_watchlist user_id None (store s)) as [|x xs];
    try reflexivity.
  destruct H as [H | H]; contradiction.
Qed.

(** What [get_top_anime] returns is a pair, never a list. *)
Lemma get_top_anime_returns_pair (w : World) (s s' : State) (filter_type : str)
    (page limit : Z) (r : pyval) :
  Jikan.get_top_anime filter_type page limit w s = (Ok r, s') ->
  exists anime_list last_page, r = PTuple [anime_list; last_page].
Proof.
  unfold Jikan.get_top_anime, try_except. run. unfold requests_get.
  assert (Hcaught : forall (e : exn) (s1 : State),
            (if is_request_exception w e
             then (mret (PTuple [PList []; PInt 1]) : M pyval) w s1
             else (Raise e, s1)) = (Ok r, s') ->
            exists anime_list last_page, r = PTuple [anime_list; last_page]).
  { intros e s1. destruct (is_request_exception w e); [| discriminate].
    rewrite run_ret. intros [= <- _]. eauto. }
  destruct (http_get w (length (requests s)) _) as [|code body]; cbv iota.
  - apply Hcaught.
  - run. destruct (code =? 200); [| rewrite run_ret; intros [= <- _]; eauto].
    unfold json. destruct body as [data|].
    + run. destruct (get data (u "data") PNone) as [d|e]; cbv iota; [| apply Hcaught].
      run. destruct (iter (py_or d (PList []))) as [items|e]; cbv iota; [| apply Hcaught].
      run. destruct (for_each items cache_anime w _) as [[x|e] s1]; cbv iota;
        [| apply Hcaught].
      run. destruct (get data (u "pagination") (PDict [])) as [pg|e]; cbv iota;
        [| apply Hcaught].
      run. destruct (get pg (u "last_visible_page") (PInt 1)) as [lp|e]; cbv iota;
        [| apply Hcaught].
      run. intros [= <- _]. eauto.
    + unfold raise. cbv iota. apply Hcaught.
Qed.

(** C2 (the program departs from the claim).  User 1 has no favorite and no
    watch record.  The recommendations returned are the pair that
    [get_top_anime] returns, the list together with the number of the last
    page, and not the list: a loop over the result meets a list and a number,
    no anime record.  When the catalog cannot be reached the result is the
    pair of the empty list and 1, which is true where an empty list would be
    false. *)
Theorem recommendations_fallback_returns_pair :
  fst (get_personal_recommendations 1 5
         (Examples.world_of (Examples.answers (Some Examples.top_page))) Examples.fresh)
  = Ok (PTuple [PList [Examples.example_anime]; PInt 3])
  /\ iter (PTuple [PList [Examples.example_anime]; PInt 3])
     = Ok [PList [Examples.example_anime]; PInt 3]
  /\ get (PList [Examples.example_anime]) (u "title") (PStr (u "Titre inconnu"))
     = Raise AttributeError
  /\ fst (get_personal_recommendations 1 5
            (Examples.world_of Examples.unreachable) Examples.fresh)
     = Ok (PTuple [PList []; PInt 1])
  /\ truthy (PTuple [PList []; PInt 1]) = true.
Proof. repeat split; vm_compute; reflexivity. Qed.

End Recommendations.

(** ** The callback router *)

Section Router.
Import Str Py Env Tg App Spec Router.

(** *** Progress *)

(** An increment stays within the episode count when it is known. *)
Lemma next_progress_up_known (w : World) (s : State) (p e : Z) :
  e <> 0 ->
  next_progress (u "up") (Some p) (PInt e) w s = (Ok (Z.min (p + 1) e), s).
Proof.
  intros He. unfold next_progress. change (str_eqb (u "up") (u "up")) with true.
  cbv iota. run. simpl. destruct (Z.eqb_spec e 0); [contradiction | reflexivity].
Qed.

Lemma next_progress_up_known_bounds (p e : Z) :
  0 <= p -> 0 < e -> 0 <= Z.min (p + 1) e <= e /\ (p = e -> Z.min (p + 1) e = e).
Proof. lia. Qed.

(** An increment without a known episode count adds one. *)
Lemma next_progress_up_unknown (w : World) (s : State) (p : Z) (episodes : pyval) :
  truthy episodes = false ->
  next_progress (u "up") (Some p) episodes w s = (Ok (p + 1), s).
Proof.
  intros He. unfold next_progress. change (str_eqb (u "up") (u "up")) with true.
  cbv iota. run. simpl. rewrite He, Z.min_id. reflexivity.
Qed.

(** A decrement stops at zero. *)
Lemma next_progress_down (w : World) (s : State) (p : Z) (episodes : pyval) :
  next_progress (u "down") (Some p) episodes w s = (Ok (Z.max (p - 1) 0), s)
  /\ 0 <= Z.max (p - 1) 0.
Proof.
  split; [| lia]. unfold next_progress.
  change (str_eqb (u "down") (u "up")) with false.
  change (str_eqb (u "down") (u "down")) with true. reflexivity.
Qed.

(** A jump takes the number written in the identifier as it is. *)
Lemma next_progress_jump (w : World) (s : State) (action : str) (n : Z)
    (current_progress : option Z) (episodes : pyval) :
  str_eqb action (u "up") = false ->
  str_eqb action (u "down") = false ->
  to_int action = Some n ->
  next_progress action current_progress episodes w s = (Ok n, s).
Proof.
  intros Hup Hdown Hn. unfold next_progress. rewrite Hup, Hdown.
  unfold py_int. rewrite Hn. reflexivity.
Qed.

(** C3 (the program departs from the claim).  User 1 has seen eleven of the
    twelve episodes of anime 42.  A jump to -5 stores the progress -5: the
    value written in the identifier is not clamped at zero, as a decrement
    is.  An increment stores progress 12 and the status completed, and a
    further increment leaves progress 12 and status completed. *)
Theorem progress_jump_below_zero_is_stored :
  let w := Examples.world_of Examples.unreachable in
  let seen (s : State) :=
    (fun r => (Db.w_status r, Db.w_progress r)) <$> Db.get_watch_status 1 42 (store s) in
  seen Examples.eleven_seen = Some (u "watching", Some 11)
  /\ (exists s1,
        button_handler Examples.silent (u "progress_42_-5") Examples.alice w
          Examples.eleven_seen = (Ok tt, s1)
        /\ seen s1 = Some (u "watching", Some (-5)))
  /\ (exists s2 s3,
        button_handler Examples.silent (u "progress_42_up") Examples.alice w
          Examples.eleven_seen = (Ok tt, s2)
        /\ seen s2 = Some (u "completed", Some 12)
        /\ button_handler Examples.silent (u "progress_42_up") Examples.alice w s2
           = (Ok tt, s3)
        /\ seen s3 = Some (u "completed", Some 12)).
Proof.
  cbv zeta. split; [vm_compute; reflexivity |]. split.
  - eexists. split; vm_compute; reflexivity.
  - do 2 eexists. split; [vm_compute; reflexivity |].
    split; [vm_compute; reflexivity |]. split; vm_compute; reflexivity.
Qed.

(** *** Pagination *)

Lemma range_empty (a b : Z) : b <= a -> range a b = [].
Proof. intros H. unfold range. replace (Z.to_nat (b - a)) with 0%nat by lia. reflexivity. Qed.

(** A page that starts at or beyond the end of the stored results has no
    item row: the keyboard is empty or holds the navigation row alone. *)
Lemma page_beyond_results_has_no_items (w : World) (l : list pyval) (page : Z)
    (query search_type : str) :
  Z.of_nat (length l) <= page * 5 ->
  exists nav_row,
    create_search_pagination_keyboard w (PList l) page query search_type
    = Ok (if 1 <? Z.max 1 (ceil_div (Z.of_nat (length l)) 5) then [nav_row] else []).
Proof.
  intros H. eexists. unfold create_search_pagination_keyboard. cbn [len].
  rewrite res_mbind_ok. cbv zeta. rewrite range_empty by lia.
  change (mapM _ []) with (Ok (@nil (list button))). rewrite res_mbind_ok.
  destruct (1 <? Z.max 1 (ceil_div (Z.of_nat (length l)) 5)); reflexivity.
Qed.

(** With nothing stored in the session the branch of [page_] sends nothing
    and changes nothing, whether it returns or raises. *)
Lemma page_branch_without_results (w : World) (s : State) (data : str) :
  user_data s = ∅ ->
  exists r, page_branch data w s = (r, s).
Proof.
  intros Hud. unfold page_branch.
  destruct (4 <=? length (split c_underscore data))%nat; [| eexists; reflexivity].
  run. unfold py_int. destruct (to_int _) as [page|]; [| eexists; reflexivity].
  run.
  assert (Hshow : forall key q t, show_page key q t page w s = (Ok tt, s)).
  { intros key q t. unfold show_page, get_user_data. run. rewrite Hud, lookup_empty.
    reflexivity. }
  destruct (str_eqb _ (u "anime")).
  - unfold get_user_data. run. eexists. apply Hshow.
  - destruct (str_eqb _ (u "character")); eexists; [apply Hshow | reflexivity].
Qed.

(** C7 (the program departs from the claim).  A [page_] identifier pressed
    when the session holds no results is answered with the bare
    acknowledgement and nothing else: no message, no keyboard.  With six
    results stored, page index 7 is answered by replacing the keyboard with
    one that has no item, only the row "back, 8/2". *)
Theorem stale_page_gets_no_unavailable_message :
  let w := Examples.world_of Examples.unreachable in
  (exists s1,
     button_handler Examples.silent (u "page_anime_naruto_1") Examples.alice w Examples.fresh
     = (Ok tt, s1)
     /\ outbox s1 = [Answer None])
  /\ (exists s2,
        button_handler Examples.silent (u "page_character_naruto_1") Examples.alice w
          Examples.fresh = (Ok tt, s2)
        /\ outbox s2 = [Answer None])
  /\ (exists s3,
        button_handler Examples.silent (u "page_anime_naruto_7") Examples.alice w
          Examples.searched_naruto = (Ok tt, s3)
        /\ outbox s3
           = [ Answer None;
               EditReplyMarkup
                 [ [ Button (u "⬅️") (u "page_anime_naruto_6");
                     Button (u "8/2") (u "noop") ] ] ]).
Proof.
  cbv zeta. split; [| split]; eexists; split; vm_compute; reflexivity.
Qed.

(** *** Dispatch *)

(** C9, as amended.  An identifier that passes none of the tests of the
    chain takes no branch: the handler acknowledges the query, registers the
    user if the user is not registered, and returns; favorites, watch
    records, achievements, caches, session and request log are as before. *)
Theorem unknown_action_is_ignored (v : Views) (data : str) (user : from_user)
    (w : World) (s : State) :
  select data chain = None ->
  exists s',
    button_handler v data user w s = (Ok tt, s')
    /\ outbox s' = outbox s ++ [Answer None]
    /\ user_data s' = user_data s
    /\ requests s' = requests s
    /\ Db.favorites (store s') = Db.favorites (store s)
    /\ Db.watchlists (store s') = Db.watchlists (store s)
    /\ Db.achievements (store s') = Db.achievements (store s)
    /\ Db.anime_cache (store s') = Db.anime_cache (store s)
    /\ Db.character_cache (store s') = Db.character_cache (store s)
    /\ Db.users (store s')
       = match Db.users (store s) !! id user with
         | Some _ => Db.users (store s)
         | None =>
           <[ id user := Db.UserRow (username user) (first_name user) (last_name user)
                           (language_code user) (current_timestamp w (ticks s)) ]>
             (Db.users (store s))
         end.
Proof.
  intros Hsel. unfold button_handler. rewrite Hsel. run.
  unfold send at 1. cbv beta iota. run. unfold add_user. cbv beta. cbn [store].
  destruct (Db.users (store s) !! id user) as [row|] eqn:Hu.
  - eexists. split; [reflexivity |]. cbn [store outbox user_data requests].
    repeat split.
  - unfold db_insert. cbn [store ticks]. unfold Db.add_user. rewrite Hu.
    eexists. split; [reflexivity |].
    cbn [store outbox user_data requests Db.with_users Db.favorites Db.watchlists
         Db.achievements Db.anime_cache Db.character_cache Db.users].
    repeat split.
Qed.

Lemma unknown_action_is_ignored_witness :
  exists s',
    button_handler Examples.silent (u "hello_42") Examples.alice
      (Examples.world_of Examples.unreachable) Examples.eleven_seen = (Ok tt, s')
    /\ outbox s' = [Answer None]
    /\ Db.watchlists (store s') = Db.watchlists (store Examples.eleven_seen)
    /\ is_Some (Db.users (store s') !! 1).
Proof.
  destruct (unknown_action_is_ignored Examples.silent (u "hello_42") Examples.alice
              (Examples.world_of Examples.unreachable) Examples.eleven_seen)
    as (s' & Hrun & Hout & _ & _ & _ & Hw & _ & _ & _ & Hu).
  - vm_compute. reflexivity.
  - exists s'. split; [exact Hrun |]. split; [exact Hout |]. split; [exact Hw |].
    rewrite Hu. vm_compute. eexists. reflexivity.
Defined.

(** C9 as stated fails.  An identifier with a known action and a malformed
    argument makes the handler raise, and an identifier with an unknown
    action pressed by a user who is not registered adds a row to the table
    of users. *)
Lemma malformed_identifier_raises :
  let w := Examples.world_of Examples.unreachable in
  let h (data : string) := button_handler Examples.silent (u data) Examples.alice w Examples.fresh in
  fst (h "fav_abc"%string) = Raise ValueError
  /\ fst (h "watch_plan"%string) = Raise IndexError
  /\ fst (h "watch_later_42"%string) = Raise KeyError
  /\ fst (h "progress_x"%string) = Raise ValueError
  /\ fst (h "page_anime_naruto_x"%string) = Raise ValueError
  /\ select (u "hello_42") chain = None
  /\ Db.users (store Examples.fresh) !! 1 = None
  /\ is_Some (Db.users (store (snd (h "hello_42"%string))) !! 1).
Proof.
  cbv zeta. repeat split; try (vm_compute; reflexivity).
  vm_compute. eexists. reflexivity.
Qed.

End Router.
(** ** The favorites *)

Section Favorites.
Import Str Py Env Db Order Laws.

Lemma is_favorite_existsb (user_id anime_id : Z) (st : Store) :
  is_favorite user_id anime_id st = existsb (fav_key_is user_id anime_id) (favorites st).
Proof.
  unfold is_favorite. induction (favorites st) as [|r l IH]; [reflexivity |].
  simpl. destruct (fav_key_is user_id anime_id r); simpl; [| exact IH].
  apply Z.ltb_lt. lia.
Qed.

Lemma fav_key_is_eq (user_id anime_id : Z) (r : favorite_row) :
  fav_key_is user_id anime_id r = true <-> (f_user_id r, f_anime_id r) = (user_id, anime_id).
Proof.
  unfold fav_key_is. rewrite andb_true_iff, !Z.eqb_eq. split.
  - intros [-> ->]. reflexivity.
  - intros [= -> ->]. split; reflexivity.
Qed.

Lemma fav_key_is_row (user_id anime_id user_id' anime_id' now : Z) :
  fav_key_is user_id' anime_id' (FavoriteRow user_id anime_id now)
  = (user_id' =? user_id) && (anime_id' =? anime_id).
Proof.
  unfold fav_key_is. cbn [f_user_id f_anime_id].
  rewrite (Z.eqb_sym user_id user_id'), (Z.eqb_sym anime_id anime_id'). reflexivity.
Qed.

Lemma existsb_filter_excluded {A} (p : A -> bool) (l : list A) :
  existsb p (List.filter (fun x => negb (p x)) l) = false.
Proof.
  induction l as [|x l IH]; [reflexivity |]. simpl.
  destruct (p x) eqn:Hp; simpl; [exact IH | rewrite Hp; exact IH].
Qed.

Lemma existsb_filter_other {A} (p q : A -> bool) (l : list A) :
  (forall x, p x = true -> q x = true) ->
  existsb p (List.filter q l) = existsb p l.
Proof.
  intros Hpq. induction l as [|x l IH]; [reflexivity |]. simpl.
  destruct (q x) eqn:Hq; simpl.
  - rewrite IH. reflexivity.
  - destruct (p x) eqn:Hp; [| exact IH]. apply Hpq in Hp. congruence.
Qed.

Lemma fav_keys_differ (user_id anime_id user_id' anime_id' : Z) (r : favorite_row) :
  (user_id' =? user_id) && (anime_id' =? anime_id) = false ->
  fav_key_is user_id' anime_id' r = true ->
  negb (fav_key_is user_id anime_id r) = true.
Proof.
  intros Hne Hr. apply negb_true_iff.
  destruct (fav_key_is user_id anime_id r) eqn:E; [| reflexivity].
  apply fav_key_is_eq in Hr, E. rewrite E in Hr. injection Hr as -> ->.
  rewrite !Z.eqb_refl in Hne. discriminate.
Qed.

(** X1.  The favorites behave as a set of pairs of a user and an anime:
    after [add_to_favorites] the pair added is a favorite, after
    [remove_from_favorites] the pair removed is not, and whether any other
    pair is a favorite is as it was. *)
Theorem favorite_after_add_and_remove (now user_id anime_id user_id' anime_id' : Z)
    (st : Store) :
  is_favorite user_id' anime_id' (add_to_favorites now user_id anime_id st)
  = ((user_id' =? user_id) && (anime_id' =? anime_id)) || is_favorite user_id' anime_id' st
  /\ is_favorite user_id' anime_id' (remove_from_favorites user_id anime_id st)
     = negb ((user_id' =? user_id) && (anime_id' =? anime_id))
       && is_favorite user_id' anime_id' st.
Proof.
  rewrite !is_favorite_existsb. unfold add_to_favorites, remove_from_favorites.
  cbn [favorites with_favorites]. rewrite existsb_app. cbn [existsb].
  rewrite fav_key_is_row, orb_false_r.
  destruct ((user_id' =? user_id) && (anime_id' =? anime_id)) eqn:Hk.
  - apply andb_true_iff in Hk as [Hu Ha]. apply Z.eqb_eq in Hu, Ha. subst.
    rewrite existsb_filter_excluded. split; reflexivity.
  - rewrite existsb_filter_other by (intros r; apply fav_keys_differ; exact Hk).
    rewrite orb_false_r. split; reflexivity.
Qed.

Lemma In_get_favorites (user_id anime_id : Z) (st : Store) :
  In anime_id (get_favorites user_id st)
  <-> exists r, In r (favorites st) /\ f_user_id r = user_id /\ f_anime_id r = anime_id.
Proof.
  unfold get_favorites. rewrite in_map_iff. split.
  - intros (r & Ha & Hr).
    apply (Permutation_in _ (sort_desc_perm f_added_at _)) in Hr.
    apply filter_In in Hr as [Hr Hu]. apply Z.eqb_eq in Hu. eauto.
  - intros (r & Hr & Hu & Ha). exists r. split; [exact Ha |].
    apply (Permutation_in _ (Permutation_sym (sort_desc_perm f_added_at _))).
    apply filter_In. split; [exact Hr | apply Z.eqb_eq, Hu].
Qed.

(** X2.  [get_favorites] and [is_favorite] agree: an anime is in the list
    returned for a user exactly when it is a favorite of the user. *)
Theorem get_favorites_lists_the_favorites (user_id anime_id : Z) (st : Store) :
  In anime_id (get_favorites user_id st) <-> is_favorite user_id anime_id st = true.
Proof.
  rewrite In_get_favorites, is_favorite_existsb, existsb_exists. split.
  - intros (r & Hr & Hu & Ha). exists r. split; [exact Hr |].
    apply fav_key_is_eq. congruence.
  - intros (r & Hr & Hk). apply fav_key_is_eq in Hk. injection Hk as Hu Ha. eauto.
Qed.

Lemma NoDup_filter_keys {A K} (key : A -> K) (p : A -> bool) (l : list A) :
  NoDup (map key l) -> NoDup (map key (List.filter p l)).
Proof.
  induction l as [|x l IH]; simpl; [intros; constructor |].
  intros H. apply NoDup_cons in H as [Hx Hl].
  destruct (p x); simpl; [| apply IH, Hl].
  apply NoDup_cons. split; [| apply IH, Hl].
  intros Hin. apply Hx. apply list_elem_of_In. apply list_elem_of_In in Hin.
  apply in_map_iff in Hin as (y & Hy & Hin). apply in_map_iff. exists y.
  apply filter_In in Hin. tauto.
Qed.

(** X3.  The primary key of [favorites] is kept: when no two rows have the
    same user and anime, none have after an add or a remove, and the list
    [get_favorites] returns names no anime twice. *)
Theorem favorites_never_listed_twice (now user_id anime_id user_id' : Z) (st : Store) :
  fav_keys_unique st ->
  fav_keys_unique (add_to_favorites now user_id anime_id st)
  /\ fav_keys_unique (remove_from_favorites user_id anime_id st)
  /\ NoDup (get_favorites user_id' st).
Proof.
  unfold fav_keys_unique. intros H. split; [| split].
  - unfold add_to_favorites. cbn [favorites with_favorites].
    rewrite map_app. cbn [map f_user_id f_anime_id].
    apply NoDup_app. split; [apply NoDup_filter_keys, H |]. split.
    + intros k Hk Hin. apply list_elem_of_In in Hk, Hin.
      destruct Hin as [<- | []].
      apply in_map_iff in Hk as (r & Hr & Hin). apply filter_In in Hin as [_ Hn].
      apply negb_true_iff in Hn.
      assert (fav_key_is user_id anime_id r = true) by (apply fav_key_is_eq; exact Hr).
      congruence.
    + apply NoDup_singleton.
  - unfold remove_from_favorites. cbn [favorites with_favorites].
    apply NoDup_filter_keys, H.
  - unfold get_favorites.
    assert (Hperm : map f_anime_id
                      (sort_desc f_added_at
                         (List.filter (fun r => f_user_id r =? user_id') (favorites st)))
                    ≡ₚ map f_anime_id
                         (List.filter (fun r => f_user_id r =? user_id') (favorites st))).
    { apply Permutation_map, sort_desc_perm. }
    rewrite Hperm. clear Hperm.
    induction (favorites st) as [|r l IH]; simpl; [constructor |].
    simpl in H. apply NoDup_cons in H as [Hr Hl].
    destruct (Z.eqb_spec (f_user_id r) user_id') as [Hu|]; simpl; [| apply IH, Hl].
    apply NoDup_cons. split; [| apply IH, Hl].
    intros Hin. apply Hr. apply list_elem_of_In. apply list_elem_of_In in Hin.
    apply in_map_iff in Hin as (y & Hy & Hin). apply filter_In in Hin as [Hin Hyu].
    apply Z.eqb_eq in Hyu. apply in_map_iff. exists y. split; [congruence | exact Hin].
Qed.

Lemma favorites_never_listed_twice_witness :
  fav_keys_unique (add_to_favorites 1600000002 1 7 Samples.two_added)
  /\ fav_keys_unique (remove_from_favorites 1 7 Samples.two_added)
  /\ NoDup (get_favorites 1 Samples.two_added).
Proof.
  apply (favorites_never_listed_twice 1600000002 1 7 1 Samples.two_added).
  unfold fav_keys_unique. vm_compute.
  apply NoDup_cons. split; [| apply NoDup_singleton].
  intros H. apply list_elem_of_In in H. destruct H as [H | []]. discriminate.
Defined.

Lemma sort_desc_newest {A} (key : A -> Z) (x : A) (l : list A) :
  Forall (fun y => key y < key x) l ->
  sort_desc key (l ++ [x]) = x :: sort_desc key l.
Proof.
  induction 1 as [|y l Hy Hl IH]; [reflexivity |].
  simpl. rewrite IH. simpl.
  destruct (Z.gtb_spec (key x) (key y)); [reflexivity | lia].
Qed.

(** X4.  A favorite added with a timestamp later than every stored one is
    listed first, before the user's other favorites in their previous
    order; adding an anime that is a favorite already moves it to the
    front. *)
Theorem new_favorite_is_listed_first (now user_id anime_id : Z) (st : Store) :
  Forall (fun r => f_added_at r < now) (favorites st) ->
  get_favorites user_id (add_to_favorites now user_id anime_id st)
  = anime_id :: get_favorites user_id (remove_from_favorites user_id anime_id st).
Proof.
  intros Hnow. unfold get_favorites, add_to_favorites, remove_from_favorites.
  cbn [favorites with_favorites].
  rewrite List.filter_app. cbn [List.filter f_user_id]. rewrite Z.eqb_refl.
  rewrite (sort_desc_newest f_added_at).
  - reflexivity.
  - cbn [f_added_at]. apply Forall_forall. intros r Hr.
    apply list_elem_of_In, filter_In in Hr as [Hr _]. apply filter_In in Hr as [Hr _].
    rewrite Forall_forall in Hnow. apply Hnow, list_elem_of_In, Hr.
Qed.

Lemma new_favorite_is_listed_first_witness :
  get_favorites 1 Samples.two_added = [9; 7]
  /\ get_favorites 1 (add_to_favorites 1600000002 1 7 Samples.two_added) = [7; 9].
Proof.
  split; [vm_compute; reflexivity |].
  rewrite (new_favorite_is_listed_first 1600000002 1 7 Samples.two_added).
  - vm_compute. reflexivity.
  - unfold Samples.two_added. repeat constructor.
Defined.

End Favorites.

(** ** The watch records: constraints and queries *)

Section WatchConstraints.
Import Str Py Env Db Order App Laws Spec.

Lemma watch_checks_valid (r : watch_row) :
  watch_checks r = true <-> valid_status (w_status r) /\ valid_score (w_score r).
Proof.
  unfold watch_checks, valid_status, valid_score.
  rewrite andb_true_iff, !orb_true_iff, !str_eqb_eq. cbn [In].
  assert (Hs : match w_score r with
               | Some sc => (0 <=? sc) && (sc <=? 10)
               | None => true
               end = true
               <-> match w_score r with Some sc => 0 <= sc <= 10 | None => True end).
  { destruct (w_score r) as [sc|]; [| tauto].
    rewrite andb_true_iff, !Z.leb_le. tauto. }
  rewrite Hs. intuition congruence.
Qed.

(** The row that [update_watchlist] inserts. *)
Lemma update_watchlist_row (now user_id anime_id : Z) (status : str)
    (score progress : option Z) (st : Store) :
  Db.update_watchlist now user_id anime_id status score progress st
  = insert_or_replace_watch
      {| w_user_id := user_id; w_anime_id := anime_id; w_status := status;
         w_score := score; w_progress := Some (default 0 progress);
         w_added_at := now; w_updated_at := now |} st.
Proof. destruct score, progress; reflexivity. Qed.


Lemma watch_key_is_eq (user_id anime_id : Z) (r : watch_row) :
  watch_key_is user_id anime_id r = true <-> (w_user_id r, w_anime_id r) = (user_id, anime_id).
Proof.
  unfold watch_key_is. rewrite andb_true_iff, !Z.eqb_eq. split.
  - intros [-> ->]. reflexivity.
  - intros [= -> ->]. split; reflexivity.
Qed.

(** X6.  Two invariants of the table of watch records hold after every
    [update_watchlist] that returns: every row passes the CHECK constraints,
    and no two rows have the same user and anime.  Hence every record that
    [get_watchlist] returns has one of the four statuses. *)
Theorem update_watchlist_keeps_the_table_sound (now user_id anime_id : Z) (status : str)
    (score progress : option Z) (st st' : Store) :
  watch_rows_checked st ->
  watch_keys_unique st ->
  Db.update_watchlist now user_id anime_id status score progress st = Ok st' ->
  watch_rows_checked st'
  /\ watch_keys_unique st'
  /\ forall user_id' filter r,
       In r (get_watchlist user_id' filter st') -> valid_status (w_status r).
Proof.
  intros Hc Hk. rewrite update_watchlist_row. unfold insert_or_replace_watch.
  destruct (watch_checks _) eqn:Hr; [| discriminate]. intros [= <-].
  assert (Hc' : watch_rows_checked
                  (with_watchlists
                     (fun rows =>
                        List.filter (fun x => negb (watch_key_is user_id anime_id x)) rows
                        ++ [ {| w_user_id := user_id; w_anime_id := anime_id;
                                w_status := status; w_score := score;
                                w_progress := Some (default 0 progress);
                                w_added_at := now; w_updated_at := now |} ]) st)).
  { unfold watch_rows_checked in *. cbn [watchlists with_watchlists].
    apply Forall_app. split; [| repeat constructor; exact Hr].
    apply Forall_forall. intros x Hx. apply list_elem_of_In, filter_In in Hx as [Hx _].
    rewrite Forall_forall in Hc. apply Hc, list_elem_of_In, Hx. }
  cbn [w_user_id w_anime_id]. split; [exact Hc' |]. split.
  - unfold watch_keys_unique in *. cbn [watchlists with_watchlists].
    rewrite map_app. cbn [map w_user_id w_anime_id].
    apply NoDup_app. split; [apply NoDup_filter_keys, Hk |]. split; [| apply NoDup_singleton].
    intros k Hin Hk'. apply list_elem_of_In in Hin, Hk'. destruct Hk' as [<- | []].
    apply in_map_iff in Hin as (x & Hx & Hin). apply filter_In in Hin as [_ Hn].
    apply negb_true_iff in Hn.
    assert (watch_key_is user_id anime_id x = true) by (apply watch_key_is_eq; exact Hx).
    congruence.
  - intros user_id' filter r Hin.
    assert (Hrow : In r (watchlists
                           (with_watchlists
                              (fun rows =>
                                 List.filter (fun x => negb (watch_key_is user_id anime_id x)) rows
                                 ++ [ {| w_user_id := user_id; w_anime_id := anime_id;
                                         w_status := status; w_score := score;
                                         w_progress := Some (default 0 progress);
                                         w_added_at := now; w_updated_at := now |} ]) st))).
    { unfold get_watchlist in Hin.
      destruct filter as [[|c f]|];
        apply (Permutation_in _ (sort_desc_perm w_updated_at _)) in Hin;
        apply filter_In in Hin; tauto. }
    unfold watch_rows_checked in Hc'. rewrite Forall_forall in Hc'.
    apply list_elem_of_In, Hc' in Hrow. apply watch_checks_valid in Hrow. tauto.
Qed.

Lemma update_watchlist_keeps_the_table_sound_witness :
  exists st',
    Db.update_watchlist 1600000100 1 42 s_completed (Some 9) None (store Samples.watching_42) = Ok st'
    /\ watch_rows_checked st'
    /\ watch_keys_unique st'
    /\ forall user_id' filter r,
         In r (get_watchlist user_id' filter st') -> valid_status (w_status r).
Proof.
  eexists. split; [vm_compute; reflexivity |].
  apply (update_watchlist_keeps_the_table_sound 1600000100 1 42 s_completed (Some 9) None
           (store Samples.watching_42)).
  - repeat constructor.
  - unfold watch_keys_unique. cbn. apply NoDup_singleton.
  - vm_compute. reflexivity.
Defined.

(** X7.  What [get_watchlist] returns: with a status, exactly the rows of
    the user that have this status; the empty string is no status, it
    selects every row of the user, as [None] does; in both cases the rows
    come most recently updated first. *)
Theorem get_watchlist_selects_by_status (user_id : Z) (c : char) (status : str)
    (filter : option str) (r : watch_row) (st : Store) :
  (In r (get_watchlist user_id (Some (c :: status)) st)
   <-> In r (watchlists st) /\ w_user_id r = user_id /\ w_status r = c :: status)
  /\ (In r (get_watchlist user_id None st) <-> In r (watchlists st) /\ w_user_id r = user_id)
  /\ get_watchlist user_id (Some []) st = get_watchlist user_id None st
  /\ descending w_updated_at (get_watchlist user_id filter st).
Proof.
  unfold get_watchlist. split; [| split; [| split]].
  - split.
    + intros H. apply (Permutation_in _ (sort_desc_perm w_updated_at _)) in H.
      apply filter_In in H as [H Hr]. apply andb_true_iff in Hr as [Hu Hs].
      apply Z.eqb_eq in Hu. apply str_eqb_eq in Hs. tauto.
    + intros (H & Hu & Hs).
      apply (Permutation_in _ (Permutation_sym (sort_desc_perm w_updated_at _))).
      apply filter_In. split; [exact H |].
      apply andb_true_iff. split; [apply Z.eqb_eq, Hu | apply str_eqb_eq, Hs].
  - split.
    + intros H. apply (Permutation_in _ (sort_desc_perm w_updated_at _)) in H.
      apply filter_In in H as [H Hu]. apply Z.eqb_eq in Hu. tauto.
    + intros (H & Hu).
      apply (Permutation_in _ (Permutation_sym (sort_desc_perm w_updated_at _))).
      apply filter_In. split; [exact H | apply Z.eqb_eq, Hu].
  - reflexivity.
  - destruct filter as [[|c' f]|]; apply sort_desc_descending.
Qed.

End WatchConstraints.

(** ** The custom lists *)

Section CustomLists.
Import Str Py Order Lists.

Lemma foldr_max_ge (k : Z) (ks : list Z) :
  k <= foldr Z.max k ks /\ Forall (fun x => x <= foldr Z.max k ks) ks.
Proof.
  induction ks as [|x ks [IHk IHks]]; simpl; [split; [lia | constructor] |].
  split; [lia |]. constructor; [lia |].
  eapply Forall_impl; [exact IHks |]. simpl. intros y Hy. lia.
Qed.

Lemma next_list_id_above (tb : Tables) (list_id : Z) :
  next_list_id tb = Ok list_id ->
  Forall (fun r => cl_list_id r < list_id) (custom_lists tb) /\ sequence tb < list_id.
Proof.
  unfold next_list_id. destruct (_ || _); [discriminate |]. intros [= <-].
  split; [| lia].
  destruct (custom_lists tb) as [|r rows]; [constructor |].
  cbn [map]. destruct (foldr_max_ge (cl_list_id r) (map cl_list_id rows)) as [Hr Hrows].
  constructor; [lia |].
  apply Forall_forall. intros x Hx. rewrite Forall_forall in Hrows.
  assert (cl_list_id x <= foldr Z.max (cl_list_id r) (map cl_list_id rows)).
  { apply Hrows. apply list_elem_of_In, in_map, list_elem_of_In, Hx. }
  lia.
Qed.

Lemma In_get_custom_lists (user_id list_id : Z) (name : str) (tb : Tables) :
  In (list_id, name) (get_custom_lists user_id tb)
  <-> exists r, In r (custom_lists tb) /\ cl_user_id r = user_id
                /\ cl_list_id r = list_id /\ cl_list_name r = name.
Proof.
  unfold get_custom_lists. rewrite in_map_iff. split.
  - intros (r & [= Hid Hname] & Hr).
    apply (Permutation_in _ (sort_desc_perm cl_created_at _)) in Hr.
    apply filter_In in Hr as [Hr Hu]. apply Z.eqb_eq in Hu. eauto 6.
  - intros (r & Hr & Hu & Hid & Hname). exists r. split; [congruence |].
    apply (Permutation_in _ (Permutation_sym (sort_desc_perm cl_created_at _))).
    apply filter_In. split; [exact Hr | apply Z.eqb_eq, Hu].
Qed.

Lemma create_custom_list_row (now user_id : Z) (list_name : str) (tb tb' : Tables)
    (list_id : Z) :
  create_custom_list now user_id list_name tb = Ok (list_id, tb') ->
  next_list_id tb = Ok list_id
  /\ tb' = {| custom_lists := custom_lists tb ++ [ListRow list_id user_id list_name now];
              custom_list_items := custom_list_items tb;
              sequence := list_id |}.
Proof.
  unfold create_custom_list.
  destruct (next_list_id tb) as [k|e]; [| discriminate].
  rewrite res_mbind_ok. intros [= <- <-]. split; reflexivity.
Qed.

(** X8.  [create_custom_list] returns an id larger than the id of every
    list in the table and than every id given before, so the id of a list
    is never given again; the new list is among the lists of its user under
    this id and name, the other lists are as they were, and no item is
    touched. *)
Theorem create_custom_list_gives_a_fresh_id (now user_id : Z) (list_name : str)
    (tb tb' : Tables) (list_id : Z) :
  create_custom_list now user_id list_name tb = Ok (list_id, tb') ->
  Forall (fun r => cl_list_id r < list_id) (custom_lists tb)
  /\ (forall user_id' k name,
        In (k, name) (get_custom_lists user_id' tb')
        <-> In (k, name) (get_custom_lists user_id' tb)
            \/ (user_id' = user_id /\ k = list_id /\ name = list_name))
  /\ custom_list_items tb' = custom_list_items tb
  /\ (forall now' user_id' name' tb'' list_id',
        create_custom_list now' user_id' name' tb' = Ok (list_id', tb'') ->
        list_id < list_id').
Proof.
  intros H. apply create_custom_list_row in H as [Hnext ->].
  destruct (next_list_id_above tb list_id Hnext) as [Habove Hseq].
  split; [exact Habove |]. split; [| split; [reflexivity |]].
  - intros user_id' k' name. rewrite !In_get_custom_lists. cbn [custom_lists]. split.
    + intros (r & Hr & Hu & Hid & Hname). apply in_app_or in Hr as [Hr | [<- | []]].
      * left. eauto 6.
      * right. cbn in Hu, Hid, Hname. auto.
    + intros [(r & Hr & Hu & Hid & Hname) | (-> & -> & ->)].
      * exists r. split; [apply in_or_app; left; exact Hr | auto].
      * eexists. split; [apply in_or_app; right; left; reflexivity |]. auto.
  - intros now' user_id' name' tb'' list_id' H.
    apply create_custom_list_row in H as [Hnext' _].
    apply next_list_id_above in Hnext' as [_ Hseq']. exact Hseq'.
Qed.

Lemma create_custom_list_gives_a_fresh_id_witness :
  exists tb',
    create_custom_list 1600000002 1 (u "Vus") Samples.one_list = Ok (2, tb')
    /\ Forall (fun r => cl_list_id r < 2) (custom_lists Samples.one_list)
    /\ get_custom_lists 1 tb' = [ (2, u "Vus"); (1, u "A voir") ]
    /\ custom_list_items tb' = custom_list_items Samples.one_list.
Proof.
  eexists. split; [vm_compute; reflexivity |].
  destruct (create_custom_list_gives_a_fresh_id 1600000002 1 (u "Vus") Samples.one_list
              _ 2 eq_refl) as (Hfresh & _ & Hitems & _).
  split; [exact Hfresh |]. split; [vm_compute; reflexivity | exact Hitems].
Defined.

Lemma In_get_custom_list_items (list_id anime_id : Z) (tb : Tables) :
  In anime_id (get_custom_list_items list_id tb)
  <-> existsb (item_key_is list_id anime_id) (custom_list_items tb) = true.
Proof.
  unfold get_custom_list_items. rewrite in_map_iff, existsb_exists. split.
  - intros (r & Ha & Hr).
    apply (Permutation_in _ (sort_desc_perm ci_added_at _)) in Hr.
    apply filter_In in Hr as [Hr Hl]. exists r. split; [exact Hr |].
    unfold item_key_is. rewrite Hl, Ha, Z.eqb_refl. reflexivity.
  - intros (r & Hr & Hk). unfold item_key_is in Hk.
    apply andb_true_iff in Hk as [Hl Ha]. exists r. split; [apply Z.eqb_eq, Ha |].
    apply (Permutation_in _ (Permutation_sym (sort_desc_perm ci_added_at _))).
    apply filter_In. split; [exact Hr | exact Hl].
Qed.

Lemma item_key_is_row (list_id anime_id list_id' anime_id' now : Z) :
  item_key_is list_id' anime_id' (ItemRow list_id anime_id now)
  = (list_id' =? list_id) && (anime_id' =? anime_id).
Proof.
  unfold item_key_is. cbn [ci_list_id ci_anime_id].
  rewrite (Z.eqb_sym list_id list_id'), (Z.eqb_sym anime_id anime_id'). reflexivity.
Qed.

Lemma item_keys_differ (list_id anime_id list_id' anime_id' : Z) (r : item_row) :
  (list_id' =? list_id) && (anime_id' =? anime_id) = false ->
  item_key_is list_id' anime_id' r = true ->
  negb (item_key_is list_id anime_id r) = true.
Proof.
  intros Hne Hr. apply negb_true_iff.
  destruct (item_key_is list_id anime_id r) eqn:E; [| reflexivity].
  unfold item_key_is in Hr, E.
  apply andb_true_iff in Hr as [Hl Ha]. apply andb_true_iff in E as [Hl' Ha'].
  apply Z.eqb_eq in Hl, Ha, Hl', Ha'.
  assert (list_id' = list_id) as -> by congruence.
  assert (anime_id' = anime_id) as -> by congruence.
  rewrite !Z.eqb_refl in Hne. discriminate.
Qed.

(** X9.  [add_to_custom_list] is an insert-if-absent: adding an anime to a
    list a second time changes nothing, whatever the time of the second
    call; after an add the items of the list are those it had and the anime
    added, and the items of every other list are as they were.  The list
    need not exist. *)
Theorem add_to_custom_list_is_idempotent (now now' list_id anime_id list_id' anime_id' : Z)
    (tb : Tables) :
  add_to_custom_list now' list_id anime_id (add_to_custom_list now list_id anime_id tb)
  = add_to_custom_list now list_id anime_id tb
  /\ (In anime_id' (get_custom_list_items list_id' (add_to_custom_list now list_id anime_id tb))
      <-> (list_id' = list_id /\ anime_id' = anime_id)
          \/ In anime_id' (get_custom_list_items list_id' tb)).
Proof.
  split.
  - unfold add_to_custom_list at 2 3.
    destruct (existsb (item_key_is list_id anime_id) (custom_list_items tb)) eqn:E.
    + unfold add_to_custom_list. rewrite E. reflexivity.
    + unfold add_to_custom_list. cbn [custom_list_items].
      rewrite existsb_app. cbn [existsb]. rewrite item_key_is_row, !Z.eqb_refl.
      rewrite orb_true_r. reflexivity.
  - rewrite !In_get_custom_list_items. unfold add_to_custom_list.
    destruct (existsb (item_key_is list_id anime_id) (custom_list_items tb)) eqn:E.
    + split; [tauto |]. intros [[-> ->] | H]; [exact E | exact H].
    + cbn [custom_list_items]. rewrite existsb_app. cbn [existsb].
      rewrite item_key_is_row, orb_false_r, orb_true_iff, andb_true_iff, !Z.eqb_eq. tauto.
Qed.

(** X10.  After [remove_from_custom_list] the anime removed is not on the
    list, every other item of every list is where it was, and the lists
    themselves are untouched. *)
Theorem remove_from_custom_list_removes_one_item (list_id anime_id list_id' anime_id' : Z)
    (tb : Tables) :
  (In anime_id' (get_custom_list_items list_id' (remove_from_custom_list list_id anime_id tb))
   <-> ~ (list_id' = list_id /\ anime_id' = anime_id)
       /\ In anime_id' (get_custom_list_items list_id' tb))
  /\ custom_lists (remove_from_custom_list list_id anime_id tb) = custom_lists tb.
Proof.
  split; [| reflexivity].
  rewrite !In_get_custom_list_items. unfold remove_from_custom_list. cbn [custom_list_items].
  destruct ((list_id' =? list_id) && (anime_id' =? anime_id)) eqn:Hk.
  - apply andb_true_iff in Hk as [Hl Ha]. apply Z.eqb_eq in Hl, Ha. subst.
    rewrite existsb_filter_excluded. split; [discriminate | tauto].
  - rewrite existsb_filter_other by (intros r; apply item_keys_differ; exact Hk).
    apply andb_false_iff in Hk. rewrite !Z.eqb_neq in Hk. tauto.
Qed.

End CustomLists.

(** ** Escaping and truncation *)

Section MarkupText.
Import Str Py Env Markup Laws.

Lemma html_escape_app (a b : str) : html_escape (a ++ b) = html_escape a ++ html_escape b.
Proof. unfold html_escape, replace_char. rewrite !flat_map_app. reflexivity. Qed.

Lemma html_escape_by_character (s : str) :
  html_escape s = flat_map (fun c => html_escape [c]) s.
Proof.
  induction s as [|c s IH]; [reflexivity |].
  change (c :: s) with ([c] ++ s) at 1. rewrite html_escape_app, IH. reflexivity.
Qed.

Lemma html_escape_one (c : char) : html_escape [c] = entity c.
Proof.
  unfold entity.
  destruct (N.eqb_spec c c_amp) as [->|Hamp]; [vm_compute; reflexivity |].
  destruct (N.eqb_spec c c_lt) as [->|Hlt]; [vm_compute; reflexivity |].
  destruct (N.eqb_spec c c_gt) as [->|Hgt]; [vm_compute; reflexivity |].
  destruct (N.eqb_spec c c_quot) as [->|Hquot]; [vm_compute; reflexivity |].
  destruct (N.eqb_spec c c_apos) as [->|Hapos]; [vm_compute; reflexivity |].
  apply N.eqb_neq in Hamp, Hlt, Hgt, Hquot, Hapos.
  unfold html_escape, replace_char. cbn [flat_map app].
  rewrite Hamp. cbn [flat_map app]. rewrite Hlt. cbn [flat_map app].
  rewrite Hgt. cbn [flat_map app]. rewrite Hquot. cbn [flat_map app].
  rewrite Hapos. reflexivity.
Qed.

Lemma entity_no_markup (c : char) : Forall no_markup (entity c).
Proof.
  unfold entity, no_markup.
  destruct (N.eqb_spec c c_amp); [repeat constructor; discriminate |].
  destruct (N.eqb_spec c c_lt); [repeat constructor; discriminate |].
  destruct (N.eqb_spec c c_gt); [repeat constructor; discriminate |].
  destruct (N.eqb_spec c c_quot); [repeat constructor; discriminate |].
  destruct (N.eqb_spec c c_apos); [repeat constructor; discriminate |].
  repeat constructor; assumption.
Qed.

(** X11.  [escape_html] of a string replaces each character by its entity,
    all at once: an ampersand written for a bracket or a quote is not
    escaped again.  The result holds no angle bracket and no quote, and a
    string without ampersand, bracket or quote is returned as it is.
    [None] gives the empty string; any other value raises. *)
Theorem escape_html_writes_entities (s : str) :
  escape_html (PStr s) = Ok (flat_map entity s)
  /\ Forall no_markup (flat_map entity s)
  /\ (Forall (fun c => no_markup c /\ c <> c_amp) s -> flat_map entity s = s)
  /\ escape_html PNone = Ok []
  /\ forall z, escape_html (PInt z) = Raise AttributeError.
Proof.
  split; [| split; [| split; [| split; reflexivity]]].
  - unfold escape_html. rewrite html_escape_by_character. f_equal.
    apply flat_map_ext. exact html_escape_one.
  - induction s as [|c s IH]; [constructor |].
    cbn [flat_map]. apply Forall_app. split; [apply entity_no_markup | exact IH].
  - induction 1 as [|c s [(Hlt & Hgt & Hquot & Hapos) Hamp] Hs IH]; [reflexivity |].
    cbn [flat_map]. rewrite IH. unfold entity.
    apply N.eqb_neq in Hamp, Hlt, Hgt, Hquot, Hapos.
    rewrite Hamp, Hlt, Hgt, Hquot, Hapos. reflexivity.
Qed.

Lemma list_slice_to_length {A} (n : Z) (l : list A) :
  0 <= n -> Z.of_nat (length (Engine.list_slice_to n l)) = Z.min n (Z.of_nat (length l)).
Proof.
  intros Hn. unfold Engine.list_slice_to.
  destruct (Z.leb_spec 0 n); [| lia]. rewrite length_firstn. lia.
Qed.

Lemma length_dots : length (u "...") = 3%nat.
Proof. reflexivity. Qed.

(** X12.  [truncate(s, limit)] with a limit of at least 3 returns a string
    of at most [limit] characters: [s] itself when it fits, and otherwise
    the first [limit - 3] characters of [s] followed by three dots, which
    are [limit] characters exactly. *)
Theorem truncate_fits_the_limit (s : str) (limit : Z) :
  3 <= limit ->
  Z.of_nat (length (truncate s limit)) = Z.min (Z.of_nat (length s)) limit
  /\ (Z.of_nat (length s) <= limit -> truncate s limit = s)
  /\ (limit < Z.of_nat (length s) ->
      truncate s limit = firstn (Z.to_nat (limit - 3)) s ++ u "...").
Proof.
  intros Hlimit. unfold truncate.
  destruct (Z.gtb_spec (Z.of_nat (length s)) limit) as [Hlong | Hfits].
  - split; [| split; [lia |]].
    + rewrite length_app, length_dots, Nat2Z.inj_add, list_slice_to_length by lia. lia.
    + intros _. unfold Engine.list_slice_to.
      destruct (Z.leb_spec 0 (limit - 3)); [reflexivity | lia].
  - split; [lia |]. split; [reflexivity | lia].
Qed.

Lemma truncate_fits_the_limit_witness :
  truncate (u "Fullmetal Alchemist: Brotherhood") 12 = u "Fullmetal..."
  /\ Z.of_nat (length (truncate (u "Fullmetal Alchemist: Brotherhood") 12)) = 12
  /\ truncate (u "Naruto") 12 = u "Naruto".
Proof.
  destruct (truncate_fits_the_limit (u "Fullmetal Alchemist: Brotherhood") 12)
    as (Hlen & _ & Hcut); [lia |].
  destruct (truncate_fits_the_limit (u "Naruto") 12) as (_ & Hsame & _); [lia |].
  split; [rewrite Hcut by (vm_compute; reflexivity); vm_compute; reflexivity |].
  split; [rewrite Hlen; vm_compute; reflexivity |].
  apply Hsame. vm_compute. discriminate.
Defined.

End MarkupText.

(** ** Slugs of slugs *)

Section SlugAgain.
Import Str Env Text Spec.

Lemma slug_char_not_space (c : char) : slug_char c = true -> is_space c = false.
Proof.
  unfold slug_char, is_lower_az, is_digit, is_hyphen, c_hyphen, is_space.
  rewrite !orb_true_iff, !andb_true_iff, !N.leb_le, N.eqb_eq.
  rewrite !orb_false_iff, !andb_false_iff, !N.leb_gt, !N.eqb_neq. lia.
Qed.

Lemma sub_runs_from_nothing cls rep (in_run : bool) (s : str) :
  Forall (fun c => cls c = false) s -> sub_runs_from cls rep in_run s = s.
Proof.
  intros H. revert in_run. induction H as [|c s Hc Hs IH]; intros in_run; [reflexivity |].
  simpl. rewrite Hc, IH. reflexivity.
Qed.

Lemma is_hyphen_eq (c : char) : is_hyphen c = true -> c = c_hyphen.
Proof. unfold is_hyphen. apply N.eqb_eq. Qed.

Lemma sub_runs_from_single_hyphens (in_run : bool) (s : str) :
  no_double_hyphen s ->
  (in_run = true -> forall c r, s = c :: r -> is_hyphen c = false) ->
  sub_runs_from is_hyphen [c_hyphen] in_run s = s.
Proof.
  revert in_run. induction s as [|c s IH]; intros in_run Hnd Hhead; [reflexivity |].
  cbn [sub_runs_from]. destruct (is_hyphen c) eqn:Hc.
  - destruct in_run; [rewrite (Hhead eq_refl c s eq_refl) in Hc; discriminate |].
    cbn [app]. rewrite (is_hyphen_eq c Hc). f_equal. apply IH.
    + destruct s; [exact I | apply Hnd].
    + intros _ d r ->. destruct Hnd as [Hnd _].
      destruct (is_hyphen d) eqn:Hd; [| reflexivity]. exfalso. apply Hnd. tauto.
  - f_equal. apply IH; [| discriminate]. destruct s; [exact I | apply Hnd].
Qed.

Lemma lstrip_by_nothing p (s : str) :
  (forall c r, s = c :: r -> p c = false) -> lstrip_by p s = s.
Proof.
  destruct s as [|c s]; [reflexivity |]. intros H. simpl. rewrite (H c s eq_refl). reflexivity.
Qed.

Lemma strip_by_nothing p (s : str) :
  (forall c r, s = c :: r -> p c = false) ->
  (forall c, last s = Some c -> p c = false) ->
  strip_by p s = s.
Proof.
  intros Hhead Hlast. unfold strip_by, rstrip_by.
  rewrite (lstrip_by_nothing p s Hhead), lstrip_by_nothing; [apply rev_involutive |].
  intros c r Hrev. apply Hlast.
  apply (f_equal (@rev _)) in Hrev. rewrite rev_involutive in Hrev.
  rewrite Hrev. simpl. apply last_snoc.
Qed.

Lemma filter_all {A} (p : A -> bool) (l : list A) :
  Forall (fun x => p x = true) l -> List.filter p l = l.
Proof. induction 1 as [|x l Hx Hl IH]; [reflexivity |]. simpl. rewrite Hx, IH. reflexivity. Qed.

(** The shape of a slug, in the terms of the steps of [create_slug]. *)
Lemma create_slug_steps (w : World) (title : str) :
  Forall (fun c => slug_char c = true) (create_slug w title)
  /\ no_double_hyphen (create_slug w title)
  /\ (forall c r, create_slug w title = c :: r -> is_hyphen c = false)
  /\ (forall c, last (create_slug w title) = Some c -> is_hyphen c = false).
Proof.
  unfold create_slug. rewrite !u_hyphen. unfold sub_runs.
  set (t := sub_runs_from is_hyphen [c_hyphen] false
              (List.filter slug_char (sub_runs_from is_space [c_hyphen] false (str_lower w title)))).
  assert (Ht : Forall (fun c => slug_char c = true) t).
  { apply sub_runs_from_Forall.
    - repeat constructor.
    - apply Forall_forall. intros c Hc. apply list_elem_of_In, filter_In in Hc. tauto. }
  destruct (strip_by_infix is_hyphen t) as (k1 & k2 & Hk).
  split; [| split; [| split]].
  - rewrite Hk in Ht. apply Forall_app in Ht as [_ Ht]. apply Forall_app in Ht as [Ht _].
    exact Ht.
  - destruct (sub_runs_from_hyphen_shape false
                (List.filter slug_char (sub_runs_from is_space [c_hyphen] false (str_lower w title))))
      as [Hnd _].
    fold t in Hnd. rewrite Hk in Hnd.
    apply no_double_hyphen_app_r in Hnd. apply no_double_hyphen_app_l in Hnd. exact Hnd.
  - apply strip_by_head.
  - apply strip_by_last.
Qed.

(** X13.  [create_slug] is idempotent: when lowercasing leaves a slug as it
    is (it is made of lowercase letters, digits and hyphens), the slug of
    the slug is the slug. *)
Theorem create_slug_of_a_slug (w : World) (title : str) :
  str_lower w (create_slug w title) = create_slug w title ->
  create_slug w (create_slug w title) = create_slug w title.
Proof.
  intros Hlower.
  destruct (create_slug_steps w title) as (Hchars & Hnd & Hhead & Hlast).
  set (t := create_slug w title) in *.
  unfold create_slug. rewrite Hlower, !u_hyphen. unfold sub_runs.
  rewrite (sub_runs_from_nothing is_space).
  - rewrite (filter_all slug_char t Hchars).
    rewrite (sub_runs_from_single_hyphens false t Hnd) by discriminate.
    apply strip_by_nothing; assumption.
  - eapply Forall_impl; [exact Hchars |]. exact slug_char_not_space.
Qed.

Lemma create_slug_of_a_slug_witness :
  let w := Examples.world_of Examples.unreachable in
  create_slug w (u "  Attack on Titan: Final Season -- Part 2! ")
  = u "attack-on-titan-final-season-part-2"
  /\ create_slug w (create_slug w (u "  Attack on Titan: Final Season -- Part 2! "))
     = create_slug w (u "  Attack on Titan: Final Season -- Part 2! ").
Proof.
  cbv zeta. split; [vm_compute; reflexivity |].
  apply (create_slug_of_a_slug (Examples.world_of Examples.unreachable)
           (u "  Attack on Titan: Final Season -- Part 2! ")).
  vm_compute. reflexivity.
Defined.

End SlugAgain.

(** ** Numbers and identifiers written and read back *)

Section Numerals.
Import Str Laws.

Lemma digits_value_acc (d : Decimal.uint) (acc : positive) :
  digits_value (Z.pos acc) (digits d) = Some (Z.pos (Pos.of_uint_acc d acc)).
Proof.
  revert acc. unfold digits.
  induction d as [|d IH|d IH|d IH|d IH|d IH|d IH|d IH|d IH|d IH|d IH]; intros acc;
    [reflexivity | ..];
    cbn [DecimalString.NilEmpty.string_of_uint list_ascii_of_string map digits_value
         Pos.of_uint_acc];
    change (is_digit (byte_of _)) with true; cbv iota;
    rewrite <- IH; f_equal; cbn [byte_of]; cbn; lia.
Qed.

Lemma digits_value_zero (d : Decimal.uint) :
  digits_value 0 (digits d) = Some (Z.of_N (Pos.of_uint d)).
Proof.
  unfold digits.
  induction d as [|d IH|d IH|d IH|d IH|d IH|d IH|d IH|d IH|d IH|d IH];
    [reflexivity | exact IH | ..];
    cbn [DecimalString.NilEmpty.string_of_uint list_ascii_of_string map digits_value
         Pos.of_uint];
    change (is_digit (byte_of _)) with true; cbv iota;
    apply (digits_value_acc d).
Qed.

Lemma digits_are_digits (d : Decimal.uint) : Forall (fun c => is_digit c = true) (digits d).
Proof.
  unfold digits.
  induction d as [|d IH|d IH|d IH|d IH|d IH|d IH|d IH|d IH|d IH|d IH];
    [constructor | ..]; constructor; try reflexivity; exact IH.
Qed.

Lemma digits_nonempty (d : Decimal.uint) : d <> Decimal.Nil -> digits d <> [].
Proof. destruct d; [congruence | ..]; discriminate. Qed.

Lemma of_Z_pos (p : positive) : of_Z (Z.pos p) = digits (Pos.to_uint p).
Proof.
  unfold of_Z, digits. cbn [Z.to_int DecimalString.NilZero.string_of_int].
  unfold DecimalString.NilZero.string_of_uint.
  pose proof (DecimalPos.Unsigned.to_uint_nonnil p) as Hn.
  destruct (Pos.to_uint p); [congruence | ..]; reflexivity.
Qed.

Lemma of_Z_neg (p : positive) : of_Z (Z.neg p) = c_hyphen :: digits (Pos.to_uint p).
Proof.
  unfold of_Z, digits. cbn [Z.to_int DecimalString.NilZero.string_of_int].
  unfold DecimalString.NilZero.string_of_uint.
  pose proof (DecimalPos.Unsigned.to_uint_nonnil p) as Hn.
  destruct (Pos.to_uint p); [congruence | ..]; reflexivity.
Qed.

(** The numeral of an integer is made of digits, after a hyphen when the
    integer is negative. *)
Lemma of_Z_characters (z : Z) :
  Forall (fun c => is_digit c = true \/ c = c_hyphen) (of_Z z).
Proof.
  destruct z as [|p|p].
  - repeat constructor.
  - rewrite of_Z_pos. eapply Forall_impl; [apply digits_are_digits |]. simpl. tauto.
  - rewrite of_Z_neg. constructor; [tauto |].
    eapply Forall_impl; [apply digits_are_digits |]. simpl. tauto.
Qed.

Lemma numeral_character (c : char) :
  is_digit c = true \/ c = c_hyphen -> is_space c = false /\ c <> c_underscore.
Proof.
  unfold is_digit, c_hyphen, is_space, c_underscore.
  rewrite andb_true_iff, !N.leb_le.
  rewrite !orb_false_iff, !andb_false_iff, !N.leb_gt, !N.eqb_neq. lia.
Qed.

Lemma of_Z_no_underscore (z : Z) : ~ In c_underscore (of_Z z).
Proof.
  intros Hin. pose proof (of_Z_characters z) as H. rewrite Forall_forall in H.
  apply list_elem_of_In, H, numeral_character in Hin. tauto.
Qed.

Lemma digit_not_sign (c : char) :
  is_digit c = true -> (c =? c_hyphen)%N = false /\ (c =? c_plus)%N = false.
Proof.
  unfold is_digit, c_hyphen, c_plus. rewrite andb_true_iff, !N.leb_le, !N.eqb_neq. lia.
Qed.

Lemma unsigned_value_digits (p : positive) :
  unsigned_value (digits (Pos.to_uint p)) = Some (Z.pos p).
Proof.
  unfold unsigned_value.
  pose proof (digits_nonempty _ (DecimalPos.Unsigned.to_uint_nonnil p)) as Hne.
  pose proof (digits_value_zero (Pos.to_uint p)) as Hv.
  rewrite DecimalPos.Unsigned.of_to in Hv.
  destruct (digits (Pos.to_uint p)); [congruence | exact Hv].
Qed.

(** [int(str(z))] is [z]. *)
Lemma to_int_of_Z (z : Z) : to_int (of_Z z) = Some z.
Proof.
  unfold to_int.
  assert (Hstrip : strip_by is_space (of_Z z) = of_Z z).
  { pose proof (of_Z_characters z) as H. rewrite Forall_forall in H.
    apply strip_by_nothing.
    - intros c r E. apply (numeral_character c), H, list_elem_of_In. rewrite E. left. reflexivity.
    - intros c E. apply (numeral_character c), H.
      apply last_Some in E as [l' ->]. apply list_elem_of_In, in_or_app. right. left. reflexivity. }
  rewrite Hstrip. destruct z as [|p|p].
  - reflexivity.
  - rewrite of_Z_pos.
    pose proof (unsigned_value_digits p) as Hv.
    pose proof (digits_are_digits (Pos.to_uint p)) as Hd.
    destruct (digits (Pos.to_uint p)) as [|c r]; [discriminate |].
    apply Forall_cons_1 in Hd as [Hc _]. apply digit_not_sign in Hc as [-> ->]. exact Hv.
  - rewrite of_Z_neg. rewrite N.eqb_refl, unsigned_value_digits. reflexivity.
Qed.

End Numerals.

Section Splitting.
Import Str.

Lemma split_nonempty (sep : char) (s : str) : split sep s <> [].
Proof.
  destruct s as [|c r]; simpl; [discriminate |].
  destruct (c =? sep)%N; [discriminate |]. destruct (split sep r); discriminate.
Qed.

(** Splitting at a separator written between two strings splits each. *)
Lemma split_app (sep : char) (a b : str) :
  split sep (a ++ sep :: b) = split sep a ++ split sep b.
Proof.
  induction a as [|c a IH]; simpl.
  - rewrite N.eqb_refl. reflexivity.
  - destruct (c =? sep)%N; [rewrite IH; reflexivity |].
    rewrite IH. pose proof (split_nonempty sep a) as Hne.
    destruct (split sep a); [congruence | reflexivity].
Qed.

Lemma split_none (sep : char) (s : str) : ~ In sep s -> split sep s = [s].
Proof.
  induction s as [|c s IH]; simpl; [reflexivity |]. intros H.
  destruct (N.eqb_spec c sep) as [->|]; [tauto |]. rewrite IH by tauto. reflexivity.
Qed.

(** [sep.join(s.split(sep))] is [s]. *)
Lemma join_split (sep : char) (s : str) : join [sep] (split sep s) = s.
Proof.
  induction s as [|c s IH]; [reflexivity |]. simpl.
  pose proof (split_nonempty sep s) as Hne.
  destruct (N.eqb_spec c sep) as [->|].
  - destruct (split sep s) as [|p ps]; [congruence |].
    change (join [sep] ([] :: p :: ps)) with ([] ++ [sep] ++ join [sep] (p :: ps)).
    rewrite IH. reflexivity.
  - destruct (split sep s) as [|p ps]; [congruence |].
    destruct ps as [|q qs]; simpl in *; rewrite <- IH; reflexivity.
Qed.

End Splitting.

(** ** Keyboards and the branches their buttons reach *)

Section Routing.
Import Str Py Env Tg App Spec Router Keyboards Laws.

Lemma startswith_app (s p q : str) : startswith s (p ++ q) = true -> startswith s p = true.
Proof.
  revert s. induction p as [|a p IH]; intros s; [destruct s; reflexivity |].
  destruct s as [|b s]; simpl; [discriminate |].
  rewrite !andb_true_iff. intros [Hab H]. split; [exact Hab | apply IH, H].
Qed.

Lemma res_Ok_inj {A} (a b : A) : Ok a = Ok b -> a = b.
Proof. congruence. Qed.

Lemma anime_chars_prefix : u "anime_chars_" = u "anime_" ++ u "chars_".
Proof. reflexivity. Qed.

(** X14.  Two branches of [button_handler] are never taken.  The test for
    [anime_chars_] stands after the test for [anime_], and the second test
    for [character_] after the first: an identifier that would pass them is
    taken by the earlier branch.  So the button "Personnages" of an anime
    card reaches the branch that shows an anime, not the list of
    characters. *)
Theorem character_branches_are_never_taken (data : str) :
  select data chain <> Some AnimeChars
  /\ select data chain <> Some CharacterFull
  /\ (startswith data (u "anime_chars_") = true -> select data chain = Some Anime).
Proof.
  assert (Hpre : startswith data (u "anime_chars_") = true ->
                 startswith data (u "anime_") = true).
  { rewrite anime_chars_prefix. apply startswith_app. }
  unfold chain. cbn [select passes].
  destruct (startswith data (u "page_")) eqn:Hpage.
  { split; [discriminate |]. split; [discriminate |].
    intros H. apply Hpre in H. exfalso. revert Hpage H. clear.
    destruct data as [|c data]; [discriminate |]. cbn [startswith].
    change (u "page_") with (112%N :: u "age_"). change (u "anime_") with (97%N :: u "nime_").
    cbn [startswith]. destruct (N.eqb_spec 112 c); destruct (N.eqb_spec 97 c);
      try discriminate. subst. discriminate. }
  destruct (startswith data (u "anime_")) eqn:Hanime.
  { repeat split; discriminate. }
  assert (Hno : startswith data (u "anime_chars_") = false).
  { destruct (startswith data (u "anime_chars_")); [| reflexivity].
    symmetry. apply Hpre. reflexivity. }
  rewrite Hno. cbv iota.
  split; [| split; [| discriminate]];
    repeat (match goal with
            | |- context [if startswith data ?p then _ else _] =>
              destruct (startswith data p)
            | |- context [if str_eqb data ?p then _ else _] =>
              destruct (str_eqb data p)
            end; cbv iota; try discriminate).
Qed.

(** X15.  The buttons of an anime card and the branches they reach:
    synopsis, details, studio, trailer, similar titles and streaming reach
    their own branch, and for a user who is given the two buttons of the
    last row reach the favorites and the lists; the button "Personnages"
    reaches the branch of [anime_]. *)
Theorem anime_card_buttons_reach (w : World) (anime_id : pyval) (user_id : option Z)
    (st : Db.Store) (kb : keyboard) :
  create_anime_navigation_keyboard w anime_id user_id st = Ok kb ->
  routes kb
  = [ [Some Synopsis; Some Details]; [Some Studio; Some Trailer];
      [Some Anime; Some Similar]; [Some Streaming] ]
    ++ (if signed_in user_id then [ [Some Fav; Some Lists] ] else []).
Proof.
  unfold create_anime_navigation_keyboard, signed_in.
  generalize (format w anime_id). intros x.
  destruct user_id as [uid|]; [destruct (uid =? 0) |].
  - intros H. apply res_Ok_inj in H. subst kb. destruct x; vm_compute; reflexivity.
  - destruct (is_favorite_of w uid anime_id st) as [is_fav|e]; [| discriminate].
    rewrite res_mbind_ok. intros H. apply res_Ok_inj in H. subst kb.
    destruct x; vm_compute; reflexivity.
  - intros H. apply res_Ok_inj in H. subst kb. destruct x; vm_compute; reflexivity.
Qed.

Lemma anime_card_buttons_reach_witness :
  exists kb,
    create_anime_navigation_keyboard (Examples.world_of Examples.unreachable) (PInt 42)
      (Some 1) Samples.fan_of_42 = Ok kb
    /\ nth_error kb 2
       = Some [ Button (u "👥 Personnages") (u "anime_chars_42");
                Button (u "🎯 Similaires") (u "similar_42") ]
    /\ nth_error kb 4
       = Some [ Button (u "❤️ Retirer des Favoris") (u "fav_42");
                Button (u "📋 Listes") (u "lists_42") ]
    /\ nth_error (routes kb) 2 = Some [Some Anime; Some Similar].
Proof.
  pose proof (anime_card_buttons_reach (Examples.world_of Examples.unreachable) (PInt 42)
                (Some 1) Samples.fan_of_42) as Hr.
  destruct (create_anime_navigation_keyboard _ _ _ _) as [kb|e] eqn:E;
    [| vm_compute in E; discriminate].
  exists kb. specialize (Hr kb eq_refl). split; [reflexivity |].
  vm_compute in E. apply res_Ok_inj in E. subst kb.
  split; [vm_compute; reflexivity |]. split; [vm_compute; reflexivity |].
  rewrite Hr. reflexivity.
Defined.

Lemma watch_parts (status : string) (anime_id : Z) :
  ~ In c_underscore (u status) ->
  split c_underscore (u "watch" ++ c_underscore :: u status ++ c_underscore :: of_Z anime_id)
  = [u "watch"; u status; of_Z anime_id].
Proof.
  intros Hs. rewrite split_app, split_app.
  rewrite (split_none _ (of_Z anime_id)) by apply of_Z_no_underscore.
  rewrite (split_none _ (u status)) by exact Hs.
  reflexivity.
Qed.

Ltac decode_watch anime_id :=
  unfold watch_branch, set_status; cbv zeta;
  match goal with
  | |- context [split c_underscore (u ?lit ++ of_Z anime_id)] =>
    match lit with
    | "watch_plan_"%string =>
      change (u lit ++ of_Z anime_id)
        with (u "watch" ++ c_underscore :: u "plan" ++ c_underscore :: of_Z anime_id)
    | "watch_watch_"%string =>
      change (u lit ++ of_Z anime_id)
        with (u "watch" ++ c_underscore :: u "watch" ++ c_underscore :: of_Z anime_id)
    | "watch_comp_"%string =>
      change (u lit ++ of_Z anime_id)
        with (u "watch" ++ c_underscore :: u "comp" ++ c_underscore :: of_Z anime_id)
    | "watch_drop_"%string =>
      change (u lit ++ of_Z anime_id)
        with (u "watch" ++ c_underscore :: u "drop" ++ c_underscore :: of_Z anime_id)
    end
  end;
  rewrite watch_parts by (vm_compute; intuition discriminate);
  unfold part; cbn [nth_error]; run;
  unfold py_int; rewrite to_int_of_Z; run;
  reflexivity.

(** X16.  The keyboard of the lists and the handler agree.  Its four status
    buttons reach the branch of [watch_], which reads back from each
    identifier the anime the keyboard was made for and the status named on
    the button; the button of the progress is there exactly when the user
    has a watch record of the anime; the last button leads back to the
    anime. *)
Theorem lists_buttons_set_the_status (v : Views) (anime_id user_id : Z) (st : Db.Store)
    (w : World) (s : State) :
  routes (create_lists_keyboard anime_id user_id st)
  = [ [Some Watch; Some Watch]; [Some Watch; Some Watch] ]
    ++ (match Db.get_watch_status user_id anime_id st with
        | Some _ => [ [Some Progress] ]
        | None => []
        end)
    ++ [ [Some Anime] ]
  /\ watch_branch v (u "watch_plan_" ++ of_Z anime_id) user_id w s
     = set_status v user_id anime_id (u "plan_to_watch") w s
  /\ watch_branch v (u "watch_watch_" ++ of_Z anime_id) user_id w s
     = set_status v user_id anime_id (u "watching") w s
  /\ watch_branch v (u "watch_comp_" ++ of_Z anime_id) user_id w s
     = set_status v user_id anime_id (u "completed") w s
  /\ watch_branch v (u "watch_drop_" ++ of_Z anime_id) user_id w s
     = set_status v user_id anime_id (u "dropped") w s.
Proof.
  split; [| split; [| split; [| split]]].
  - unfold create_lists_keyboard. generalize (of_Z anime_id). intros x.
    destruct (Db.get_watch_status user_id anime_id st); destruct x; vm_compute; reflexivity.
  - decode_watch anime_id.
  - decode_watch anime_id.
  - decode_watch anime_id.
  - decode_watch anime_id.
Qed.

(** X17.  The keyboard of the top list has four rows for every page and
    every number of pages: three rows of filters and the row of the
    position, which is never empty.  The arrow back is there from page 2
    on, the arrow forward up to the page before the last, and every button
    reaches the branch of [top_], the position label that of [noop].  A
    number of pages that is null raises a [TypeError]. *)
Theorem top_keyboard_has_four_rows (w : World) (current_filter : str)
    (current_page total_pages : Z) :
  (exists kb,
     create_top_anime_keyboard w current_filter current_page (PInt total_pages) = Ok kb
     /\ length kb = 4%nat
     /\ routes kb
        = [ [Some Top; Some Top; Some Top]; [Some Top; Some Top; Some Top];
            [Some Top; Some Top];
            (if 1 <? current_page then [Some Top] else [])
            ++ [Some Noop]
            ++ (if current_page <? total_pages then [Some Top] else []) ])
  /\ create_top_anime_keyboard w current_filter current_page PNone = Raise TypeError.
Proof.
  split; [| reflexivity].
  unfold create_top_anime_keyboard. cbn [as_count]. rewrite res_mbind_ok. cbv zeta.
  generalize (of_Z current_page ++ u "/" ++ format w (PInt total_pages)). intros position.
  generalize (current_filter ++ u "_" ++ of_Z (current_page - 1)). intros back.
  generalize (current_filter ++ u "_" ++ of_Z (current_page + 1)). intros forward.
  destruct (1 <? current_page), (current_page <? total_pages);
    (eexists; split; [reflexivity |]; split; [reflexivity |]);
    destruct back, forward; vm_compute; reflexivity.
Qed.

Lemma page_parts (search_type : string) (query : str) (page : Z) :
  ~ In c_underscore (u search_type) ->
  split c_underscore
    (u "page" ++ c_underscore :: u search_type ++ c_underscore :: query
       ++ c_underscore :: of_Z page)
  = (u "page" :: u search_type :: split c_underscore query) ++ [of_Z page].
Proof.
  intros Hs. rewrite split_app, split_app, split_app.
  rewrite (split_none _ (of_Z page)) by apply of_Z_no_underscore.
  rewrite (split_none _ (u search_type)) by exact Hs.
  reflexivity.
Qed.

Lemma page_parts_length (a b x : str) (l : list str) :
  l <> [] -> (4 <=? length ((a :: b :: l) ++ [x]))%nat = true.
Proof.
  intros Hl. destruct l as [|c l]; [congruence |].
  cbn [app length]. rewrite length_app. cbn [length]. apply Nat.leb_le. lia.
Qed.

Ltac decode_page :=
  unfold page_branch; cbv zeta;
  rewrite page_parts by (vm_compute; intuition discriminate);
  rewrite page_parts_length by apply split_nonempty;
  rewrite last_last;
  cbn [app nth skipn]; rewrite ?skipn_O;
  rewrite !removelast_last;
  change (u "_") with [c_underscore]; rewrite join_split;
  run; unfold py_int; rewrite to_int_of_Z; run.

(** X18.  The arrows of a results keyboard carry the query and the page,
    and the branch of [page_] reads them back: pressing an arrow made for a
    query and a page shows this page of the results stored for this query,
    also when the query contains underscores or is empty, and for every
    page number, negative ones included. *)
Theorem page_buttons_show_their_page (query : str) (page : Z) (w : World) (s : State) :
  page_branch (u "page_" ++ u "anime" ++ u "_" ++ query ++ u "_" ++ of_Z page) w s
  = show_page
      (if bool_decide (is_Some (user_data s !! (u "season_results_" ++ query)))
       then u "season_results_" ++ query
       else u "search_results_" ++ query)
      query (u "anime") page w s
  /\ page_branch (u "page_" ++ u "character" ++ u "_" ++ query ++ u "_" ++ of_Z page) w s
     = show_page (u "character_results_" ++ query) query (u "character") page w s.
Proof.
  split.
  - change (u "page_" ++ u "anime" ++ u "_" ++ query ++ u "_" ++ of_Z page)
      with (u "page" ++ c_underscore :: u "anime" ++ c_underscore :: query
              ++ c_underscore :: of_Z page).
    decode_page. rewrite str_eqb_refl. unfold get_user_data at 1. run. reflexivity.
  - change (u "page_" ++ u "character" ++ u "_" ++ query ++ u "_" ++ of_Z page)
      with (u "page" ++ c_underscore :: u "character" ++ c_underscore :: query
              ++ c_underscore :: of_Z page).
    decode_page.
    change (str_eqb (u "character") (u "anime")) with false.
    rewrite str_eqb_refl. reflexivity.
Qed.

Lemma mapM_res_Forall2 {A B} (f : A -> res B) (l : list A) (r : list B) :
  mapM f l = Ok r -> Forall2 (fun x y => f x = Ok y) l r.
Proof.
  revert r. induction l as [|x l IH]; intros r.
  - intros [= <-]. constructor.
  - rewrite mapM_res_cons. destruct (f x) as [y|e] eqn:Hy; [| discriminate].
    rewrite res_bind_ok. destruct (mapM f l) as [k|e]; [| discriminate].
    rewrite res_bind_ok. intros [= <-]. constructor; [exact Hy | apply IH; reflexivity].
Qed.

Lemma shorten_length (title : str) : (length (shorten 35 title) <= 35)%nat.
Proof.
  unfold shorten. destruct (Nat.ltb_spec 35 (length title)); [| assumption].
  rewrite length_app, length_firstn, length_dots. lia.
Qed.

Lemma item_button_reaches (w : World) (search_type : str) (item : pyval) (b : button) :
  item_button w search_type item = Ok b ->
  select (callback_data b) chain
  = Some (if str_eqb search_type (u "anime") then Anime else Character)
  /\ (length (label b) <= 35)%nat.
Proof.
  unfold item_button. destruct (str_eqb search_type (u "anime")).
  - destruct (get item (u "title") _) as [t|e]; [| discriminate]. rewrite res_mbind_ok.
    destruct (decode_html_entities w t) as [title|e]; [| discriminate]. rewrite res_mbind_ok.
    destruct (get item (u "mal_id") PNone) as [item_id|e]; [| discriminate].
    rewrite res_mbind_ok. intros H. apply res_Ok_inj in H. subst b.
    cbn [callback_data label]. split; [| apply shorten_length].
    destruct (format w item_id); vm_compute; reflexivity.
  - destruct (get item (u "name") _) as [t|e]; [| discriminate]. rewrite res_mbind_ok.
    destruct (decode_html_entities w t) as [title|e]; [| discriminate]. rewrite res_mbind_ok.
    destruct (get item (u "mal_id") PNone) as [item_id|e]; [| discriminate].
    rewrite res_mbind_ok. intros H. apply res_Ok_inj in H. subst b.
    cbn [callback_data label]. split; [| apply shorten_length].
    destruct (format w item_id); vm_compute; reflexivity.
Qed.

Lemma range_length (a b : Z) : length (range a b) = Z.to_nat (b - a).
Proof. unfold range. rewrite length_map, length_seq. reflexivity. Qed.

(** X19.  A results keyboard that is built shows one page: one row of one
    button for each result of the page, five at most, each reaching the
    branch of [anime_] for a search of animes and the first branch of
    [character_] otherwise, each with a label of at most 35 characters;
    then the row of the position, exactly when there are more than five
    results. *)
Theorem results_keyboard_shows_one_page (w : World) (l : list pyval) (page : Z)
    (query search_type : str) (kb : keyboard) :
  create_search_pagination_keyboard w (PList l) page query search_type = Ok kb ->
  exists rows nav,
    kb = rows ++ nav
    /\ length rows
       = Z.to_nat (Z.min (page * 5 + 5) (Z.of_nat (length l)) - page * 5)
    /\ (length rows <= 5)%nat
    /\ Forall (fun row =>
                exists b, row = [b]
                  /\ select (callback_data b) chain
                     = Some (if str_eqb search_type (u "anime") then Anime else Character)
                  /\ (length (label b) <= 35)%nat) rows
    /\ length nav = if 5 <? Z.of_nat (length l) then 1%nat else 0%nat.
Proof.
  unfold create_search_pagination_keyboard. cbn [len]. rewrite res_mbind_ok. cbv zeta.
  destruct (mapM _ (range _ _)) as [rows|e] eqn:Hrows; [| discriminate].
  rewrite res_mbind_ok.
  apply mapM_res_Forall2 in Hrows.
  assert (Hlen : length rows
                 = Z.to_nat (Z.min (page * 5 + 5) (Z.of_nat (length l)) - page * 5)).
  { rewrite <- (Forall2_length _ _ _ Hrows). apply range_length. }
  assert (Hitems : Forall (fun row =>
                exists b, row = [b]
                  /\ select (callback_data b) chain
                     = Some (if str_eqb search_type (u "anime") then Anime else Character)
                  /\ (length (label b) <= 35)%nat) rows).
  { clear Hlen. induction Hrows as [|i row idx rows Hrow _ IH]; constructor; [| exact IH].
    destruct (index (PList l) i) as [item|e]; [| discriminate]. rewrite res_mbind_ok in Hrow.
    destruct (item_button w search_type item) as [b|e] eqn:Hb; [| discriminate].
    rewrite res_mbind_ok in Hrow. apply res_Ok_inj in Hrow. subst row.
    exists b. split; [reflexivity |]. eapply item_button_reaches. exact Hb. }
  assert (Hpages : (1 <? Z.max 1 (ceil_div (Z.of_nat (length l)) 5))
                   = (5 <? Z.of_nat (length l))).
  { unfold ceil_div.
    destruct (Z.ltb_spec 5 (Z.of_nat (length l))) as [Hn | Hn]; apply Z.ltb_lt || apply Z.ltb_ge.
    - assert (2 <= (Z.of_nat (length l) + 5 - 1) / 5) by (apply Z.div_le_lower_bound; lia). lia.
    - assert ((Z.of_nat (length l) + 5 - 1) / 5 < 2) by (apply Z.div_lt_upper_bound; lia). lia. }
  rewrite Hpages.
  destruct (5 <? Z.of_nat (length l)); intros H; apply res_Ok_inj in H; subst kb.
  - eexists rows, [_]. split; [reflexivity |]. split; [exact Hlen |].
    split; [lia |]. split; [exact Hitems | reflexivity].
  - exists rows, []. split; [symmetry; apply app_nil_r |]. split; [exact Hlen |].
    split; [lia |]. split; [exact Hitems | reflexivity].
Qed.

Lemma results_keyboard_shows_one_page_witness :
  exists rows nav,
    create_search_pagination_keyboard (Examples.world_of Examples.unreachable)
      Examples.six_results 1 (u "naruto") (u "anime") = Ok (rows ++ nav)
    /\ rows ++ nav
       = [ [ Button (u "Naruto") (u "anime_6") ];
           [ Button (u "⬅️") (u "page_anime_naruto_0"); Button (u "2/2") (u "noop") ] ]
    /\ length rows = 1%nat
    /\ length nav = 1%nat
    /\ routes rows = map (fun _ => [Some Anime]) rows.
Proof.
  destruct (results_keyboard_shows_one_page (Examples.world_of Examples.unreachable)
              (map (fun k => PDict [ (u "mal_id", PInt k); (u "title", PStr (u "Naruto")) ])
                   [1; 2; 3; 4; 5; 6])
              1 (u "naruto") (u "anime")
              [ [ Button (u "Naruto") (u "anime_6") ];
                [ Button (u "⬅️") (u "page_anime_naruto_0"); Button (u "2/2") (u "noop") ] ])
    as (rows & nav & Hkb & Hlen & _ & Hitems & Hnav).
  - vm_compute. reflexivity.
  - exists rows, nav. rewrite <- Hkb.
    split; [vm_compute; reflexivity |]. split; [reflexivity |].
    split; [exact Hlen |]. split; [exact Hnav |].
    clear Hkb Hlen Hnav. unfold routes.
    induction Hitems as [|row rows (b & -> & Hb & _) _ IH]; [reflexivity |].
    cbn [map]. rewrite Hb, IH. reflexivity.
Defined.



End Routing.
(** ** The statistics of a user *)

Section Statistics.
Import Str Py Env Db Order Stats Laws.

Lemma statuses_differ :
  str_eqb s_plan_to_watch s_watching = false
  /\ str_eqb s_plan_to_watch s_completed = false
  /\ str_eqb s_plan_to_watch s_dropped = false
  /\ str_eqb s_watching s_plan_to_watch = false
  /\ str_eqb s_watching s_completed = false
  /\ str_eqb s_watching s_dropped = false
  /\ str_eqb s_completed s_plan_to_watch = false
  /\ str_eqb s_completed s_watching = false
  /\ str_eqb s_completed s_dropped = false
  /\ str_eqb s_dropped s_plan_to_watch = false
  /\ str_eqb s_dropped s_watching = false
  /\ str_eqb s_dropped s_completed = false.
Proof. repeat split; reflexivity. Qed.

Lemma with_status_cons (status : str) (r : watch_row) (rows : list watch_row) :
  with_status status (r :: rows)
  = (if str_eqb (w_status r) status then 1 else 0) + with_status status rows.
Proof.
  unfold with_status. cbn [List.filter].
  destruct (str_eqb (w_status r) status); cbn [length]; lia.
Qed.

(** The loop over the watch records counts, for each of the four statuses,
    the records that have it. *)
Lemma count_statuses_counts (rows : list watch_row) (a b c d : Z) :
  Forall (fun r => valid_status (w_status r)) rows ->
  count_statuses rows
    [ (s_plan_to_watch, a); (s_watching, b); (s_completed, c); (s_dropped, d) ]
  = Ok [ (s_plan_to_watch, a + with_status s_plan_to_watch rows);
         (s_watching, b + with_status s_watching rows);
         (s_completed, c + with_status s_completed rows);
         (s_dropped, d + with_status s_dropped rows) ].
Proof.
  destruct statuses_differ as (E1 & E2 & E3 & E4 & E5 & E6 & E7 & E8 & E9 & E10 & E11 & E12).
  intros H. revert a b c d. induction H as [|r rows Hr Hrows IH]; intros a b c d.
  - unfold with_status. cbn [List.filter length count_statuses]. rewrite !Z.add_0_r.
    reflexivity.
  - cbn [count_statuses]. rewrite !with_status_cons.
    destruct Hr as [Hr | [Hr | [Hr | [Hr | []]]]]; rewrite <- Hr; cbn [incr];
      rewrite ?str_eqb_refl, ?E1, ?E2, ?E3, ?E4, ?E5, ?E6, ?E7, ?E8, ?E9, ?E10, ?E11, ?E12;
      cbn [incr];
      rewrite ?str_eqb_refl, ?E1, ?E2, ?E3, ?E4, ?E5, ?E6, ?E7, ?E8, ?E9, ?E10, ?E11, ?E12;
      rewrite ?res_mbind_ok; rewrite IH;
      repeat match goal with
             | |- Ok _ = Ok _ => apply f_equal
             | |- _ :: _ = _ :: _ => apply f_equal2
             | |- (_, _) = (_, _) => apply f_equal2
             | |- @eq Z _ _ => lia
             | |- _ => reflexivity
             end.
Qed.

Lemma statuses_partition (rows : list watch_row) :
  Forall (fun r => valid_status (w_status r)) rows ->
  with_status s_plan_to_watch rows + with_status s_watching rows
  + with_status s_completed rows + with_status s_dropped rows
  = Z.of_nat (length rows).
Proof.
  destruct statuses_differ as (E1 & E2 & E3 & E4 & E5 & E6 & E7 & E8 & E9 & E10 & E11 & E12).
  induction 1 as [|r rows Hr Hrows IH]; [reflexivity |].
  rewrite !with_status_cons. cbn [length]. rewrite Nat2Z.inj_succ, <- IH.
  destruct Hr as [Hr | [Hr | [Hr | [Hr | []]]]]; rewrite <- Hr;
    rewrite ?str_eqb_refl, ?E1, ?E2, ?E3, ?E4, ?E5, ?E6, ?E7, ?E8, ?E9, ?E10, ?E11, ?E12; lia.
Qed.

(** X21.  On a table of watch records that passes its CHECK constraints,
    [format_user_stats] returns a text: the loop over the records never
    meets a status it has no counter for.  The four counts shown are the
    numbers of the user's records of each status, and the total is the
    number of favorites plus the number of watch records, an anime that is
    both a favorite and on the watch list being counted twice. *)
Theorem format_user_stats_counts_by_status (user_id : Z) (st : Store) :
  watch_rows_checked st ->
  let favorites := get_favorites user_id st in
  let watchlist := get_watchlist user_id None st in
  format_user_stats user_id st
  = render (Z.of_nat (length favorites))
      [ (s_plan_to_watch, with_status s_plan_to_watch watchlist);
        (s_watching, with_status s_watching watchlist);
        (s_completed, with_status s_completed watchlist);
        (s_dropped, with_status s_dropped watchlist) ]
      (Z.of_nat (length favorites) + Z.of_nat (length watchlist))
      (get_achievements user_id st).
Proof.
  intros Hc favorites watchlist.
  assert (Hvalid : Forall (fun r => valid_status (w_status r)) watchlist).
  { apply Forall_forall. intros r Hr. apply list_elem_of_In in Hr.
    unfold watchlist, get_watchlist in Hr.
    apply (Permutation_in _ (sort_desc_perm w_updated_at _)) in Hr.
    apply filter_In in Hr as [Hr _].
    unfold watch_rows_checked in Hc. rewrite Forall_forall in Hc.
    apply list_elem_of_In, Hc, watch_checks_valid in Hr. tauto. }
  unfold format_user_stats. fold favorites. fold watchlist.
  rewrite (count_statuses_counts watchlist 0 0 0 0 Hvalid), res_mbind_ok.
  rewrite !Z.add_0_l. cbv zeta. f_equal. f_equal.
  unfold total. cbn [map snd foldr].
  rewrite <- (statuses_partition watchlist Hvalid). lia.
Qed.

Lemma format_user_stats_counts_by_status_witness :
  format_user_stats 1 Samples.busy_user
  = render 1 [ (s_plan_to_watch, 0); (s_watching, 1); (s_completed, 2); (s_dropped, 0) ] 4
      (get_achievements 1 Samples.busy_user)
  /\ exists text, format_user_stats 1 Samples.busy_user = Ok text.
Proof.
  rewrite (format_user_stats_counts_by_status 1 Samples.busy_user).
  - split; [reflexivity |]. eexists. reflexivity.
  - repeat constructor.
Defined.

End Statistics.

(** ** The cache of characters *)

Section Characters.
Import Str Py Env App Spec Laws.






End Characters.

(** ** What the client leaves in the cache *)

Section Catalog.
Import Str Py Env App Spec Laws.












End Catalog.

(** ** Personal recommendations *)

Section Personal.
Import Str Py Env App Spec Engine Laws.







Lemma cache_of_text_raises (w : World) (k : str) (items : list pyval) (s : State) :
  for_each (PStr k :: items) cache_anime w s = (Raise AttributeError, s).
Proof. reflexivity. Qed.

Lemma py_or_true_or_default (d dflt : pyval) :
  py_or d dflt = dflt \/ (py_or d dflt = d /\ truthy d = true).
Proof. unfold py_or. destruct (truthy d); auto. Qed.

(** The first component of what [get_top_anime] returns is a list, so it
    has no [mal_id]. *)
Lemma get_top_anime_first_is_a_list (w : World) (s s' : State) (filter_type : str)
    (page limit : Z) (r : pyval) :
  Jikan.get_top_anime filter_type page limit w s = (Ok r, s') ->
  exists anime_list last_page,
    r = PTuple [anime_list; last_page]
    /\ getitem anime_list (u "mal_id") = Raise TypeError.
Proof.
  unfold Jikan.get_top_anime, try_except. run. unfold requests_get.
  assert (Hcaught : forall (e : exn) (s1 : State),
            (if is_request_exception w e
             then (mret (PTuple [PList []; PInt 1]) : M pyval) w s1
             else (Raise e, s1)) = (Ok r, s') ->
            exists anime_list last_page,
              r = PTuple [anime_list; last_page]
              /\ getitem anime_list (u "mal_id") = Raise TypeError).
  { intros e s1. destruct (is_request_exception w e); [| discriminate].
    rewrite run_ret. intros [= <- _]. eauto. }
  destruct (http_get w (length (requests s)) _) as [|code body]; cbv iota.
  - apply Hcaught.
  - run. destruct (code =? 200); [| rewrite run_ret; intros [= <- _]; eauto].
    unfold json. destruct body as [data|].
    + run. destruct (get data (u "data") PNone) as [d|e]; cbv iota; [| apply Hcaught].
      run.
      assert (Hshape : getitem (py_or d (PList [])) (u "mal_id") = Raise TypeError
                       \/ exists k items, iter (py_or d (PList [])) = Ok (PStr k :: items)).
      { destruct (py_or_true_or_default d (PList [])) as [-> | [-> Ht]]; [left; reflexivity |].
        destruct d as [| | | |[|c x]|l|l|[|[k v] dd]]; try discriminate;
          try (left; reflexivity); right; eexists _, _; reflexivity. }
      destruct Hshape as [Hlist | (k & items & Hiter)].
      * destruct (iter (py_or d (PList []))) as [items|e]; cbv iota; [| apply Hcaught].
        run. destruct (for_each items cache_anime w _) as [[x|e] s1]; cbv iota;
          [| apply Hcaught].
        run. destruct (get data (u "pagination") (PDict [])) as [pg|e]; cbv iota;
          [| apply Hcaught].
        run. destruct (get pg (u "last_visible_page") (PInt 1)) as [lp|e]; cbv iota;
          [| apply Hcaught].
        run. intros [= <- _]. eauto.
      * rewrite Hiter. cbv iota. run. rewrite cache_of_text_raises. cbv iota.
        apply Hcaught.
    + unfold raise. cbv iota. apply Hcaught.
Qed.

Lemma run_bind_raise {A B} (m : M A) (k : A -> M B) (w : World) (s s' : State) (e : exn) :
  m w s = (Raise e, s') -> (m ≫= k) w s = (Raise e, s').
Proof. intros H. rewrite run_bind, H. reflexivity. Qed.

(** The loop over what [get_top_anime] returned stops at its first item. *)
Lemma top_up_raises (w : World) (ids : list Z) (limit : Z) (recommendations : list pyval)
    (s : State) :
  exists e s',
    (top_anime ← Jikan.get_top_anime (u "all") 1 (limit * 2);
     animes ← lift (iter top_anime);
     lift (append_new ids limit animes recommendations)) w s = (Raise e, s').
Proof.
  run. destruct (Jikan.get_top_anime (u "all") 1 (limit * 2) w s) as [[top_anime|e] s1] eqn:Et;
    cbv iota; [| eauto].
  destruct (get_top_anime_first_is_a_list _ _ _ _ _ _ _ Et) as (x & lp & -> & Hx).
  cbn [iter]. run. cbn [append_new]. unfold is_new. rewrite Hx. eauto.
Qed.



(** X26.  When the searches by genre leave fewer than [limit]
    recommendations, [get_personal_recommendations] does not return: the
    step that should complete them with popular animes loops over the pair
    that [get_top_anime] returns and raises at its first item. *)
Theorem too_few_recommendations_raise (w : World) (s s1 s2 : State) (user_id limit : Z)
    (genre_counter : list (pyval * Z)) (recommendations : list pyval) :
  Db.get_favorites user_id (store s) <> [] \/ Db.get_watchlist user_id None (store s) <> [] ->
  genre_tally (known_set w user_id (store s)) [] w s = (Ok genre_counter, s1) ->
  by_genre (known_set w user_id (store s)) limit (top_genres genre_counter) [] w s1
  = (Ok recommendations, s2) ->
  Z.of_nat (length recommendations) < limit ->
  exists e s3, get_personal_recommendations user_id limit w s = (Raise e, s3).
Proof.
  intros Hknown Ht Hg Hfew. rewrite (recommendations_personal _ _ _ _ Hknown).
  run. rewrite Ht. cbv iota. run. rewrite Hg. cbv iota.
  destruct (Z.ltb_spec (Z.of_nat (length recommendations)) limit) as [_ | Hall]; [| lia].
  destruct (top_up_raises w (known_set w user_id (store s)) limit recommendations s2)
    as (e & s3 & Hraise).
  cbv iota. rewrite (run_bind_raise _ _ _ _ _ _ Hraise). eauto.
Qed.

Lemma too_few_recommendations_raise_witness :
  exists e s3,
    get_personal_recommendations 1 5 (Examples.world_of Examples.unreachable) Samples.fan
    = (Raise e, s3).
Proof.
  eapply (too_few_recommendations_raise (Examples.world_of Examples.unreachable)
            Samples.fan _ _ 1 5 _ _).
  - left. vm_compute. discriminate.
  - vm_compute. reflexivity.
  - vm_compute. reflexivity.
  - vm_compute. reflexivity.
Defined.

End Personal.

